(** * County statistics pipelines: BEA ("Business Index") and Census
      ("EducationIndex")

    A shallow embedding of the two [main.py] scripts and the properties of
    their retry loop, row transformer and aggregation step.

    Python values are an inductive type, exceptions are values of an error
    type, and every function that touches the network, the clock, the
    console or the file system is a computation in a state-and-exception
    monad over an explicit [World].  What the scripts obtain from outside
    (the HTTP replies, and the parts of pandas that are not spelled out
    below) is gathered in one record, [Externals], over which every
    statement is universally quantified. *)

From Stdlib Require Import ZArith List String Ascii Bool Lia.
From Stdlib Require Import PrimFloat SpecFloat FloatOps Uint63.
Import ListNotations.

Local Open Scope string_scope.
Local Open Scope list_scope.
Local Open Scope Z_scope.

(** ** Python values *)

(** The values [json.loads] produces, which are also the cells of a data
    frame.  A [str] is a sequence of characters, each carried by an
    [ascii]; a [dict] keeps its insertion order. *)
#[warnings="-register-all"]
Inductive pyval : Type :=
| PNone
| PBool (b : bool)
| PInt (z : Z)
| PFloat (f : float)
| PStr (s : string)
| PList (items : list pyval)
| PDict (items : list (pyval * pyval)).

Definition NaN : pyval := PFloat PrimFloat.nan.

(** [bool(v)], as used by [if v:] and [if not v:]. *)
Definition py_truthy (v : pyval) : bool :=
  match v with
  | PNone => false
  | PBool b => b
  | PInt z => negb (z =? 0)
  | PFloat f => negb (PrimFloat.eqb f PrimFloat.zero)
  | PStr s => negb (String.eqb s "")
  | PList l => match l with [] => false | _ => true end
  | PDict l => match l with [] => false | _ => true end
  end.

Definition Z_of_bool (b : bool) : Z := if b then 1 else 0.

(** Exact comparison of a binary64 number with an integer. *)
Definition float_eq_Z (f : float) (z : Z) : bool :=
  match Prim2SF f with
  | S754_zero _ => z =? 0
  | S754_finite s m e =>
      let sm := if s then Z.neg m else Z.pos m in
      if 0 <=? e then sm * 2 ^ e =? z else sm =? z * 2 ^ (- e)
  | _ => false
  end.

(** [a == b] on hashable values: [None], [str] and the numeric tower
    ([True == 1 == 1.0]).  Lists and dicts are never keys. *)
Definition py_key_eqb (a b : pyval) : bool :=
  match a, b with
  | PNone, PNone => true
  | PStr s, PStr t => String.eqb s t
  | PBool x, PBool y => Bool.eqb x y
  | PBool x, PInt z => Z_of_bool x =? z
  | PInt z, PBool x => Z_of_bool x =? z
  | PInt x, PInt y => x =? y
  | PFloat f, PFloat g => PrimFloat.eqb f g
  | PFloat f, PInt z => float_eq_Z f z
  | PInt z, PFloat f => float_eq_Z f z
  | PFloat f, PBool x => float_eq_Z f (Z_of_bool x)
  | PBool x, PFloat f => float_eq_Z f (Z_of_bool x)
  | _, _ => false
  end.

Definition py_hashable (v : pyval) : bool :=
  match v with
  | PList _ | PDict _ => false
  | _ => true
  end.

(** ** Exceptions and results *)

(** The exception classes the scripts can meet.  All of them derive from
    [Exception]; signals that do not (a keyboard interrupt) are
    asynchronous and outside the embedding. *)
Inductive Exc : Type :=
| RequestException      (* requests.exceptions.RequestException and subclasses *)
| JSONDecodeError
| TypeError
| KeyError
| IndexError
| ValueError
| UnboundLocalError
| InvalidIndexError
| OtherException (name : string).

Definition is_RequestException (e : Exc) : bool :=
  match e with RequestException => true | _ => false end.

Definition is_JSONDecodeError (e : Exc) : bool :=
  match e with JSONDecodeError => true | _ => false end.

Definition is_Exception (e : Exc) : bool := true.

Inductive Res (A : Type) : Type :=
| Ret (a : A)
| Raise (e : Exc).
Arguments Ret {A} a.
Arguments Raise {A} e.

(** ** Containers: [in], [[]], [len], iteration, [dict(zip(..))] *)

Definition str_key_eqb (key : string) (k : pyval) : bool :=
  match k with PStr t => String.eqb key t | _ => false end.

Fixpoint dict_get (k : pyval) (items : list (pyval * pyval)) : option pyval :=
  match items with
  | [] => None
  | (k', v) :: rest => if py_key_eqb k k' then Some v else dict_get k rest
  end.

Definition is_substring (needle hay : string) : bool :=
  match String.index 0 needle hay with Some _ => true | None => false end.

(** ["key" in container]. *)
Definition py_contains (key : string) (c : pyval) : Res bool :=
  match c with
  | PDict items => Ret (existsb (fun kv => str_key_eqb key (fst kv)) items)
  | PList l => Ret (existsb (str_key_eqb key) l)
  | PStr s => Ret (is_substring key s)
  | _ => Raise TypeError
  end.

(** [container["key"]]. *)
Definition py_getitem (c : pyval) (key : string) : Res pyval :=
  match c with
  | PDict items =>
      match dict_get (PStr key) items with
      | Some v => Ret v
      | None => Raise KeyError
      end
  | _ => Raise TypeError
  end.

Definition py_len (c : pyval) : Res Z :=
  match c with
  | PList l => Ret (Z.of_nat (List.length l))
  | PDict l => Ret (Z.of_nat (List.length l))
  | PStr s => Ret (Z.of_nat (String.length s))
  | _ => Raise TypeError
  end.

Definition chars (s : string) : list pyval :=
  map (fun a => PStr (String a EmptyString)) (list_ascii_of_string s).

(** [container[i]] for a non-negative integer literal [i]. *)
Definition py_index (c : pyval) (i : nat) : Res pyval :=
  match c with
  | PList l =>
      match nth_error l i with Some v => Ret v | None => Raise IndexError end
  | PStr s =>
      match nth_error (chars s) i with Some v => Ret v | None => Raise IndexError end
  | PDict items =>
      match dict_get (PInt (Z.of_nat i)) items with
      | Some v => Ret v
      | None => Raise KeyError
      end
  | _ => Raise TypeError
  end.

Definition py_iter (c : pyval) : Res (list pyval) :=
  match c with
  | PList l => Ret l
  | PStr s => Ret (chars s)
  | PDict items => Ret (map fst items)
  | _ => Raise TypeError
  end.

(** [d[k] = v]: an existing key keeps its position. *)
Fixpoint dict_set (k v : pyval) (items : list (pyval * pyval))
  : list (pyval * pyval) :=
  match items with
  | [] => [(k, v)]
  | (k', v') :: rest =>
      if py_key_eqb k k' then (k', v) :: rest
      else (k', v') :: dict_set k v rest
  end.

Fixpoint dict_of_pairs (pairs : list (pyval * pyval))
  (acc : list (pyval * pyval)) : Res (list (pyval * pyval)) :=
  match pairs with
  | [] => Ret acc
  | (k, v) :: rest =>
      if py_hashable k then dict_of_pairs rest (dict_set k v acc)
      else Raise TypeError
  end.

(** [dict(zip(columns, values))]. *)
Definition py_dict_zip (columns values : pyval) : Res pyval :=
  match py_iter columns with
  | Raise e => Raise e
  | Ret ks =>
      match py_iter values with
      | Raise e => Raise e
      | Ret vs =>
          match dict_of_pairs (combine ks vs) [] with
          | Raise e => Raise e
          | Ret d => Ret (PDict d)
          end
      end
  end.

(** ** Data frames

    A [pandas.DataFrame] with the default integer index, column by column:
    the number of rows and, for every column in order, its label and its
    cells.  pandas allows two columns to carry the same label, and so does
    this type. *)
Record DataFrame : Type := mkFrame {
  nrows : nat;
  cols : list (pyval * list pyval)
}.

Definition labels (df : DataFrame) : list pyval := map fst (cols df).

Definition has_label (l : pyval) (df : DataFrame) : bool :=
  existsb (py_key_eqb l) (labels df).

(** The columns that carry label [l], in order. *)
Definition columns_of (l : pyval) (df : DataFrame) : list (list pyval) :=
  map snd (filter (fun c => py_key_eqb l (fst c)) (cols df)).

(** The cells under label [l] (of its first column when there are several),
    one per row; no cell when the label is missing. *)
Definition frame_cells (l : pyval) (df : DataFrame) : list pyval :=
  match columns_of l df with
  | c :: _ => c
  | [] => []
  end.

(** [pd.DataFrame()] *)
Definition empty_frame : DataFrame := mkFrame 0 [].

(** [df.empty]: some axis has length zero. *)
Definition frame_empty (df : DataFrame) : bool :=
  match nrows df, cols df with
  | O, _ => true
  | _, [] => true
  | _, _ => false
  end.

(** What [df[l]] selects: a Series when one column carries the label, a
    sub-frame when several do. *)
Inductive Selection : Type :=
| Series (cells : list pyval)
| SubFrame (columns : list (list pyval)).

Definition frame_getitem (df : DataFrame) (l : pyval) : Res Selection :=
  match columns_of l df with
  | [] => Raise KeyError
  | [c] => Ret (Series c)
  | cs => Ret (SubFrame cs)
  end.

Definition replace_columns (l : pyval) (cells : list pyval)
  (cs : list (pyval * list pyval)) : list (pyval * list pyval) :=
  map (fun c => if py_key_eqb l (fst c) then (fst c, cells) else c) cs.

(** [df[l] = cells] for a column of cells: every column labelled [l] is
    overwritten, or a new last column is added. *)
Definition frame_set_cells (df : DataFrame) (l : pyval) (cells : list pyval)
  : DataFrame :=
  if has_label l df
  then mkFrame (nrows df) (replace_columns l cells (cols df))
  else mkFrame (nrows df) (cols df ++ [(l, cells)]).

(** [df[l] = v] for a scalar [v] (a [str] or a number in every use below):
    the scalar is broadcast to every row. *)
Definition frame_set_scalar (df : DataFrame) (l : pyval) (v : pyval)
  : DataFrame :=
  frame_set_cells df l (repeat v (nrows df)).

(** [df[l] = series] for a Series of the frame's own index. *)
Definition frame_set_series (df : DataFrame) (l : pyval) (cells : list pyval)
  : Res DataFrame :=
  if Nat.eqb (List.length cells) (nrows df)
  then Ret (frame_set_cells df l cells)
  else Raise ValueError.

(** [df.rename(columns={old: new})] *)
Definition frame_rename (df : DataFrame) (old new : pyval) : DataFrame :=
  mkFrame (nrows df)
    (map (fun c => if py_key_eqb old (fst c) then (new, snd c) else c) (cols df)).

(** *** Construction from records *)

Definition is_dict (v : pyval) : bool :=
  match v with PDict _ => true | _ => false end.

Definition dict_items (v : pyval) : list (pyval * pyval) :=
  match v with PDict items => items | _ => [] end.

Definition add_label (acc : list pyval) (k : pyval) : list pyval :=
  if existsb (py_key_eqb k) acc then acc else acc ++ [k].

(** The keys of all records, each once, in order of first appearance. *)
Definition record_labels (records : list (list (pyval * pyval))) : list pyval :=
  fold_left (fun acc r => fold_left add_label (map fst r) acc) records [].

Definition record_cell (l : pyval) (r : list (pyval * pyval)) : pyval :=
  match dict_get l r with Some v => v | None => NaN end.

(** The table of a list of records, one row per record, every cell the
    record's own value. *)
Definition from_records (records : list (list (pyval * pyval))) : DataFrame :=
  mkFrame (List.length records)
    (map (fun l => (l, map (record_cell l) records)) (record_labels records)).

(** *** Construction from a dict of columns *)

Definition list_items (v : pyval) : option (list pyval) :=
  match v with PList l => Some l | _ => None end.

Definition is_scalar (v : pyval) : bool :=
  match v with
  | PList _ | PDict _ => false
  | _ => true
  end.

(** The kinds of value that decide the dtype of a column. *)
Definition is_object (v : pyval) : bool :=
  match v with PStr _ | PList _ | PDict _ => true | _ => false end.

Definition is_int (v : pyval) : bool :=
  match v with PInt _ => true | _ => false end.

Definition is_float (v : pyval) : bool :=
  match v with PFloat _ => true | _ => false end.

Definition is_bool (v : pyval) : bool :=
  match v with PBool _ => true | _ => false end.

Definition is_none (v : pyval) : bool :=
  match v with PNone => true | _ => false end.

Fixpoint columns_of_dict (items : list (pyval * pyval)) (n : nat)
  : option (list (pyval * list pyval)) :=
  match items with
  | [] => Some []
  | (k, v) :: rest =>
      match list_items v, columns_of_dict rest n with
      | Some l, Some cs =>
          if Nat.eqb (List.length l) n then Some ((k, l) :: cs) else None
      | _, _ => None
      end
  end.

Definition first_length (items : list (pyval * pyval)) : nat :=
  match items with
  | (_, PList l) :: _ => List.length l
  | _ => O
  end.

(** *** Concatenation *)

Fixpoint labels_eqb (a b : list pyval) : bool :=
  match a, b with
  | [], [] => true
  | x :: a', y :: b' => py_key_eqb x y && labels_eqb a' b'
  | _, _ => false
  end.

Fixpoint has_dup (ls : list pyval) : bool :=
  match ls with
  | [] => false
  | x :: rest => existsb (py_key_eqb x) rest || has_dup rest
  end.

(** Rows of [g] below the rows of [f], column by position. *)
Definition stack (f g : DataFrame) : DataFrame :=
  mkFrame (nrows f + nrows g)
    (map (fun cc => (fst (fst cc), snd (fst cc) ++ snd (snd cc)))
         (combine (cols f) (cols g))).

(** The cells of [g] under [l], or one [NaN] per row when [g] has no such
    column. *)
Definition cells_or_nan (l : pyval) (g : DataFrame) : list pyval :=
  if has_label l g then frame_cells l g else repeat NaN (nrows g).

Definition total_rows (frames : list DataFrame) : nat :=
  fold_right (fun g n => (nrows g + n)%nat) O frames.

(** [pd.concat(frames)] along the rows.  Frames with the same labels are
    stacked as they are; otherwise the columns are the union of the labels
    in order of first appearance, which pandas refuses when a frame has a
    repeated label.  An empty list of frames is refused. *)
Definition pd_concat (frames : list DataFrame) : Res DataFrame :=
  match frames with
  | [] => Raise ValueError
  | f :: rest =>
      if forallb (fun g => labels_eqb (labels f) (labels g)) rest
      then Ret (fold_left stack rest f)
      else if existsb (fun g => has_dup (labels g)) frames
      then Raise InvalidIndexError
      else
        let ls := fold_left (fun acc g => fold_left add_label (labels g) acc)
                            frames [] in
        Ret (mkFrame (total_rows frames)
               (map (fun l => (l, flat_map (cells_or_nan l) frames)) ls))
  end.

(** ** The world the scripts act on *)

(** A piece of an f-string: literal text, a formatted value, a formatted
    exception. *)
Inductive Frag : Type :=
| Lit (s : string)
| Val (v : pyval)
| Exn (e : Exc).

Definition Line : Type := list Frag.

(** A [requests.get(url, params=params)] call. *)
Record Request : Type := mkRequest {
  url : Line;
  params : list (string * pyval)
}.

(** What one GET comes to: [requests.get] or [raise_for_status] raises, or a
    body arrives, which [response.json()] parses or rejects with a
    [JSONDecodeError] ([parsed = None]). *)
Inductive Reply : Type :=
| ReplyRaises (e : Exc)
| ReplyBody (text : string) (parsed : option pyval).

(** A [df.to_excel(filename, sheet_name=.., index=False)] call. *)
Record Export : Type := mkExport {
  filename : string;
  sheet_name : string;
  table : DataFrame
}.

(** The trace of a run: GETs issued, sleeps taken, lines printed,
    spreadsheets exported and directories made, each oldest first. *)
Record World : Type := mkWorld {
  requests : list Request;
  sleeps : list Z;
  stdout : list Line;
  exports : list Export;
  dirs : list string
}.

Definition World0 : World := mkWorld [] [] [] [] [].

(** What the scripts get from outside.  [net n r] is the reply to request
    [r] when [n] requests were issued before it.  The pandas fields answer
    for the inputs on which the definitions of this file do not spell the
    library out; [infer_cell col v] is the value pandas stores for the cell
    [v] of a column it builds from the values [col], when these do not all
    fit one dtype as they are (an [int] beside a missing value is stored as
    a [float]). *)
Record Externals : Type := mkExternals {
  net : nat -> Request -> Reply;
  pd_DataFrame_other : pyval -> Res DataFrame;
  infer_cell : list pyval -> pyval -> pyval;
  to_numeric_cell : list pyval -> pyval -> pyval;
  to_numeric_other : list pyval -> Res (list pyval);
  truediv : pyval -> pyval -> pyval;
  truediv_other : Selection -> Selection -> Res (list pyval);
  to_excel_error : string -> DataFrame -> option Exc;
  makedirs_error : string -> option Exc
}.

(** ** A monad for state and exceptions *)

Definition M (A : Type) : Type := World -> Res A * World.

Definition ret {A} (a : A) : M A := fun w => (Ret a, w).

Definition raise {A} (e : Exc) : M A := fun w => (Raise e, w).

Definition bind {A B} (m : M A) (k : A -> M B) : M B :=
  fun w =>
    match m w with
    | (Ret a, w') => k a w'
    | (Raise e, w') => (Raise e, w')
    end.

Definition lift {A} (r : Res A) : M A := fun w => (r, w).

Declare Scope py_scope.
Delimit Scope py_scope with py.
Notation "x <- m ;; k" := (bind m (fun x => k))
  (at level 100, m at next level, right associativity) : py_scope.
Notation "m ;; k" := (bind m (fun _ => k))
  (at level 100, right associativity) : py_scope.
Local Open Scope py_scope.

(** [try: body except C1 as e: h1 except C2 as e: h2 ...]: the first clause
    whose class matches handles the exception; what a handler raises is not
    offered to its sibling clauses. *)
Definition try_except {A} (body : M A)
  (clauses : list ((Exc -> bool) * (Exc -> M A))) : M A :=
  fun w =>
    match body w with
    | (Ret a, w') => (Ret a, w')
    | (Raise e, w') =>
        match find (fun c => fst c e) clauses with
        | Some c => snd c e w'
        | None => (Raise e, w')
        end
    end.

(** How the body of a loop, or a function, is left: falling through to the
    next statement or by [return]. *)
Inductive Flow (R : Type) : Type :=
| Continue
| Return (r : R).
Arguments Continue {R}.
Arguments Return {R} r.

(** [for x in items: body], where the body may [return]. *)
Fixpoint for_each {T R} (items : list T) (body : T -> M (Flow R)) : M (Flow R) :=
  match items with
  | [] => ret Continue
  | x :: rest =>
      f <- body x ;;
      match f with
      | Continue => for_each rest body
      | Return r => ret (Return r)
      end
  end.

(** The same loop threading the locals [s] that the body assigns. *)
Fixpoint for_each_with {T S R} (items : list T) (s : S)
  (body : T -> S -> M (Flow R * S)) : M (Flow R * S) :=
  match items with
  | [] => ret (Continue, s)
  | x :: rest =>
      fs <- body x s ;;
      match fst fs with
      | Continue => for_each_with rest (snd fs) body
      | Return r => ret (Return r, snd fs)
      end
  end.

(** [range(n)] *)
Definition py_range (n : Z) : list Z := map Z.of_nat (seq 0 (Z.to_nat n)).

(** *** Primitive effects *)

Definition print (l : Line) : M unit :=
  fun w => (Ret tt, mkWorld (requests w) (sleeps w) (stdout w ++ [l])
                            (exports w) (dirs w)).

(** [time.sleep(secs)] refuses a negative length. *)
Definition time_sleep (secs : Z) : M unit :=
  fun w =>
    if secs <? 0 then (Raise ValueError, w)
    else (Ret tt, mkWorld (requests w) (sleeps w ++ [secs]) (stdout w)
                          (exports w) (dirs w)).

Record Response : Type := mkResponse {
  text : string;
  parsed : option pyval
}.

Section Capabilities.
Variable X : Externals.

(** [response = requests.get(url, params=params)] followed by
    [response.raise_for_status()]. *)
Definition requests_get (u : Line) (ps : list (string * pyval)) : M Response :=
  fun w =>
    let r := mkRequest u ps in
    let w' := mkWorld (requests w ++ [r]) (sleeps w) (stdout w)
                      (exports w) (dirs w) in
    match net X (List.length (requests w)) r with
    | ReplyRaises e => (Raise e, w')
    | ReplyBody t p => (Ret (mkResponse t p), w')
    end.

(** [response.json()] *)
Definition response_json (r : Response) : M pyval :=
  match parsed r with
  | Some v => ret v
  | None => raise JSONDecodeError
  end.

(** The dtype of a column built from the records of a list.  A column that
    holds a [str], a list or a dict has dtype [object] and keeps every
    value as it is; so does a column of [None]s; a column of [int]s, of
    [float]s (a missing value is one) or of [bool]s alone has that dtype
    and keeps its values.  The values of any other column are converted to
    its common dtype. *)
Definition infer_column (col : list pyval) : list pyval :=
  if existsb is_object col
     || forallb is_int col || forallb is_float col
     || forallb is_bool col || forallb is_none col
  then col
  else map (infer_cell X col) col.

Definition infer_objects (df : DataFrame) : DataFrame :=
  mkFrame (nrows df) (map (fun c => (fst c, infer_column (snd c))) (cols df)).

(** [pd.DataFrame(data)]: a list of dicts gives one row per dict, a dict
    of equally long lists gives its columns, a dict of scalars and a bare
    scalar are refused. *)
Definition pd_DataFrame (data : pyval) : Res DataFrame :=
  match data with
  | PNone => Ret empty_frame
  | PBool _ | PInt _ | PFloat _ | PStr _ => Raise ValueError
  | PList l =>
      if forallb is_dict l
      then Ret (infer_objects (from_records (map dict_items l)))
      else pd_DataFrame_other X data
  | PDict items =>
      match columns_of_dict items (first_length items) with
      | Some cs => Ret (mkFrame (first_length items) cs)
      | None =>
          if forallb (fun kv => is_scalar (snd kv)) items
          then Raise ValueError
          else pd_DataFrame_other X data
      end
  end.

(** [pd.to_numeric(sel, errors='coerce')] *)
Definition pd_to_numeric (sel : Selection) : Res (list pyval) :=
  match sel with
  | SubFrame _ => Raise TypeError
  | Series cells =>
      if forallb is_scalar cells
      then Ret (map (to_numeric_cell X cells) cells)
      else to_numeric_other X cells
  end.

(** [a / b] on two columns of one frame: cell by cell. *)
Definition series_truediv (a b : Selection) : Res (list pyval) :=
  match a, b with
  | Series x, Series y =>
      Ret (map (fun p => truediv X (fst p) (snd p)) (combine x y))
  | _, _ => truediv_other X a b
  end.

(** [df.to_excel(filename, sheet_name=sheet, index=False)] *)
Definition to_excel (df : DataFrame) (file sheet : string) : M unit :=
  fun w =>
    let w' := mkWorld (requests w) (sleeps w) (stdout w)
                      (exports w ++ [mkExport file sheet df]) (dirs w) in
    match to_excel_error X file df with
    | Some e => (Raise e, w')
    | None => (Ret tt, w')
    end.

(** [os.makedirs(path, exist_ok=True)] *)
Definition os_makedirs (path : string) : M unit :=
  fun w =>
    match makedirs_error X path with
    | Some e => (Raise e, w)
    | None => (Ret tt, mkWorld (requests w) (sleeps w) (stdout w)
                               (exports w) (dirs w ++ [path]))
    end.
End Capabilities.

(** [os.path.join(a, b)] on a POSIX system. *)
Definition ends_with_slash (a : string) : bool :=
  match String.get (String.length a - 1) a with
  | Some c => Ascii.eqb c "/"%char
  | None => false
  end.

Definition os_path_join (a b : string) : string :=
  if String.prefix "/" b then b
  else if String.eqb a "" then b
  else if ends_with_slash a then (a ++ b)%string
  else (a ++ "/" ++ b)%string.

(** [df.iterrows()]: every row as a mapping from label to cell. *)
Definition frame_rows (df : DataFrame) : list (list (pyval * pyval)) :=
  map (fun i => map (fun c => (fst c, nth i (snd c) NaN)) (cols df))
      (seq 0 (nrows df)).

(** [row[key]] *)
Definition row_getitem (row : list (pyval * pyval)) (key : string) : Res pyval :=
  match dict_get (PStr key) row with
  | Some v => Ret v
  | None => Raise KeyError
  end.

(** [series[0]] *)
Definition selection_first (sel : Selection) : Res pyval :=
  match sel with
  | Series (c :: _) => Ret c
  | _ => Raise KeyError
  end.

(** ** Business Index/main.py *)

Module Business.

Definition DELAWARE_COUNTIES : list pyval :=
  [PStr "New Castle"; PStr "Kent"; PStr "Sussex"].
Definition BEA_API_URL : string := "https://apps.bea.gov/api/data/".
Definition BEA_DATASET : string := "Regional".
Definition BEA_TABLE_ID : string := "CAGDP9".
Definition BEA_LINE_CODE_GDP : Z := 10.
Definition BEA_LINE_CODE_GDP_CAPITA : Z := 70.
Definition BEA_LINE_CODE_ANNUAL_GDP_GROWTH : Z := 95.

Section WithExternals.
Variable X : Externals.

Definition get_county_population_data (state : string)
  : M (option DataFrame) :=
  if String.eqb state "Delaware" then
    let data := PDict [(PStr "County", PList DELAWARE_COUNTIES)] in
    df <- lift (pd_DataFrame X data) ;;
    ret (Some df)
  else
    print [Lit "State "; Val (PStr state); Lit " not yet implemented."] ;;
    ret None.

Definition bea_params (api_key geo_fips year linecode : pyval)
  : list (string * pyval) :=
  [("UserID", api_key); ("method", PStr "GetData");
   ("datasetname", PStr BEA_DATASET); ("TableName", PStr BEA_TABLE_ID);
   ("GeoFips", geo_fips); ("Year", year); ("ResultFormat", PStr "json")]
  ++ match linecode with
     | PNone => []
     | _ => [("LineCode", linecode)]
     end.

(** Lines 58-72: the statements under the inner [try]. *)
Definition bea_unwrap (response : Response) : M (Flow pyval) :=
  data <- response_json response ;;
  has_api <- lift (py_contains "BEAAPI" data) ;;
  has_results <-
    (if has_api then
       api <- lift (py_getitem data "BEAAPI") ;;
       lift (py_contains "Results" api)
     else ret false) ;;
  if has_results then
    api <- lift (py_getitem data "BEAAPI") ;;
    results <- lift (py_getitem api "Results") ;;
    has_data <- lift (py_contains "Data" results) ;;
    if has_data then
      d <- lift (py_getitem results "Data") ;;
      ret (Return d)
    else
      has_error <- lift (py_contains "Error" results) ;;
      if has_error then
        err <- lift (py_getitem results "Error") ;;
        print [Lit "BEA API Error: "; Val err] ;;
        ret (Return PNone)
      else
        print [Lit "Unexpected data format: No 'Data' or 'Error' in Results."] ;;
        ret (Return PNone)
  else
    print [Lit "Unexpected data format in BEA API response."] ;;
    ret (Return PNone).

(** Lines 53-93: one iteration of the retry loop. *)
Definition bea_attempt (ps : list (string * pyval))
  (max_retries retry_delay : Z) (attempt : Z) : M (Flow pyval) :=
  try_except
    (response <- requests_get X [Lit BEA_API_URL] ps ;;
     try_except (bea_unwrap response)
       [(is_JSONDecodeError, fun e =>
           print [Lit "JSONDecodeError: "; Exn e;
                  Lit ". Response content: "; Lit (text response)] ;;
           if attempt <? max_retries - 1 then
             print [Lit "Retrying in "; Val (PInt retry_delay); Lit " seconds..."] ;;
             time_sleep retry_delay ;;
             ret Continue
           else
             print [Lit "Max retries reached.  Skipping."] ;;
             ret (Return PNone))])
    [(is_RequestException, fun e =>
        print [Lit "API request failed: "; Exn e] ;;
        if attempt <? max_retries - 1 then
          print [Lit "Retrying in "; Val (PInt retry_delay); Lit " seconds..."] ;;
          time_sleep retry_delay ;;
          ret Continue
        else
          print [Lit "Max retries reached. Skipping."] ;;
          ret (Return PNone));
     (is_Exception, fun e =>
        print [Lit "An unexpected error occurred: "; Exn e] ;;
        ret (Return PNone))].

Definition get_bea_data (api_key geo_fips year linecode : pyval)
  (max_retries retry_delay : Z) : M pyval :=
  let ps := bea_params api_key geo_fips year linecode in
  f <- for_each (py_range max_retries)
         (bea_attempt ps max_retries retry_delay) ;;
  match f with
  | Return v => ret v
  | Continue => ret PNone
  end.

Definition transform_bea_data (bea_data county_name data_type : pyval)
  : Res (option DataFrame) :=
  match bea_data with
  | PNone => Ret None
  | _ =>
      match pd_DataFrame X bea_data with
      | Raise e => Raise e
      | Ret df =>
          let df := frame_set_scalar df (PStr "County") county_name in
          let df := frame_set_scalar df (PStr "DataType") data_type in
          Ret (Some df)
      end
  end.

(** One of the three fetch-and-append blocks of lines 140-169. *)
Definition collect_metric (api_key geo_fips county_name : pyval)
  (linecode : Z) (data_type : string) (miss : Line)
  (all_county_data : list DataFrame) : M (list DataFrame) :=
  bea_data <- get_bea_data api_key geo_fips (PInt 2021) (PInt linecode) 3 5 ;;
  if py_truthy bea_data then
    transformed <- lift (transform_bea_data bea_data county_name (PStr data_type)) ;;
    match transformed with
    | Some df => ret (all_county_data ++ [df])
    | None => ret all_county_data
    end
  else
    print miss ;;
    ret all_county_data.

(** The locals the county loop assigns: [all_county_data] and
    [geo_fips], which a county outside the table leaves as it was
    (unbound on the first iteration). *)
Definition Locals : Type := (list DataFrame * option pyval)%type.

Definition county_body (state : string) (api_key : pyval)
  (row : list (pyval * pyval)) (s : Locals) : M (Flow unit * Locals) :=
  county_name <- lift (row_getitem row "County") ;;
  if String.eqb state "Delaware" then
    let geo_fips :=
      if str_key_eqb "New Castle" county_name then Some (PStr "10003")
      else if str_key_eqb "Kent" county_name then Some (PStr "10001")
      else if str_key_eqb "Sussex" county_name then Some (PStr "10005")
      else snd s in
    if py_truthy api_key then
      geo <- match geo_fips with
             | Some g => ret g
             | None => raise UnboundLocalError
             end ;;
      acc <- collect_metric api_key geo county_name BEA_LINE_CODE_GDP "GDP"
               [Lit "Skipping "; Val county_name;
                Lit " due to missing BEA GDP data."] (fst s) ;;
      acc <- collect_metric api_key geo county_name
               BEA_LINE_CODE_GDP_CAPITA "GDP_CAPITA"
               [Lit "Skipping "; Val county_name;
                Lit " due to missing BEA GDP Capita data."] acc ;;
      acc <- collect_metric api_key geo county_name
               BEA_LINE_CODE_ANNUAL_GDP_GROWTH "ANNUAL_GDP_GROWTH"
               [Lit "Skipping "; Val county_name;
                Lit " due to missing BEA Annual GDP Growth data."] acc ;;
      ret (Continue, (acc, geo_fips))
    else
      print [Lit "API key is required to fetch Census data, please add the API key"] ;;
      ret (Return tt, (fst s, geo_fips))
  else
    print [Lit "Unknown county "; Val county_name; Lit " in "; Val (PStr state)] ;;
    ret (Continue, s).

(** Lines 176-187: concatenate and export. *)
Definition export_state (state output_folder : string)
  (all_county_data : list DataFrame) : M unit :=
  final_df <- match all_county_data with
              | [] => ret empty_frame
              | _ => lift (pd_concat all_county_data)
              end ;;
  if negb (frame_empty final_df) then
    let excel_filename :=
      os_path_join output_folder (state ++ "_bea_data_2021.xlsx")%string in
    to_excel X final_df excel_filename "BEA Data" ;;
    print [Lit "County-wise dataset stored for "; Val (PStr state);
           Lit " in "; Val (PStr excel_filename)]
  else
    print [Lit "No BEA data to save for "; Val (PStr state)].

Definition process_state (state output_folder : string) (api_key : pyval)
  : M unit :=
  if String.eqb state "Delaware" then
    county_population_df <- get_county_population_data state ;;
    match county_population_df with
    | None =>
        print [Lit "Could not fetch county population data for ";
               Val (PStr state); Lit ". Skipping state."]
    | Some df =>
        r <- for_each_with (frame_rows df) ([], None)
               (county_body state api_key) ;;
        match fst r with
        | Return _ => ret tt
        | Continue => export_state state output_folder (fst (snd r))
        end
    end
  else
    print [Lit "State "; Val (PStr state); Lit " not yet implemented."].

(** Line 195: the credential of the script. *)
Definition bea_api_key : pyval := PStr "5DBF64E1-4EB2-4D15-B2FB-C423F263795B".

(** Lines 190-202: the script run as a program; [cwd] is what [os.getcwd()]
    returns. *)
Definition main (cwd : string) : M unit :=
  let states := ["Delaware"] in
  let root_directory := cwd in
  for_each states (fun state =>
    let output_folder := os_path_join root_directory state in
    os_makedirs X output_folder ;;
    process_state state output_folder bea_api_key ;;
    ret (@Continue unit)) ;;
  ret tt.

End WithExternals.
End Business.

(** ** EducationIndex/main.py *)

Module Education.

Definition DELAWARE_COUNTIES : list pyval :=
  [PStr "New Castle"; PStr "Kent"; PStr "Sussex"].
Definition HIGH_SCHOOL_GRADUATION_RATE : pyval := PInt 87.
#[warnings="-inexact-float"]
Definition ASSOCIATES_DEGREE_ATTAINMENT : pyval := PFloat 9.9%float.
#[warnings="-inexact-float"]
Definition BACHELORS_DEGREE_ATTAINMENT : pyval := PFloat 24.9%float.
Definition ADVANCED_DEGREE_ATTAINMENT : pyval := PInt 5.

Definition fips_codes : list (pyval * pyval) :=
  [(PStr "New Castle", PStr "003");
   (PStr "Kent", PStr "001");
   (PStr "Sussex", PStr "005")].

Definition B01001_001E : pyval := PStr "B01001_001E".
Definition Total_Population : pyval := PStr "Total Population".
Definition Area : pyval := PStr "Area (sq mi)".
Definition Population_Density : pyval := PStr "Population Density (per sq mi)".

Section WithExternals.
Variable X : Externals.

Definition get_county_population_data (state : string)
  : M (option DataFrame) :=
  if String.eqb state "Delaware" then
    let data := PDict [(PStr "County", PList DELAWARE_COUNTIES)] in
    df <- lift (pd_DataFrame X data) ;;
    ret (Some df)
  else
    print [Lit "State "; Val (PStr state); Lit " not yet implemented."] ;;
    ret None.

Definition census_url (api_key state_fips county_fips year : pyval) : Line :=
  [Lit "https://api.census.gov/data/"; Val year; Lit "/acs/acs1?get=";
   Lit "NAME,B01001_001E,B01002_001E"; Lit "&for=county:"; Val county_fips;
   Lit "&in=state:"; Val state_fips; Lit "&key="; Val api_key].

(** Lines 58-66: the statements under the inner [try]. *)
Definition census_unwrap (state_fips county_fips year : pyval)
  (response : Response) : M (Flow pyval) :=
  data <- response_json response ;;
  n <- lift (py_len data) ;;
  if 1 <? n then
    columns <- lift (py_index data 0) ;;
    values <- lift (py_index data 1) ;;
    county_data <- lift (py_dict_zip columns values) ;;
    ret (Return county_data)
  else
    print [Lit "No data found for FIPS "; Val state_fips; Val county_fips;
           Lit " in "; Val year] ;;
    ret (Return PNone).

(** Lines 53-86: one iteration of the retry loop. *)
Definition census_attempt (u : Line) (state_fips county_fips year : pyval)
  (max_retries retry_delay : Z) (attempt : Z) : M (Flow pyval) :=
  try_except
    (response <- requests_get X u [] ;;
     try_except (census_unwrap state_fips county_fips year response)
       [(is_JSONDecodeError, fun e =>
           print [Lit "JSONDecodeError: "; Exn e;
                  Lit ". Response content: "; Lit (text response)] ;;
           if attempt <? max_retries - 1 then
             print [Lit "Retrying in "; Val (PInt retry_delay); Lit " seconds..."] ;;
             time_sleep retry_delay ;;
             ret Continue
           else
             print [Lit "Max retries reached.  Skipping."] ;;
             ret (Return PNone))])
    [(is_RequestException, fun e =>
        print [Lit "API request failed: "; Exn e] ;;
        if attempt <? max_retries - 1 then
          print [Lit "Retrying in "; Val (PInt retry_delay); Lit " seconds..."] ;;
          time_sleep retry_delay ;;
          ret Continue
        else
          print [Lit "Max retries reached. Skipping."] ;;
          ret (Return PNone));
     (is_Exception, fun e =>
        print [Lit "An unexpected error occurred: "; Exn e] ;;
        ret (Return PNone))].

Definition get_census_data_by_county (api_key state_fips county_name year : pyval)
  (max_retries retry_delay : Z) : M pyval :=
  if py_hashable county_name then
    match dict_get county_name fips_codes with
    | None =>
        print [Lit "FIPS code not found for "; Val county_name] ;;
        ret PNone
    | Some county_fips =>
        let u := census_url api_key state_fips county_fips year in
        f <- for_each (py_range max_retries)
               (census_attempt u state_fips county_fips year
                  max_retries retry_delay) ;;
        match f with
        | Return v => ret v
        | Continue => ret PNone
        end
    end
  else raise TypeError.

Definition transform_census_data (census_df : option DataFrame)
  : M (option DataFrame) :=
  match census_df with
  | None => ret None
  | Some census_df =>
      if has_label B01001_001E census_df then
        let census_df := frame_rename census_df B01001_001E Total_Population in
        sel <- lift (frame_getitem census_df Total_Population) ;;
        numeric <- lift (pd_to_numeric X sel) ;;
        census_df <- lift (frame_set_series census_df Total_Population numeric) ;;
        let census_df := frame_set_scalar census_df Area (PInt 100) in
        if has_label Area census_df && has_label Total_Population census_df then
          population <- lift (frame_getitem census_df Total_Population) ;;
          area <- lift (frame_getitem census_df Area) ;;
          density <- lift (series_truediv X population area) ;;
          census_df <- lift (frame_set_series census_df Population_Density density) ;;
          ret (Some census_df)
        else
          print [Lit "Warning: 'Area (sq mi)' data not available for transformation."] ;;
          ret (Some census_df)
      else
        print [Lit "Warning: 'B01001_001E' (Total Population) data not available in the census data."] ;;
        ret (Some census_df)
  end.

Definition get_education_data (county_name : pyval) : Res DataFrame :=
  pd_DataFrame X
    (PDict
       [(PStr "County", PList [county_name]);
        (PStr "High School Completion (%)", PList [HIGH_SCHOOL_GRADUATION_RATE]);
        (PStr "Associates Degree / Apprenticeship (%)",
         PList [ASSOCIATES_DEGREE_ATTAINMENT]);
        (PStr "Bachelors Degree (%)", PList [BACHELORS_DEGREE_ATTAINMENT]);
        (PStr "Advanced Degree (%)", PList [ADVANCED_DEGREE_ATTAINMENT])]).

(** [new_df[label] = education_data[label][0]] *)
Definition copy_first (education_data new_df : DataFrame) (label : string)
  : Res DataFrame :=
  match frame_getitem education_data (PStr label) with
  | Raise e => Raise e
  | Ret sel =>
      match selection_first sel with
      | Raise e => Raise e
      | Ret v => Ret (frame_set_scalar new_df (PStr label) v)
      end
  end.

Definition county_body (state_fips api_key : pyval)
  (row : list (pyval * pyval)) (all_county_data : list DataFrame)
  : M (Flow unit * list DataFrame) :=
  county_name <- lift (row_getitem row "County") ;;
  if py_truthy api_key then
    census_data <- get_census_data_by_county api_key state_fips county_name
                     (PInt 2022) 3 5 ;;
    if py_truthy census_data then
      education_data <- lift (get_education_data county_name) ;;
      new_df <- lift (pd_DataFrame X (PList [census_data])) ;;
      let new_df := frame_set_scalar new_df (PStr "County") county_name in
      new_df <- lift (copy_first education_data new_df
                        "High School Completion (%)") ;;
      new_df <- lift (copy_first education_data new_df
                        "Associates Degree / Apprenticeship (%)") ;;
      new_df <- lift (copy_first education_data new_df "Bachelors Degree (%)") ;;
      new_df <- lift (copy_first education_data new_df "Advanced Degree (%)") ;;
      ret (Continue, all_county_data ++ [new_df])
    else
      print [Lit "Skipping "; Val county_name; Lit " due to missing census data."] ;;
      ret (Continue, all_county_data)
  else
    print [Lit "API key is required to fetch Census data, please add the API key"] ;;
    ret (Return tt, all_county_data).

(** Lines 172-181: concatenate, transform and export. *)
Definition export_state (state output_folder : string)
  (all_county_data : list DataFrame) : M unit :=
  census_df <- lift (pd_concat all_county_data) ;;
  census_df <- transform_census_data (Some census_df) ;;
  match census_df with
  | Some df =>
      if negb (frame_empty df) then
        let excel_filename :=
          os_path_join output_folder (state ++ "_census_data_2022.xlsx")%string in
        to_excel X df excel_filename "Census Data" ;;
        print [Lit "County-wise dataset stored for "; Val (PStr state);
               Lit " in "; Val (PStr excel_filename)]
      else
        print [Lit "No census data to save for "; Val (PStr state)]
  | None =>
      print [Lit "No census data to save for "; Val (PStr state)]
  end.

Definition process_state (state output_folder : string) (api_key : pyval)
  : M unit :=
  os_makedirs X output_folder ;;
  if String.eqb state "Delaware" then
    county_population_df <- get_county_population_data state ;;
    let state_fips := PStr "10" in
    match county_population_df with
    | None =>
        print [Lit "Could not fetch county population data for ";
               Val (PStr state); Lit ". Skipping state."]
    | Some df =>
        r <- for_each_with (frame_rows df) []
               (county_body state_fips api_key) ;;
        match fst r with
        | Return _ => ret tt
        | Continue => export_state state output_folder (snd r)
        end
    end
  else
    print [Lit "State "; Val (PStr state); Lit " not yet implemented."].

(** Line 189: the credential of the script. *)
Definition census_api_key : pyval :=
  PStr "b88791220ddc86237b51d9719b5f28d8778a2c4a".

(** Lines 184-194: the script run as a program. *)
Definition main : M unit :=
  let states := ["Delaware"] in
  for_each states (fun state =>
    let output_folder := ("output/" ++ state)%string in
    process_state state output_folder census_api_key ;;
    ret (@Continue unit)) ;;
  ret tt.

End WithExternals.
End Education.

(** * Vocabulary of the statements

    Relations between worlds, the shape of the retry loop, the orders and
    tags the claims speak of, and the scripted environments on which the
    scripts are run. *)

(** ** Worlds and computations *)

(** [w'] is [w] after the requests [rs] and the sleeps [naps], with the same
    exports and directories. *)
Definition extends (w w' : World) (rs : list Request) (naps : list Z) : Prop :=
  requests w' = requests w ++ rs /\ sleeps w' = sleeps w ++ naps /\
  exports w' = exports w /\ dirs w' = dirs w.

(** A computation that at most prints. *)
Definition quiet {A} (m : M A) : Prop :=
  forall w, extends w (snd (m w)) [] [].

(** A computation that raises [e] wherever it is run. *)
Definition raises {A} (m : M A) (e : Exc) : Prop :=
  forall w, fst (m w) = Raise e.

(** A computation that yields [a] wherever it is run. *)
Definition yields {A} (m : M A) (a : A) : Prop :=
  forall w, fst (m w) = Ret a.

(** Computations that issue the requests [rs], whatever else they do. *)
Definition sends {A} (rs : list Request) (m : M A) : Prop :=
  forall w, exists naps, extends w (snd (m w)) rs naps.

(** Computations that issue no request. *)
Definition offline {A} (m : M A) : Prop := sends [] m.

(** ** The shape of the retry loop *)

(** A transient failure: a transport error, or a body that is not JSON. *)
Definition transient (r : Reply) : bool :=
  match r with
  | ReplyRaises e => is_RequestException e
  | ReplyBody _ None => true
  | ReplyBody _ (Some _) => false
  end.

(** The common text of the two retry loops, around a request and the
    statements under the inner [try]. *)
Section RetryLoop.
Variable X : Externals.
Variable u : Line.
Variable ps : list (string * pyval).
Variable unwrap : Response -> M (Flow pyval).
Variables max_retries retry_delay : Z.

Definition retry_attempt (attempt : Z) : M (Flow pyval) :=
  try_except
    (response <- requests_get X u ps ;;
     try_except (unwrap response)
       [(is_JSONDecodeError, fun e =>
           print [Lit "JSONDecodeError: "; Exn e;
                  Lit ". Response content: "; Lit (text response)] ;;
           if attempt <? max_retries - 1 then
             print [Lit "Retrying in "; Val (PInt retry_delay); Lit " seconds..."] ;;
             time_sleep retry_delay ;;
             ret Continue
           else
             print [Lit "Max retries reached.  Skipping."] ;;
             ret (Return PNone))])
    [(is_RequestException, fun e =>
        print [Lit "API request failed: "; Exn e] ;;
        if attempt <? max_retries - 1 then
          print [Lit "Retrying in "; Val (PInt retry_delay); Lit " seconds..."] ;;
          time_sleep retry_delay ;;
          ret Continue
        else
          print [Lit "Max retries reached. Skipping."] ;;
          ret (Return PNone));
     (is_Exception, fun e =>
        print [Lit "An unexpected error occurred: "; Exn e] ;;
        ret (Return PNone))].

Definition retry_call : M pyval :=
  f <- for_each (py_range max_retries) retry_attempt ;;
  match f with
  | Return v => ret v
  | Continue => ret PNone
  end.

End RetryLoop.

(** What the statements under the outer [try] raise on a reply. *)
Definition attempt_raises (unwrap : Response -> M (Flow pyval))
  (r : Reply) (e : Exc) : Prop :=
  match r with
  | ReplyRaises e' => e' = e
  | ReplyBody t p => raises (unwrap (mkResponse t p)) e
  end.

(** What they return on a reply. *)
Definition attempt_returns (unwrap : Response -> M (Flow pyval))
  (r : Reply) (v : pyval) : Prop :=
  match r with
  | ReplyRaises _ => False
  | ReplyBody t p => yields (unwrap (mkResponse t p)) (Return v)
  end.

(** The world once request [req] is on the wire. *)
Definition sent (req : Request) (w : World) : World :=
  mkWorld (requests w ++ [req]) (sleeps w) (stdout w) (exports w) (dirs w).

(** An exception the retry clauses do not name. *)
Definition unexpected (e : Exc) : Prop :=
  is_RequestException e = false /\ is_JSONDecodeError e = false.

(** What a fetch call returns is [None] or what the statements under the
    inner [try] returned on some reply. *)
Definition unwrapped (unwrap : Response -> M (Flow pyval)) (v : pyval) : Prop :=
  v = PNone \/ exists r w0, fst (unwrap r w0) = Ret (Return v).

(** The value under a path of keys through nested dicts. *)
Fixpoint dict_path (keys : list string) (v : pyval) : option pyval :=
  match keys with
  | [] => Some v
  | k :: rest =>
      match v with
      | PDict items =>
          match dict_get (PStr k) items with
          | Some v' => dict_path rest v'
          | None => None
          end
      | _ => None
      end
  end.

(** The request of [get_bea_data] and of [get_census_data_by_county]. *)
Definition bea_request (api_key geo_fips year linecode : pyval) : Request :=
  mkRequest [Lit Business.BEA_API_URL]
            (Business.bea_params api_key geo_fips year linecode).

Definition census_request (api_key state_fips county_fips year : pyval) : Request :=
  mkRequest (Education.census_url api_key state_fips county_fips year) [].

(** From world [w] on, request [req] meets [N] transient failures in a
    row. *)
Definition fails_transiently (X : Externals) (w : World) (req : Request)
  (N : nat) : Prop :=
  forall j, (j < N)%nat ->
    transient (net X (List.length (requests w) + j) req) = true.

(** A call never issues more than [max_retries] requests, and when every
    attempt fails transiently it returns [None] after [max_retries]
    requests and [max_retries - 1] sleeps. *)
Definition exhausts_to_None (X : Externals) (call : M pyval) (req : Request)
  (max_retries retry_delay : Z) : Prop :=
  forall w,
    (exists n naps,
        Z.of_nat n <= max_retries
        /\ extends w (snd (call w)) (repeat req n) naps)
    /\ (fails_transiently X w req (Z.to_nat max_retries) ->
        exists w',
          call w = (Ret PNone, w')
          /\ extends w w' (repeat req (Z.to_nat max_retries))
                          (repeat retry_delay (Z.to_nat (max_retries - 1)))).

(** ** Tables *)

(** The table of regions of Delaware: one column, three rows. *)
Definition delaware_regions : DataFrame :=
  mkFrame 3 [(PStr "County", [PStr "New Castle"; PStr "Kent"; PStr "Sussex"])].

(** The row of [delaware_regions] for a county. *)
Definition county_row (name : string) : list (pyval * pyval) :=
  [(PStr "County", PStr name)].

(** The (County, DataType) pair of every row, top to bottom. *)
Definition row_tags (df : DataFrame) : list (pyval * pyval) :=
  combine (frame_cells (PStr "County") df) (frame_cells (PStr "DataType") df).

(** Every row of [df] carries [county] and [tag]. *)
Definition tagged (df : DataFrame) (county tag : pyval) : Prop :=
  has_label (PStr "County") df = true
  /\ has_label (PStr "DataType") df = true
  /\ frame_cells (PStr "County") df = repeat county (nrows df)
  /\ frame_cells (PStr "DataType") df = repeat tag (nrows df).

(** [l1] is [l2] with some elements left out. *)
Inductive subseq {A : Type} : list A -> list A -> Prop :=
| subseq_nil : subseq [] []
| subseq_skip x l1 l2 : subseq l1 l2 -> subseq l1 (x :: l2)
| subseq_take x l1 l2 : subseq l1 l2 -> subseq (x :: l1) (x :: l2).

(** The regions and the metric tags, in iteration order. *)
Definition county_names : list string := ["New Castle"; "Kent"; "Sussex"].

Definition metric_tags : list string := ["GDP"; "GDP_CAPITA"; "ANNUAL_GDP_GROWTH"].

(** Region iteration order crossed with metric iteration order. *)
Definition bea_combinations : list (pyval * pyval) :=
  list_prod (map PStr county_names) (map PStr metric_tags).

(** The rows of a table made of blocks: [n] rows for each [(key, n)]. *)
Definition block_rows (blocks : list ((pyval * pyval) * nat))
  : list (pyval * pyval) :=
  flat_map (fun b => repeat (fst b) (snd b)) blocks.

(** Frame by frame, every row carries the frame's key. *)
Definition collected (frames : list DataFrame) (keys : list (pyval * pyval))
  : Prop :=
  Forall2 (fun df key => tagged df (fst key) (snd key)) frames keys.

(** A one-row frame for county [name]. *)
Definition county_frame (df : DataFrame) (name : string) : Prop :=
  has_label (PStr "County") df = true
  /\ frame_cells (PStr "County") df = [PStr name]
  /\ nrows df = 1%nat.

(** The fetches of a run.  [fetches call keys w payloads w'] holds when
    calling [call k] for every [k] of [keys] in turn, from world [w] on and
    with nothing but printing between two calls, returns [payloads] in that
    order and leaves world [w']. *)
Inductive fetches {K : Type} (call : K -> M pyval)
  : list K -> World -> list pyval -> World -> Prop :=
| fetches_nil w : fetches call [] w [] w
| fetches_cons k keys w payload w1 w2 payloads w' :
    call k w = (Ret payload, w1) ->
    extends w1 w2 [] [] ->
    fetches call keys w2 payloads w' ->
    fetches call (k :: keys) w (payload :: payloads) w'.

(** The fetches of the BEA script: the county codes of lines 128-133
    crossed with the line codes of lines 141-162, each a call of
    [get_bea_data] with the defaults. *)
Definition bea_fips : list (string * string) :=
  [("New Castle", "10003"); ("Kent", "10001"); ("Sussex", "10005")].

Definition bea_line_codes : list (string * Z) :=
  [("GDP", Business.BEA_LINE_CODE_GDP);
   ("GDP_CAPITA", Business.BEA_LINE_CODE_GDP_CAPITA);
   ("ANNUAL_GDP_GROWTH", Business.BEA_LINE_CODE_ANNUAL_GDP_GROWTH)].

Definition bea_plan : list ((string * string) * (string * Z)) :=
  list_prod bea_fips bea_line_codes.

Definition bea_fetch (X : Externals) (api_key : pyval)
  (q : (string * string) * (string * Z)) : M pyval :=
  Business.get_bea_data X api_key (PStr (snd (fst q))) (PInt 2021)
    (PInt (snd (snd q))) 3 5.

(** The (County, DataType) pair of a fetch. *)
Definition combination (q : (string * string) * (string * Z))
  : pyval * pyval :=
  (PStr (fst (fst q)), PStr (fst (snd q))).

(** The fetches of the census script: one call of
    [get_census_data_by_county] for each county, with the defaults. *)
Definition census_fetch (X : Externals) (api_key : pyval) (name : string)
  : M pyval :=
  Education.get_census_data_by_county X api_key (PStr "10") (PStr name)
    (PInt 2022) 3 5.

(** The number of rows pandas makes of a payload. *)
Definition payload_rows (X : Externals) (payload : pyval) : nat :=
  match pd_DataFrame X payload with
  | Ret df => nrows df
  | Raise _ => O
  end.

(** The blocks of the fetches that gave data: for every payload that is
    true, in order, its key and the number of its rows. *)
Definition payload_blocks (X : Externals) (keys : list (pyval * pyval))
  (payloads : list pyval) : list ((pyval * pyval) * nat) :=
  flat_map (fun kp => if py_truthy (snd kp)
                      then [(fst kp, payload_rows X (snd kp))]
                      else [])
           (combine keys payloads).

(** Frame by frame, every row carries the key of the frame's block and the
    frame has the rows of the block. *)
Definition built (frames : list DataFrame)
  (blocks : list ((pyval * pyval) * nat)) : Prop :=
  Forall2 (fun df b => tagged df (fst (fst b)) (snd (fst b))
                       /\ nrows df = snd b)
          frames blocks.

(** The counties whose fetch gave data, in order. *)
Definition answered (names : list string) (payloads : list pyval)
  : list string :=
  map fst (filter (fun np => py_truthy (snd np)) (combine names payloads)).

(** The table [transform_census_data] builds from a table with one
    [B01001_001E] column of scalars and no [Total Population] column. *)
Definition census_transformed (X : Externals) (df : DataFrame) : DataFrame :=
  let col := frame_cells Education.B01001_001E df in
  let numeric := map (to_numeric_cell X col) col in
  frame_set_cells
    (frame_set_cells
       (frame_set_cells
          (frame_rename df Education.B01001_001E Education.Total_Population)
          Education.Total_Population numeric)
       Education.Area (repeat (PInt 100) (nrows df)))
    Education.Population_Density
    (map (fun a => truediv X a (PInt 100)) numeric).

(** ** Scripted environments, for concrete runs *)

(** A numeric kernel for the runs below, for columns whose strings spell
    non-negative integers below 2^63 or no number at all: a string of digits is the
    integer it spells, any other string and [None] are coerced to [NaN]; a
    column in which some cell is coerced to a [float] is a column of
    [float]s; integers are converted to binary64 with rounding to nearest
    even, and divide as binary64 numbers. *)
Fixpoint parse_digits (s : string) (acc : Z) : option Z :=
  match s with
  | EmptyString => Some acc
  | String c rest =>
      let n := Z.of_nat (nat_of_ascii c) in
      if (48 <=? n) && (n <=? 57) then parse_digits rest (10 * acc + (n - 48))
      else None
  end.

Definition coerce_cell (v : pyval) : pyval :=
  match v with
  | PStr EmptyString => NaN
  | PStr s => match parse_digits s 0 with Some z => PInt z | None => NaN end
  | PNone => NaN
  | _ => v
  end.

Definition float_of_Z (z : Z) : float :=
  SF2Prim (binary_normalize prec emax z 0 false).

Definition as_float (v : pyval) : pyval :=
  match v with
  | PInt z => PFloat (float_of_Z z)
  | PNone => NaN
  | _ => v
  end.

(** [pd.to_numeric] cell by cell, given the column. *)
Definition coerce_in (col : list pyval) (v : pyval) : pyval :=
  if forallb is_int (map coerce_cell col) then coerce_cell v
  else as_float (coerce_cell v).

(** The dtype of a column of numbers, missing values and [None]s is
    [float64]; with a [bool] among them it is [object]. *)
Definition unify_cell (col : list pyval) (v : pyval) : pyval :=
  if existsb is_bool col then v else as_float v.

Definition divide_cells (a b : pyval) : pyval :=
  match a, b with
  | PInt x, PInt y => PFloat (PrimFloat.div (float_of_Z x) (float_of_Z y))
  | PFloat x, PInt y => PFloat (PrimFloat.div x (float_of_Z y))
  | _, _ => NaN
  end.

(** The network answers with [replies] in turn and is down afterwards;
    pandas answers for none of the inputs left open; the file system accepts
    every write. *)
Definition scripted (replies : list Reply) : Externals :=
  mkExternals
    (fun n _ => nth n replies (ReplyRaises RequestException))
    (fun _ => Raise ValueError)
    unify_cell
    coerce_in
    (fun _ => Raise TypeError)
    divide_cells
    (fun _ _ => Raise TypeError)
    (fun _ _ => None)
    (fun _ => None).

(** The network gives the same reply to every request. *)
Definition steady (r : Reply) : Externals :=
  mkExternals
    (fun _ _ => r)
    (fun _ => Raise ValueError)
    unify_cell
    coerce_in
    (fun _ => Raise TypeError)
    divide_cells
    (fun _ _ => Raise TypeError)
    (fun _ _ => None)
    (fun _ => None).

(** A credential. *)
Definition key0 : pyval := PStr "KEY".

(** One BEA record. *)
Definition bea_record (value : string) : pyval :=
  PDict [(PStr "GeoFips", PStr "10003"); (PStr "DataValue", PStr value)].

(** The body of a BEA reply that carries [records]. *)
Definition bea_body (records : list pyval) : pyval :=
  PDict [(PStr "BEAAPI",
          PDict [(PStr "Results", PDict [(PStr "Data", PList records)])])].

(** A well-formed BEA reply, and one that reports an error. *)
Definition bea_ok (records : list pyval) : Reply :=
  ReplyBody "{..}" (Some (bea_body records)).

Definition bea_error : Reply :=
  ReplyBody "{..}"
    (Some (PDict [(PStr "BEAAPI",
                   PDict [(PStr "Results",
                           PDict [(PStr "Error", PStr "Invalid key")])])])).

(** A body that reports an error and carries data beside it. *)
Definition error_and_data : pyval :=
  PDict [(PStr "BEAAPI",
          PDict [(PStr "Results",
                  PDict [(PStr "Error", PStr "Partial result");
                         (PStr "Data", PList [bea_record "81,746"])])])].

(** One transport error, then a BEA body with one record. *)
Definition flaky_once : Externals :=
  scripted [ReplyRaises RequestException; bea_ok [bea_record "81,746"]].

(** One transport error, then a body that is the list [["BEAAPI"]]:
    ['BEAAPI' in data] holds and [data['BEAAPI']] raises a [TypeError]. *)
Definition odd_body : Externals :=
  scripted [ReplyRaises RequestException;
            ReplyBody "[..]" (Some (PList [PStr "BEAAPI"]))].

(** A body whose [Data] is a string, as the only reply. *)
Definition data_is_text : Externals :=
  scripted [ReplyBody "{..}"
              (Some (PDict [(PStr "BEAAPI",
                             PDict [(PStr "Results",
                                     PDict [(PStr "Data", PStr "No data")])])]))].

(** One record for each of the nine fetches. *)
Definition one_record_each : Externals :=
  scripted (repeat (bea_ok [bea_record "81,746"]) 9).

(** Two records in the reply to the first fetch; the network is down
    afterwards. *)
Definition two_records_once : Externals :=
  scripted [bea_ok [bea_record "81,746"; bea_record "85,102"]].

(** A well-formed census reply: a header and one row. *)
Definition census_ok (name population : string) : Reply :=
  ReplyBody "[..]"
    (Some (PList [PList [PStr "NAME"; PStr "B01001_001E"; PStr "B01002_001E";
                         PStr "state"; PStr "county"];
                  PList [PStr name; PStr population; PStr "38.5";
                         PStr "10"; PStr "003"]])).

(** Every county answers. *)
Definition census_up : Externals :=
  scripted [census_ok "New Castle County, Delaware" "575494";
            census_ok "Kent County, Delaware" "186946";
            census_ok "Sussex County, Delaware" "255956"].

(** The census rows of two counties. *)
Definition two_counties : DataFrame :=
  mkFrame 2
    [(PStr "NAME", [PStr "New Castle County, Delaware";
                    PStr "Kent County, Delaware"]);
     (PStr "B01001_001E", [PStr "575494"; PStr "186946"]);
     (PStr "B01002_001E", [PStr "38.5"; PStr "38.0"]);
     (PStr "County", [PStr "New Castle"; PStr "Kent"])].

(** A table that has both a 'B01001_001E' and a 'Total Population'
    column. *)
Definition both_columns : DataFrame :=
  mkFrame 1
    [(PStr "B01001_001E", [PStr "575494"]);
     (PStr "Total Population", [PStr "575494"])].

(** A census body whose header names both columns. *)
Definition header_names_both : Externals :=
  scripted [ReplyBody "[..]"
              (Some (PList [PList [PStr "B01001_001E"; PStr "Total Population"];
                            PList [PStr "575494"; PStr "575494"]]))].

(** ** Budgets and loop bodies *)

(** A loop body, or the statements under a [try], that never falls through:
    it returns or it raises. *)
Definition never_continues {R} (m : M (Flow R)) : Prop :=
  forall w, fst (m w) <> Ret Continue.

(** [w'] is [w] after at most [r] requests, each of which satisfies [P],
    and at most [s] sleeps, each of [secs] seconds, with no directory
    made. *)
Definition within (P : Request -> Prop) (secs : Z) (r s : nat)
  (w w' : World) : Prop :=
  exists rs naps,
    requests w' = requests w ++ rs /\ (List.length rs <= r)%nat
    /\ Forall P rs
    /\ sleeps w' = sleeps w ++ naps /\ (List.length naps <= s)%nat
    /\ Forall (eq secs) naps
    /\ dirs w' = dirs w.

(** The world once directory [path] is made. *)
Definition made (path : string) (w : World) : World :=
  mkWorld (requests w) (sleeps w) (stdout w) (exports w) (dirs w ++ [path]).

(** [w'] is [w] after exactly [r] requests and [s] sleeps of [secs] seconds
    each, with the same exports and directories. *)
Definition after (secs : Z) (r s : nat) (w w' : World) : Prop :=
  exists rs, List.length rs = r /\ extends w w' rs (repeat secs s).

(** A computation that stays within such a budget wherever it is run. *)
Definition spends {A} (P : Request -> Prop) (secs : Z) (r s : nat)
  (m : M A) : Prop :=
  forall w, within P secs r s w (snd (m w)).

(** The queries of the BEA script: one of the three county codes of lines
    128-133 with one of the three line codes, for 2021. *)
Definition bea_query (api_key : pyval) (req : Request) : Prop :=
  exists geo_fips linecode,
    In geo_fips ["10003"; "10001"; "10005"]
    /\ In linecode [Business.BEA_LINE_CODE_GDP;
                    Business.BEA_LINE_CODE_GDP_CAPITA;
                    Business.BEA_LINE_CODE_ANNUAL_GDP_GROWTH]
    /\ req = bea_request api_key (PStr geo_fips) (PInt 2021) (PInt linecode).

(** The queries of the census script: one of the three county codes of the
    FIPS table, in state 10, for 2022. *)
Definition census_query (api_key : pyval) (req : Request) : Prop :=
  exists county_fips,
    In county_fips ["003"; "001"; "005"]
    /\ req = census_request api_key (PStr "10") (PStr county_fips) (PInt 2022).

(** The figures [get_education_data] attaches to every county, by label. *)
Definition education_figures : list (string * pyval) :=
  [("High School Completion (%)", Education.HIGH_SCHOOL_GRADUATION_RATE);
   ("Associates Degree / Apprenticeship (%)",
    Education.ASSOCIATES_DEGREE_ATTAINMENT);
   ("Bachelors Degree (%)", Education.BACHELORS_DEGREE_ATTAINMENT);
   ("Advanced Degree (%)", Education.ADVANCED_DEGREE_ATTAINMENT)].

(** A one-row frame that carries the four figures. *)
Definition figures_frame (df : DataFrame) : Prop :=
  nrows df = 1%nat
  /\ Forall (fun lv => has_label (PStr (fst lv)) df = true
                       /\ frame_cells (PStr (fst lv)) df = [snd lv])
            education_figures.

(** * Lemmas and claims *)

(** ** Traces *)

Lemma extends_refl w : extends w w [] [].
Proof. unfold extends. rewrite !app_nil_r. auto. Qed.

Lemma extends_trans w1 w2 w3 r1 n1 r2 n2 :
  extends w1 w2 r1 n1 -> extends w2 w3 r2 n2 ->
  extends w1 w3 (r1 ++ r2) (n1 ++ n2).
Proof.
  unfold extends. intros (Ha & Hb & Hc & Hd) (He & Hf & Hg & Hh).
  rewrite He, Hf, Hg, Hh, Ha, Hb, Hc, Hd, !app_assoc. auto.
Qed.

Lemma extends_nil_l w1 w2 w3 r n :
  extends w1 w2 [] [] -> extends w2 w3 r n -> extends w1 w3 r n.
Proof. intros H1 H2. exact (extends_trans _ _ _ _ _ _ _ H1 H2). Qed.

Lemma extends_nil_r w1 w2 w3 r n :
  extends w1 w2 r n -> extends w2 w3 [] [] -> extends w1 w3 r n.
Proof.
  intros H1 H2. generalize (extends_trans _ _ _ _ _ _ _ H1 H2).
  now rewrite !app_nil_r.
Qed.

Lemma quiet_ret {A} (a : A) : quiet (ret a).
Proof. intro w. apply extends_refl. Qed.

Lemma quiet_raise {A} (e : Exc) : quiet (@raise A e).
Proof. intro w. apply extends_refl. Qed.

Lemma quiet_lift {A} (r : Res A) : quiet (lift r).
Proof. intro w. apply extends_refl. Qed.

Lemma quiet_print l : quiet (print l).
Proof. intro w. unfold extends. simpl. rewrite !app_nil_r. auto. Qed.

Lemma quiet_bind {A B} (m : M A) (k : A -> M B) :
  quiet m -> (forall a, quiet (k a)) -> quiet (bind m k).
Proof.
  intros Hm Hk w. unfold bind. specialize (Hm w).
  destruct (m w) as [[a | e] w1]; simpl in *.
  - eapply extends_nil_l; [exact Hm | apply Hk].
  - exact Hm.
Qed.

Lemma quiet_if {A} (b : bool) (m1 m2 : M A) :
  quiet m1 -> quiet m2 -> quiet (if b then m1 else m2).
Proof. destruct b; auto. Qed.

Ltac quiet_tac :=
  repeat first
    [ apply quiet_ret | apply quiet_raise | apply quiet_lift | apply quiet_print
    | apply quiet_if
    | apply quiet_bind; [ | intro ] ].

Lemma bea_unwrap_quiet response : quiet (Business.bea_unwrap response).
Proof.
  unfold Business.bea_unwrap, response_json.
  destruct (parsed response); quiet_tac.
Qed.

Lemma census_unwrap_quiet sf cf y response :
  quiet (Education.census_unwrap sf cf y response).
Proof.
  unfold Education.census_unwrap, response_json.
  destruct (parsed response); quiet_tac.
Qed.

Lemma offline_quiet {A} (m : M A) : quiet m -> offline m.
Proof. intros H w. exists []. apply H. Qed.

Lemma offline_sleep secs : offline (time_sleep secs).
Proof.
  intro w. unfold time_sleep. destruct (secs <? 0).
  - exists []. apply extends_refl.
  - exists [secs]. unfold extends. simpl. rewrite !app_nil_r. auto.
Qed.

Lemma sends_bind {A B} rs (m : M A) (k : A -> M B) :
  sends rs m -> (forall a, offline (k a)) -> sends rs (bind m k).
Proof.
  intros Hm Hk w. unfold bind. destruct (Hm w) as (n1 & H1).
  destruct (m w) as [[a | e] w1].
  - destruct (Hk a w1) as (n2 & H2). exists (n1 ++ n2).
    generalize (extends_trans _ _ _ _ _ _ _ H1 H2).
    now rewrite app_nil_r.
  - exists n1. exact H1.
Qed.

Lemma sends_try {A} rs (m : M A) clauses :
  sends rs m -> (forall c e, In c clauses -> offline (snd c e)) ->
  sends rs (try_except m clauses).
Proof.
  intros Hm Hc w. unfold try_except. destruct (Hm w) as (n1 & H1).
  destruct (m w) as [[a | e] w1].
  - exists n1. exact H1.
  - destruct (find (fun c => fst c e) clauses) as [c|] eqn:Hf.
    + apply find_some in Hf. destruct Hf as [Hin _].
      destruct (Hc c e Hin w1) as (n2 & H2). exists (n1 ++ n2).
      generalize (extends_trans _ _ _ _ _ _ _ H1 H2).
      now rewrite app_nil_r.
    + exists n1. exact H1.
Qed.

Lemma sends_requests_get X u ps :
  sends [mkRequest u ps] (requests_get X u ps).
Proof.
  intro w. exists []. unfold requests_get.
  destruct (net X _ _); unfold extends; simpl; rewrite !app_nil_r; auto.
Qed.

(** ** The retry loop

    The loops of [get_bea_data] and [get_census_data_by_county] are the same
    text around different requests and different statements under the inner
    [try]; [retry_attempt] is that text, and the two functions are instances
    of it by unfolding. *)

Section Retry.
Variable X : Externals.
Variable u : Line.
Variable ps : list (string * pyval).
Variable unwrap : Response -> M (Flow pyval).
Variables max_retries retry_delay : Z.

Hypothesis unwrap_quiet : forall r, quiet (unwrap r).
Hypothesis unwrap_undecodable :
  forall t, raises (unwrap (mkResponse t None)) JSONDecodeError.

Let req : Request := mkRequest u ps.

Local Abbreviation attempt_at :=
  (retry_attempt X u ps unwrap max_retries retry_delay).
Local Abbreviation the_call :=
  (retry_call X u ps unwrap max_retries retry_delay).

Lemma extends_sent w : extends w (sent req w) [req] [].
Proof. unfold extends, sent. simpl. rewrite !app_nil_r. auto. Qed.

Lemma unwrap_extends r w : extends (sent req w) (snd (unwrap r (sent req w))) [] [].
Proof. apply unwrap_quiet. Qed.

(** The two retry handlers, once the failure is printed. *)
Lemma handler_retries (l1 l2 l3 : Line) attempt w w1 :
  0 <= retry_delay -> (attempt <? max_retries - 1) = true ->
  extends w w1 [req] [] ->
  exists w',
    (print l1 ;;
     if attempt <? max_retries - 1 then
       print l2 ;; time_sleep retry_delay ;; ret Continue
     else print l3 ;; ret (Return PNone)) w1 = (Ret Continue, w')
    /\ extends w w' [req] [retry_delay].
Proof.
  intros Hd Ha Hw. rewrite Ha. unfold bind, print, time_sleep, ret. simpl.
  replace (retry_delay <? 0) with false by (symmetry; apply Z.ltb_ge; lia).
  eexists. split; [reflexivity|].
  destruct Hw as (H1 & H2 & H3 & H4). unfold extends. simpl.
  rewrite H1, H2, H3, H4, app_nil_r. auto.
Qed.

Lemma handler_gives_up (l1 l2 l3 : Line) attempt w w1 :
  (attempt <? max_retries - 1) = false ->
  extends w w1 [req] [] ->
  exists w',
    (print l1 ;;
     if attempt <? max_retries - 1 then
       print l2 ;; time_sleep retry_delay ;; ret Continue
     else print l3 ;; ret (Return PNone)) w1 = (Ret (Return PNone), w')
    /\ extends w w' [req] [].
Proof.
  intros Ha Hw. rewrite Ha. unfold bind, print, ret. simpl.
  eexists. split; [reflexivity|].
  destruct Hw as (H1 & H2 & H3 & H4). unfold extends. simpl.
  rewrite H1, H2, H3, H4. auto.
Qed.

(** An attempt that meets a transient failure sleeps and goes on when
    another attempt is left, and returns [None] when none is. *)
Lemma attempt_transient attempt w :
  transient (net X (List.length (requests w)) req) = true ->
  (0 <= retry_delay -> (attempt <? max_retries - 1) = true ->
   exists w', attempt_at attempt w = (Ret Continue, w')
              /\ extends w w' [req] [retry_delay])
  /\ ((attempt <? max_retries - 1) = false ->
      exists w', attempt_at attempt w = (Ret (Return PNone), w')
                 /\ extends w w' [req] []).
Proof.
  intro Ht. remember (attempt_at attempt w) as r eqn:Hr.
  unfold retry_attempt in Hr.
  unfold try_except at 1 in Hr. unfold bind at 1 in Hr.
  unfold requests_get in Hr. fold req in Hr. fold (sent req w) in Hr.
  destruct (net X (List.length (requests w)) req) as [e | t [v |]];
    simpl in Ht; try discriminate.
  - destruct e; try discriminate. simpl in Hr. subst r. split.
    + intros Hd Ha. apply handler_retries; auto using extends_sent.
    + intros Ha. apply handler_gives_up; auto using extends_sent.
  - unfold try_except at 1 in Hr.
    pose proof (unwrap_undecodable t (sent req w)) as Hx.
    pose proof (unwrap_extends (mkResponse t None) w) as Hq.
    destruct (unwrap (mkResponse t None) (sent req w)) as [r0 w1].
    simpl in Hx, Hq. subst r0. simpl in Hr. subst r.
    assert (Hw : extends w w1 [req] []).
    { eapply extends_nil_r; [apply extends_sent | exact Hq]. }
    split.
    + intros Hd Ha.
      edestruct handler_retries as (w' & He & Hx); [exact Hd | exact Ha | exact Hw |].
      exists w'. rewrite He. split; [reflexivity | exact Hx].
    + intros Ha.
      edestruct handler_gives_up as (w' & He & Hx); [exact Ha | exact Hw |].
      exists w'. rewrite He. split; [reflexivity | exact Hx].
Qed.

(** An attempt on which the statements under [try] return, returns the
    same. *)
Lemma attempt_returned attempt w v :
  attempt_returns unwrap (net X (List.length (requests w)) req) v ->
  exists w', attempt_at attempt w = (Ret (Return v), w')
             /\ extends w w' [req] [].
Proof.
  intro Hv. remember (attempt_at attempt w) as r eqn:Hr.
  unfold retry_attempt in Hr.
  unfold try_except at 1 in Hr. unfold bind at 1 in Hr.
  unfold requests_get in Hr. fold req in Hr. fold (sent req w) in Hr.
  destruct (net X (List.length (requests w)) req) as [e | t p];
    simpl in Hv; [contradiction|].
  unfold try_except at 1 in Hr.
  pose proof (Hv (sent req w)) as Hx.
  pose proof (unwrap_extends (mkResponse t p) w) as Hq.
  destruct (unwrap (mkResponse t p) (sent req w)) as [r0 w1].
  simpl in Hx, Hq. subst r0. simpl in Hr. subst r.
  exists w1. split; [reflexivity|].
  eapply extends_nil_r; [apply extends_sent | exact Hq].
Qed.

(** An attempt on which they raise anything but a transport or a decode
    error returns [None] at once: it neither sleeps nor goes on. *)
Lemma attempt_unexpected attempt w e :
  attempt_raises unwrap (net X (List.length (requests w)) req) e ->
  is_RequestException e = false -> is_JSONDecodeError e = false ->
  exists w', attempt_at attempt w = (Ret (Return PNone), w')
             /\ extends w w' [req] [].
Proof.
  intros He Hn1 Hn2. remember (attempt_at attempt w) as r eqn:Hr.
  unfold retry_attempt in Hr.
  unfold try_except at 1 in Hr. unfold bind at 1 in Hr.
  unfold requests_get in Hr. fold req in Hr. fold (sent req w) in Hr.
  destruct (net X (List.length (requests w)) req) as [e' | t p];
    simpl in He.
  - subst e'. simpl in Hr. rewrite Hn1 in Hr. simpl in Hr. subst r.
    eexists. split; [reflexivity|].
    eapply extends_nil_r; [apply extends_sent | apply quiet_print].
  - unfold try_except at 1 in Hr.
    pose proof (He (sent req w)) as Hx.
    pose proof (unwrap_extends (mkResponse t p) w) as Hq.
    destruct (unwrap (mkResponse t p) (sent req w)) as [r0 w1].
    simpl in Hx, Hq. subst r0. simpl in Hr.
    rewrite Hn2, Hn1 in Hr. simpl in Hr. subst r.
    eexists. split; [reflexivity|].
    eapply extends_nil_r; [|apply quiet_print].
    eapply extends_nil_r; [apply extends_sent | exact Hq].
Qed.

Lemma offline_handler (l1 l2 l3 : Line) attempt :
  offline (print l1 ;;
           if attempt <? max_retries - 1 then
             print l2 ;; time_sleep retry_delay ;; ret Continue
           else print l3 ;; ret (@Return pyval PNone)).
Proof.
  apply sends_bind; [apply offline_quiet, quiet_print | intros _].
  destruct (attempt <? max_retries - 1).
  - apply sends_bind; [apply offline_quiet, quiet_print | intros _].
    apply sends_bind; [apply offline_sleep | intros _].
    apply offline_quiet, quiet_ret.
  - apply sends_bind; [apply offline_quiet, quiet_print | intros _].
    apply offline_quiet, quiet_ret.
Qed.

(** Whatever the reply, an attempt issues exactly one request. *)
Lemma attempt_one_request attempt : sends [req] (attempt_at attempt).
Proof.
  unfold retry_attempt. apply sends_try.
  - apply sends_bind; [apply sends_requests_get | intro response].
    apply sends_try; [apply offline_quiet, unwrap_quiet|].
    intros c e [<- | []]. apply offline_handler.
  - intros c e [<- | [<- | []]]; simpl.
    + apply offline_handler.
    + apply sends_bind; [apply offline_quiet, quiet_print | intros _].
      apply offline_quiet, quiet_ret.
Qed.

(** [N] transient failures in a row, each with an attempt to spare, cost
    [N] requests and [N] sleeps and leave the loop at attempt [a + N]. *)
Lemma loop_transient (N : nat) : forall (a n : nat) (w : World),
  ((0 < N)%nat -> 0 <= retry_delay) ->
  (forall j, (j < N)%nat ->
     transient (net X (List.length (requests w) + j) req) = true) ->
  Z.of_nat (a + N) <= max_retries - 1 ->
  exists w',
    for_each (map Z.of_nat (seq a (N + n))) attempt_at w
    = for_each (map Z.of_nat (seq (a + N) n)) attempt_at w'
    /\ extends w w' (repeat req N) (repeat retry_delay N).
Proof.
  induction N as [|N IH]; intros a n w Hd Hf Ha.
  - exists w. rewrite Nat.add_0_r. split; [reflexivity | apply extends_refl].
  - assert (Ht : transient (net X (List.length (requests w)) req) = true).
    { rewrite <- (Nat.add_0_r (List.length (requests w))). apply Hf. lia. }
    assert (Hd' : 0 <= retry_delay) by (apply Hd; lia).
    destruct (attempt_transient (Z.of_nat a) w Ht) as [Hgo _].
    destruct Hgo as (w1 & He & Hx); [exact Hd' | apply Z.ltb_lt; lia |].
    destruct (IH (S a) n w1) as (w2 & He2 & Hx2).
    + intros _. exact Hd'.
    + intros j Hj. destruct Hx as (Hr & _). rewrite Hr, length_app. simpl.
      replace (List.length (requests w) + 1 + j)%nat
        with (List.length (requests w) + S j)%nat by lia.
      apply Hf. lia.
    + lia.
    + exists w2. split.
      * change (S N + n)%nat with (S (N + n)). simpl seq. simpl map.
        simpl for_each. unfold bind at 1. rewrite He.
        replace (a + S N)%nat with (S a + N)%nat by lia. exact He2.
      * generalize (extends_trans _ _ _ _ _ _ _ Hx Hx2). now simpl.
Qed.

Lemma repeat_snoc {A} (x : A) n : repeat x n ++ [x] = repeat x (S n).
Proof. simpl. symmetry. apply repeat_cons. Qed.

(** The loop issues at most one request per attempt. *)
Lemma loop_at_most (items : list Z) : forall w,
  exists n naps, (n <= List.length items)%nat
    /\ extends w (snd (for_each items attempt_at w)) (repeat req n) naps.
Proof.
  induction items as [|a items IH]; intro w.
  - exists O, []. split; [simpl; lia | apply extends_refl].
  - simpl for_each. unfold bind.
    destruct (attempt_one_request a w) as (n1 & H1).
    destruct (attempt_at a w) as [[[|v] | e] w1]; simpl in H1.
    + destruct (IH w1) as (n & n2 & Hle & H2).
      exists (S n), (n1 ++ n2). split; [simpl; lia|].
      generalize (extends_trans _ _ _ _ _ _ _ H1 H2). now simpl.
    + exists 1%nat, n1. split; [simpl; lia | exact H1].
    + exists 1%nat, n1. split; [simpl; lia | exact H1].
Qed.

Lemma retry_call_at_most w :
  exists n naps, (n <= Z.to_nat max_retries)%nat
    /\ extends w (snd (the_call w)) (repeat req n) naps.
Proof.
  unfold retry_call, bind.
  destruct (loop_at_most (py_range max_retries) w) as (n & naps & Hle & Hx).
  unfold py_range in Hle. rewrite length_map, length_seq in Hle.
  exists n, naps. split; [exact Hle|].
  destruct (for_each (py_range max_retries) attempt_at w) as [[[|v] | e] w1];
    exact Hx.
Qed.

(** Every attempt fails: [None], after [max_retries] requests and one sleep
    fewer. *)
Lemma retry_call_exhausted w :
  1 <= max_retries -> 0 <= retry_delay ->
  (forall j, (j < Z.to_nat max_retries)%nat ->
     transient (net X (List.length (requests w) + j) req) = true) ->
  exists w',
    the_call w = (Ret PNone, w')
    /\ extends w w' (repeat req (Z.to_nat max_retries))
                    (repeat retry_delay (Z.to_nat max_retries - 1)).
Proof.
  intros Hm Hd Hf. unfold retry_call, py_range.
  set (N := (Z.to_nat max_retries - 1)%nat).
  replace (Z.to_nat max_retries) with (N + 1)%nat in * by (unfold N; lia).
  destruct (loop_transient N 0 1 w) as (w1 & He & Hx).
  - intros _. exact Hd.
  - intros j Hj. apply Hf. lia.
  - unfold N. lia.
  - assert (Ht : transient (net X (List.length (requests w1)) req) = true).
    { destruct Hx as (Hr & _). rewrite Hr, length_app, repeat_length.
      apply Hf. lia. }
    destruct (attempt_transient (Z.of_nat N) w1 Ht) as [_ Hlast].
    destruct Hlast as (w2 & He2 & Hx2); [apply Z.ltb_ge; unfold N; lia |].
    exists w2. split.
    + unfold bind at 1. rewrite He. simpl. unfold bind at 1. rewrite He2.
      reflexivity.
    + generalize (extends_trans _ _ _ _ _ _ _ Hx Hx2).
      now rewrite repeat_snoc, app_nil_r, Nat.add_1_r.
Qed.

(** [N] transient failures and then a reply on which the statements under
    [try] return [v]: [v], after [N + 1] requests and [N] sleeps. *)
Lemma retry_call_recovers (N : nat) w v :
  Z.of_nat N < max_retries -> ((0 < N)%nat -> 0 <= retry_delay) ->
  (forall j, (j < N)%nat ->
     transient (net X (List.length (requests w) + j) req) = true) ->
  attempt_returns unwrap (net X (List.length (requests w) + N) req) v ->
  exists w',
    the_call w = (Ret v, w')
    /\ extends w w' (repeat req (S N)) (repeat retry_delay N).
Proof.
  intros Hm Hd Hf Hv. unfold retry_call, py_range.
  replace (Z.to_nat max_retries)
    with (N + S (Z.to_nat max_retries - N - 1))%nat by lia.
  destruct (loop_transient N 0 (S (Z.to_nat max_retries - N - 1)) w Hd Hf)
    as (w1 & He & Hx); [lia|].
  destruct (attempt_returned (Z.of_nat N) w1 v) as (w2 & He2 & Hx2).
  { destruct Hx as (Hr & _). rewrite Hr, length_app, repeat_length. exact Hv. }
  exists w2. split.
  - unfold bind at 1. rewrite He. simpl. unfold bind at 1. rewrite He2.
    reflexivity.
  - generalize (extends_trans _ _ _ _ _ _ _ Hx Hx2).
    now rewrite repeat_snoc, app_nil_r.
Qed.

(** [N] transient failures and then an attempt that raises something else:
    [None], after [N + 1] requests and [N] sleeps. *)
Lemma retry_call_unexpected (N : nat) w e :
  Z.of_nat N < max_retries -> ((0 < N)%nat -> 0 <= retry_delay) ->
  (forall j, (j < N)%nat ->
     transient (net X (List.length (requests w) + j) req) = true) ->
  attempt_raises unwrap (net X (List.length (requests w) + N) req) e ->
  is_RequestException e = false -> is_JSONDecodeError e = false ->
  exists w',
    the_call w = (Ret PNone, w')
    /\ extends w w' (repeat req (S N)) (repeat retry_delay N).
Proof.
  intros Hm Hd Hf Hv Hn1 Hn2. unfold retry_call, py_range.
  replace (Z.to_nat max_retries)
    with (N + S (Z.to_nat max_retries - N - 1))%nat by lia.
  destruct (loop_transient N 0 (S (Z.to_nat max_retries - N - 1)) w Hd Hf)
    as (w1 & He & Hx); [lia|].
  destruct (attempt_unexpected (Z.of_nat N) w1 e) as (w2 & He2 & Hx2); auto.
  { destruct Hx as (Hr & _). rewrite Hr, length_app, repeat_length. exact Hv. }
  exists w2. split.
  - unfold bind at 1. rewrite He. simpl. unfold bind at 1. rewrite He2.
    reflexivity.
  - generalize (extends_trans _ _ _ _ _ _ _ Hx Hx2).
    now rewrite repeat_snoc, app_nil_r.
Qed.

End Retry.

(** ** The two fetchers as instances of the loop *)

Lemma get_bea_data_unfold X api_key geo_fips year linecode max_retries retry_delay :
  Business.get_bea_data X api_key geo_fips year linecode max_retries retry_delay
  = retry_call X [Lit Business.BEA_API_URL]
      (Business.bea_params api_key geo_fips year linecode)
      Business.bea_unwrap max_retries retry_delay.
Proof. reflexivity. Qed.

Lemma get_census_data_unfold X api_key state_fips county_name county_fips year
  max_retries retry_delay :
  py_hashable county_name = true ->
  dict_get county_name Education.fips_codes = Some county_fips ->
  Education.get_census_data_by_county X api_key state_fips county_name year
    max_retries retry_delay
  = retry_call X (Education.census_url api_key state_fips county_fips year) []
      (Education.census_unwrap state_fips county_fips year)
      max_retries retry_delay.
Proof.
  intros Hh Hk. unfold Education.get_census_data_by_county.
  rewrite Hh, Hk. reflexivity.
Qed.

Lemma bea_unwrap_undecodable t :
  raises (Business.bea_unwrap (mkResponse t None)) JSONDecodeError.
Proof. intro w. reflexivity. Qed.

Lemma census_unwrap_undecodable sf cf y t :
  raises (Education.census_unwrap sf cf y (mkResponse t None)) JSONDecodeError.
Proof. intro w. reflexivity. Qed.

Lemma py_key_eqb_str s k : py_key_eqb (PStr s) k = str_key_eqb s k.
Proof. destruct k; reflexivity. Qed.

Lemma dict_get_contains key items :
  existsb (fun kv => str_key_eqb key (fst kv)) items
  = match dict_get (PStr key) items with Some _ => true | None => false end.
Proof.
  induction items as [|[k v] items IH]; [reflexivity|].
  cbn [existsb dict_get fst]. rewrite py_key_eqb_str.
  destruct (str_key_eqb key k); simpl; auto.
Qed.

Lemma py_contains_dict key items :
  py_contains key (PDict items)
  = Ret (match dict_get (PStr key) items with Some _ => true | None => false end).
Proof. unfold py_contains. now rewrite dict_get_contains. Qed.

Lemma py_getitem_dict key items :
  py_getitem (PDict items) key
  = match dict_get (PStr key) items with Some v => Ret v | None => Raise KeyError end.
Proof. reflexivity. Qed.

Lemma bind_ret {A B} (a : A) (k : A -> M B) : bind (ret a) k = k a.
Proof. reflexivity. Qed.

Lemma bind_lift_Ret {A B} (a : A) (k : A -> M B) : bind (lift (Ret a)) k = k a.
Proof. reflexivity. Qed.

Lemma bind_lift_Raise {A B} (e : Exc) (k : A -> M B) :
  bind (lift (Raise e)) k = raise e.
Proof. reflexivity. Qed.

Lemma bind_raise {A B} (e : Exc) (k : A -> M B) : bind (raise e) k = raise e.
Proof. reflexivity. Qed.

Lemma yields_print_then {A} l (a : A) : yields (print l ;; ret a) a.
Proof. intro w. reflexivity. Qed.

Lemma raises_raise {A} e : raises (@raise A e) e.
Proof. intro w. reflexivity. Qed.

Ltac py_step :=
  first [ rewrite bind_ret | rewrite bind_lift_Ret | rewrite bind_lift_Raise
        | rewrite bind_raise
        | rewrite py_contains_dict | rewrite py_getitem_dict ].

(** A body with [BEAAPI.Results.Data] yields what is under it. *)
Lemma bea_unwrap_data t data payload :
  dict_path ["BEAAPI"; "Results"; "Data"] data = Some payload ->
  yields (Business.bea_unwrap (mkResponse t (Some data))) (Return payload).
Proof.
  intros Hp w. simpl in Hp.
  destruct data as [| | | | |?|items]; try discriminate.
  destruct (dict_get (PStr "BEAAPI") items) as [api|] eqn:H1; try discriminate.
  destruct api as [| | | | |?|items1]; try discriminate.
  destruct (dict_get (PStr "Results") items1) as [results|] eqn:H2;
    try discriminate.
  destruct results as [| | | | |?|items2]; try discriminate.
  destruct (dict_get (PStr "Data") items2) as [d|] eqn:H3; try discriminate.
  injection Hp as ->.
  unfold Business.bea_unwrap, response_json. cbn [parsed].
  repeat (py_step; rewrite ?H1, ?H2, ?H3).
  reflexivity.
Qed.

Ltac shape_leaf :=
  solve
    [ left; intro; reflexivity
    | right; eexists; split; [intro; reflexivity | split; reflexivity]
    | discriminate ].

Ltac shape_step :=
  first
    [ py_step
    | progress cbn [py_contains py_getitem]
    | match goal with
      | |- context [match dict_get ?k ?items with _ => _ end] =>
          let E := fresh "E" in destruct (dict_get k items) as [[| | | | | |]|] eqn:E
      | |- context [if ?b then _ else _] =>
          let E := fresh "E" in destruct b eqn:E
      end ].

(** A decoded body without [BEAAPI.Results.Data]: the statements under the
    inner [try] return [None], or raise a [TypeError] or [KeyError]. *)
Lemma bea_unwrap_no_data t data :
  dict_path ["BEAAPI"; "Results"; "Data"] data = None ->
  yields (Business.bea_unwrap (mkResponse t (Some data))) (Return PNone)
  \/ exists e, raises (Business.bea_unwrap (mkResponse t (Some data))) e
               /\ unexpected e.
Proof.
  intro Hp. simpl in Hp. unfold unexpected.
  unfold Business.bea_unwrap, response_json. cbn [parsed].
  destruct data; repeat (try shape_leaf; shape_step).
Qed.

(** A body of at least two rows yields [dict(zip(row 0, row 1))]. *)
Lemma census_unwrap_rows sf cf y t columns values more county_data :
  py_dict_zip columns values = Ret county_data ->
  yields (Education.census_unwrap sf cf y
            (mkResponse t (Some (PList (columns :: values :: more)))))
         (Return county_data).
Proof.
  intros Hz w. unfold Education.census_unwrap, response_json. cbn [parsed].
  rewrite bind_ret. cbn [py_len]. rewrite bind_lift_Ret.
  replace (1 <? Z.of_nat (List.length (columns :: values :: more))) with true
    by (symmetry; apply Z.ltb_lt; simpl List.length; lia).
  cbn [py_index nth_error]. rewrite !bind_lift_Ret, Hz, bind_lift_Ret.
  reflexivity.
Qed.

(** ** Concrete runs *)

(** Closed statements about concrete runs are settled by running them. *)
Ltac by_running :=
  repeat match goal with |- _ /\ _ => split end; vm_compute; reflexivity.

(** ** Claims on the fetchers *)

(** C3. A fetch call makes at most [max_retries] attempts; if every attempt
    fails with a transport error or an undecodable body, the call returns
    [None] (it does not raise) after exactly [max_retries - 1] sleeps.  This
    holds for [get_bea_data] and for [get_census_data_by_county] on a county
    of the FIPS table, for a number of attempts of at least one and a delay
    that is not negative. *)
Theorem C3_exhausted_retries_return_None :
  forall X max_retries retry_delay,
    1 <= max_retries -> 0 <= retry_delay ->
    (forall api_key geo_fips year linecode,
        exhausts_to_None X
          (Business.get_bea_data X api_key geo_fips year linecode
             max_retries retry_delay)
          (bea_request api_key geo_fips year linecode)
          max_retries retry_delay)
    /\ (forall api_key state_fips county county_fips year,
           dict_get (PStr county) Education.fips_codes = Some county_fips ->
           exhausts_to_None X
             (Education.get_census_data_by_county X api_key state_fips
                (PStr county) year max_retries retry_delay)
             (census_request api_key state_fips county_fips year)
             max_retries retry_delay).
Proof.
  intros X mr d Hmr Hd.
  assert (G : forall u ps unwrap,
             (forall r, quiet (unwrap r)) ->
             (forall t, raises (unwrap (mkResponse t None)) JSONDecodeError) ->
             exhausts_to_None X (retry_call X u ps unwrap mr d)
                              (mkRequest u ps) mr d).
  { intros u ps unwrap Hq Hu w. split.
    - destruct (retry_call_at_most X u ps unwrap mr d Hq w)
        as (n & naps & Hle & Hx).
      exists n, naps. split; [lia | exact Hx].
    - intro Hf.
      destruct (retry_call_exhausted X u ps unwrap mr d Hq Hu w Hmr Hd Hf)
        as (w' & He & Hx).
      exists w'. split; [exact He|].
      replace (Z.to_nat (mr - 1)) with (Z.to_nat mr - 1)%nat by lia.
      exact Hx. }
  split.
  - intros. rewrite get_bea_data_unfold.
    apply G; [apply bea_unwrap_quiet | apply bea_unwrap_undecodable].
  - intros api_key sf county cf year Hk.
    rewrite (get_census_data_unfold X api_key sf (PStr county) cf year mr d
               eq_refl Hk).
    apply G; [apply census_unwrap_quiet | apply census_unwrap_undecodable].
Qed.

(** With the defaults (3 attempts, 5 seconds) and a network that is down,
    [get_bea_data] returns [None] after three requests and two sleeps. *)
Lemma C3_witness :
  exists w',
    Business.get_bea_data (scripted []) key0 (PStr "10003") (PInt 2021)
      (PInt 10) 3 5 World0 = (Ret PNone, w')
    /\ List.length (requests w') = 3%nat
    /\ sleeps w' = [5; 5].
Proof.
  destruct (C3_exhausted_retries_return_None (scripted []) 3 5
              ltac:(lia) ltac:(lia)) as [Hbea _].
  destruct (Hbea key0 (PStr "10003") (PInt 2021) (PInt 10) World0)
    as [_ Hall].
  destruct Hall as (w' & He & Hr & Hs & _).
  - intros j _. simpl. destruct j as [|[|[|j]]]; reflexivity.
  - exists w'. split; [exact He|]. rewrite Hr, Hs. split; reflexivity.
Defined.

(** A negative delay is refused by [time.sleep]; raised in the clause that
    handles the transport error, its [ValueError] is offered to no other
    clause and leaves [get_bea_data].  Hence the bound on the delay in the
    statements of this section. *)
Lemma negative_delay_escapes :
  fst (Business.get_bea_data (scripted []) key0 (PStr "10003") (PInt 2021)
         (PInt 10) 3 (-1) World0) = Raise ValueError.
Proof. by_running. Qed.

(** C2, amended.  For every [N] with [0 <= N < max_retries]: when a fetch
    call meets [N] transient failures in a row and then a well-formed
    response, it returns the payload of that response after [N + 1]
    requests and exactly [N] sleeps (one after each failure).  For
    [get_bea_data] the payload is what stands under [BEAAPI.Results.Data];
    for [get_census_data_by_county] it is the dict that zips the first two
    rows of the body. *)
Theorem C2_recovers_after_N_failures_with_N_sleeps :
  forall X (N : nat) max_retries retry_delay w,
    Z.of_nat N < max_retries -> 0 <= retry_delay ->
    (forall api_key geo_fips year linecode t data payload,
        let req := bea_request api_key geo_fips year linecode in
        fails_transiently X w req N ->
        net X (List.length (requests w) + N) req = ReplyBody t (Some data) ->
        dict_path ["BEAAPI"; "Results"; "Data"] data = Some payload ->
        exists w',
          Business.get_bea_data X api_key geo_fips year linecode
            max_retries retry_delay w = (Ret payload, w')
          /\ extends w w' (repeat req (S N)) (repeat retry_delay N))
    /\ (forall api_key state_fips county county_fips year t columns values more
               county_data,
           let req := census_request api_key state_fips county_fips year in
           dict_get (PStr county) Education.fips_codes = Some county_fips ->
           fails_transiently X w req N ->
           net X (List.length (requests w) + N) req
           = ReplyBody t (Some (PList (columns :: values :: more))) ->
           py_dict_zip columns values = Ret county_data ->
           exists w',
             Education.get_census_data_by_county X api_key state_fips
               (PStr county) year max_retries retry_delay w
             = (Ret county_data, w')
             /\ extends w w' (repeat req (S N)) (repeat retry_delay N)).
Proof.
  intros X N mr d w Hn Hd. split.
  - intros api_key geo year lc t data payload req Hf Hr Hp.
    rewrite get_bea_data_unfold. unfold req, bea_request in *.
    apply retry_call_recovers; auto using bea_unwrap_quiet, bea_unwrap_undecodable.
    rewrite Hr. simpl. now apply bea_unwrap_data.
  - intros api_key sf county cf year t columns values more cd req Hk Hf Hr Hz.
    rewrite (get_census_data_unfold X api_key sf (PStr county) cf year mr d
               eq_refl Hk).
    unfold req, census_request in *.
    apply retry_call_recovers;
      auto using census_unwrap_quiet, census_unwrap_undecodable.
    rewrite Hr. simpl. now apply census_unwrap_rows.
Qed.

(** With the defaults, one failure and then a success: the records are
    returned after two requests and one sleep. *)
Lemma C2_witness :
  exists w',
    Business.get_bea_data flaky_once key0 (PStr "10003") (PInt 2021)
      (PInt 10) 3 5 World0 = (Ret (PList [bea_record "81,746"]), w')
    /\ List.length (requests w') = 2%nat
    /\ sleeps w' = [5].
Proof.
  destruct (C2_recovers_after_N_failures_with_N_sleeps flaky_once 1 3 5 World0
              ltac:(lia) ltac:(lia)) as [Hbea _].
  destruct (Hbea key0 (PStr "10003") (PInt 2021) (PInt 10) "{..}"
              (bea_body [bea_record "81,746"]) (PList [bea_record "81,746"]))
    as (w' & He & Hr & Hs & _).
  - intros j Hj. destruct j; [reflexivity | lia].
  - reflexivity.
  - reflexivity.
  - exists w'. split; [exact He|]. rewrite Hr, Hs. split; reflexivity.
Defined.

(** C2 as stated fails.  With [max_retries = 3] and [N = 1] transient
    failure followed by a well-formed response, the call returns the payload
    but has slept once, not [N - 1 = 0] times; and with [N = max_retries = 3]
    failures the response that follows is never asked for: the call returns
    [None]. *)
Lemma C2_counterexample :
  (fails_transiently flaky_once World0
     (bea_request key0 (PStr "10003") (PInt 2021) (PInt 10)) 1
   /\ net flaky_once 1 (bea_request key0 (PStr "10003") (PInt 2021) (PInt 10))
      = bea_ok [bea_record "81,746"]
   /\ exists w',
       Business.get_bea_data flaky_once key0 (PStr "10003") (PInt 2021)
         (PInt 10) 3 5 World0 = (Ret (PList [bea_record "81,746"]), w')
       /\ List.length (sleeps w') = 1%nat
       /\ List.length (sleeps w') <> (1 - 1)%nat)
  /\ (let X := scripted [ReplyRaises RequestException;
                         ReplyRaises RequestException;
                         ReplyRaises RequestException;
                         bea_ok [bea_record "81,746"]] in
      fails_transiently X World0
        (bea_request key0 (PStr "10003") (PInt 2021) (PInt 10)) 3
      /\ net X 3 (bea_request key0 (PStr "10003") (PInt 2021) (PInt 10))
         = bea_ok [bea_record "81,746"]
      /\ fst (Business.get_bea_data X key0 (PStr "10003") (PInt 2021)
                (PInt 10) 3 5 World0) = Ret PNone).
Proof.
  split; [split; [|split] | split; [|split]].
  - intros j Hj. destruct j; [reflexivity | lia].
  - reflexivity.
  - eexists. split; [vm_compute; reflexivity|]. split; [reflexivity|].
    simpl. discriminate.
  - intros j Hj. destruct j as [|[|[|j]]]; try reflexivity. lia.
  - reflexivity.
  - vm_compute. reflexivity.
Qed.

(** C4, amended.  When the first attempt of [get_bea_data] receives a body
    that decodes as JSON, the call returns after exactly one request,
    without a retry and without a sleep.  It returns [None] when the body
    has nothing under [BEAAPI.Results.Data]: when it reports an error under
    [Results] and no data, lacks [BEAAPI], [Results] or [Data], or is no
    dict at all.  When the body carries [Data] under [BEAAPI.Results], that
    payload is returned, also when the body reports an error beside it. *)
Theorem C4_provider_error_is_not_retried :
  forall X api_key geo_fips year linecode max_retries retry_delay w t data,
    1 <= max_retries ->
    net X (List.length (requests w))
        (bea_request api_key geo_fips year linecode)
    = ReplyBody t (Some data) ->
    exists w',
      Business.get_bea_data X api_key geo_fips year linecode
        max_retries retry_delay w
      = (Ret match dict_path ["BEAAPI"; "Results"; "Data"] data with
             | Some payload => payload
             | None => PNone
             end, w')
      /\ extends w w' [bea_request api_key geo_fips year linecode] [].
Proof.
  intros X api_key geo year lc mr d w t data Hmr Hr.
  rewrite get_bea_data_unfold. unfold bea_request in *.
  destruct (dict_path ["BEAAPI"; "Results"; "Data"] data) as [payload|] eqn:Hp.
  - apply (retry_call_recovers X _ _ _ mr d
             bea_unwrap_quiet bea_unwrap_undecodable 0 w payload);
      [lia | lia | intros j Hj; lia |].
    rewrite Nat.add_0_r, Hr. exact (bea_unwrap_data t data payload Hp).
  - destruct (bea_unwrap_no_data t data Hp) as [Hy | (e & He & Hn1 & Hn2)].
    + apply (retry_call_recovers X _ _ _ mr d
               bea_unwrap_quiet bea_unwrap_undecodable 0 w PNone);
        [lia | lia | intros j Hj; lia |].
      rewrite Nat.add_0_r, Hr. exact Hy.
    + apply (retry_call_unexpected X _ _ _ mr d
               bea_unwrap_quiet bea_unwrap_undecodable 0 w e);
        [lia | lia | intros j Hj; lia | | exact Hn1 | exact Hn2].
      rewrite Nat.add_0_r, Hr. exact He.
Qed.

(** A provider error on the first attempt, with the defaults: [None], one
    request, no sleep. *)
Lemma C4_witness :
  exists w',
    Business.get_bea_data (scripted [bea_error]) key0 (PStr "10003")
      (PInt 2021) (PInt 10) 3 5 World0 = (Ret PNone, w')
    /\ List.length (requests w') = 1%nat
    /\ sleeps w' = [].
Proof.
  destruct (C4_provider_error_is_not_retried (scripted [bea_error]) key0
              (PStr "10003") (PInt 2021) (PInt 10) 3 5 World0 "{..}"
              (PDict [(PStr "BEAAPI",
                       PDict [(PStr "Results",
                               PDict [(PStr "Error", PStr "Invalid key")])])]))
    as (w' & He & Hr & Hs & _).
  - lia.
  - reflexivity.
  - exists w'. split; [exact He|]. rewrite Hr, Hs. split; reflexivity.
Defined.

(** C4 as stated fails: a body that reports an error under [Results] and
    carries [Data] beside it is a well-formed response that explicitly
    reports a provider-side error, and the call returns the payload, not
    [None]: line 62 looks for [Data] before line 64 looks for [Error]. *)
Lemma C4_counterexample :
  dict_path ["BEAAPI"; "Results"; "Error"] error_and_data
  = Some (PStr "Partial result")
  /\ exists w',
      Business.get_bea_data
        (scripted [ReplyBody "{..}" (Some error_and_data)]) key0
        (PStr "10003") (PInt 2021) (PInt 10) 3 5 World0
      = (Ret (PList [bea_record "81,746"]), w')
      /\ List.length (requests w') = 1%nat
      /\ sleeps w' = [].
Proof. split; [reflexivity|]. eexists. by_running. Qed.

(** C9. When an attempt of a fetch call raises an exception that is neither
    a transport error nor a JSON-decode error (from [requests.get] or from
    the statements that inspect the decoded body), the call returns [None]
    from that attempt: whatever the number [N] of transient failures before
    it and of attempts left after it, it has issued [N + 1] requests and
    slept [N] times, once after each earlier failure and not after this
    one. *)
Theorem C9_unexpected_exception_returns_None_at_once :
  forall X (N : nat) max_retries retry_delay w e,
    Z.of_nat N < max_retries -> 0 <= retry_delay -> unexpected e ->
    (forall api_key geo_fips year linecode,
        let req := bea_request api_key geo_fips year linecode in
        fails_transiently X w req N ->
        attempt_raises Business.bea_unwrap
          (net X (List.length (requests w) + N) req) e ->
        exists w',
          Business.get_bea_data X api_key geo_fips year linecode
            max_retries retry_delay w = (Ret PNone, w')
          /\ extends w w' (repeat req (S N)) (repeat retry_delay N))
    /\ (forall api_key state_fips county county_fips year,
           let req := census_request api_key state_fips county_fips year in
           dict_get (PStr county) Education.fips_codes = Some county_fips ->
           fails_transiently X w req N ->
           attempt_raises (Education.census_unwrap state_fips county_fips year)
             (net X (List.length (requests w) + N) req) e ->
           exists w',
             Education.get_census_data_by_county X api_key state_fips
               (PStr county) year max_retries retry_delay w = (Ret PNone, w')
             /\ extends w w' (repeat req (S N)) (repeat retry_delay N)).
Proof.
  intros X N mr d w e Hn Hd [Hn1 Hn2]. split.
  - intros api_key geo year lc req Hf Hr.
    rewrite get_bea_data_unfold. unfold req, bea_request in *.
    apply retry_call_unexpected with (e := e);
      auto using bea_unwrap_quiet, bea_unwrap_undecodable.
  - intros api_key sf county cf year req Hk Hf Hr.
    rewrite (get_census_data_unfold X api_key sf (PStr county) cf year mr d
               eq_refl Hk).
    unfold req, census_request in *.
    apply retry_call_unexpected with (e := e);
      auto using census_unwrap_quiet, census_unwrap_undecodable.
Qed.

Lemma C9_witness :
  exists w',
    Business.get_bea_data odd_body key0 (PStr "10003") (PInt 2021)
      (PInt 10) 3 5 World0 = (Ret PNone, w')
    /\ List.length (requests w') = 2%nat
    /\ sleeps w' = [5].
Proof.
  destruct (C9_unexpected_exception_returns_None_at_once odd_body 1 3 5 World0
              TypeError ltac:(lia) ltac:(lia) (conj eq_refl eq_refl))
    as [Hbea _].
  destruct (Hbea key0 (PStr "10003") (PInt 2021) (PInt 10))
    as (w' & He & Hr & Hs & _).
  - intros j Hj. destruct j; [reflexivity | lia].
  - intro w. reflexivity.
  - exists w'. split; [exact He|]. rewrite Hr, Hs. split; reflexivity.
Defined.

(** ** Claims on the geography resolver and the missing credential *)

(** C6. In both scripts, [get_county_population_data "Delaware"] returns the
    same three regions in the same order on every call and leaves the world
    as it found it (no request, nothing printed); for every other state it
    returns [None], and issues no request either. *)
Theorem C6_resolver_is_a_fixed_table :
  forall X state w,
    (if String.eqb state "Delaware"
     then Business.get_county_population_data X state w
          = (Ret (Some delaware_regions), w)
     else exists w',
         Business.get_county_population_data X state w = (Ret None, w')
         /\ extends w w' [] [])
    /\ (if String.eqb state "Delaware"
        then Education.get_county_population_data X state w
             = (Ret (Some delaware_regions), w)
        else exists w',
            Education.get_county_population_data X state w = (Ret None, w')
            /\ extends w w' [] [])
    /\ frame_cells (PStr "County") delaware_regions
       = [PStr "New Castle"; PStr "Kent"; PStr "Sussex"].
Proof.
  intros X state w.
  unfold Business.get_county_population_data,
    Education.get_county_population_data.
  destruct (String.eqb state "Delaware").
  - repeat split; reflexivity.
  - repeat split; try reflexivity;
      (eexists; split; [reflexivity | apply quiet_print]).
Qed.

Lemma business_resolver_delaware X :
  Business.get_county_population_data X "Delaware"
  = ret (Some delaware_regions).
Proof. reflexivity. Qed.

Lemma education_resolver_delaware X :
  Education.get_county_population_data X "Delaware"
  = ret (Some delaware_regions).
Proof. reflexivity. Qed.

Lemma delaware_rows :
  frame_rows delaware_regions
  = [county_row "New Castle"; county_row "Kent"; county_row "Sussex"].
Proof. reflexivity. Qed.

Lemma county_row_name name :
  row_getitem (county_row name) "County" = Ret (PStr name).
Proof. reflexivity. Qed.

(** C5. When [process_state] is called with a credential that is [None]
    (or otherwise false), it returns on the first county: no request is
    issued, no sleep taken, no spreadsheet exported.  The BEA script returns
    normally; the census script has made the output directory first and
    returns normally unless that failed. *)
Theorem C5_no_credential_no_work :
  forall X state output_folder api_key w,
    py_truthy api_key = false ->
    (exists w',
        Business.process_state X state output_folder api_key w = (Ret tt, w')
        /\ extends w w' [] [])
    /\ (exists r w',
           Education.process_state X state output_folder api_key w = (r, w')
           /\ r = match makedirs_error X output_folder with
                  | None => Ret tt
                  | Some e => Raise e
                  end
           /\ requests w' = requests w /\ sleeps w' = sleeps w
           /\ exports w' = exports w).
Proof.
  intros X state folder api_key w Hk. split.
  - unfold Business.process_state.
    destruct (String.eqb state "Delaware") eqn:Hs.
    + apply String.eqb_eq in Hs. subst state.
      rewrite business_resolver_delaware, bind_ret, delaware_rows.
      cbn [for_each_with]. unfold Business.county_body at 1.
      rewrite county_row_name, bind_lift_Ret. simpl String.eqb. cbv iota.
      rewrite Hk.
      eexists. split; [reflexivity | apply quiet_print].
    + eexists. split; [reflexivity | apply quiet_print].
  - unfold Education.process_state, os_makedirs.
    unfold bind at 1.
    destruct (makedirs_error X folder) as [e|].
    + exists (Raise e), w. auto.
    + destruct (String.eqb state "Delaware") eqn:Hs.
      * apply String.eqb_eq in Hs. subst state.
        rewrite education_resolver_delaware, bind_ret, delaware_rows.
        cbn [for_each_with]. unfold Education.county_body at 1.
        rewrite county_row_name, bind_lift_Ret. rewrite Hk.
        eexists _, _. split; [reflexivity|]. simpl. auto.
      * eexists _, _. split; [reflexivity|]. simpl. auto.
Qed.

(** The default credential, [None]. *)
Lemma C5_witness :
  exists w',
    Business.process_state (scripted []) "Delaware" "out" PNone World0
    = (Ret tt, w')
    /\ requests w' = [] /\ exports w' = [].
Proof.
  destruct (C5_no_credential_no_work (scripted []) "Delaware" "out" PNone
              World0 eq_refl) as [(w' & He & Hr & _ & Hx & _) _].
  exists w'. split; [exact He|]. rewrite Hr, Hx. split; reflexivity.
Defined.

(** ** Data frames: assignment to a column *)

Lemma str_key_eqb_true s k : str_key_eqb s k = true -> k = PStr s.
Proof.
  destruct k; simpl; try discriminate. intro H.
  apply String.eqb_eq in H. now subst.
Qed.

Lemma py_key_eqb_str_refl s : py_key_eqb (PStr s) (PStr s) = true.
Proof. simpl. apply String.eqb_refl. Qed.

Lemma nrows_set_cells df l c : nrows (frame_set_cells df l c) = nrows df.
Proof. unfold frame_set_cells. now destruct (has_label l df). Qed.

Lemma nrows_set_scalar df l v : nrows (frame_set_scalar df l v) = nrows df.
Proof. apply nrows_set_cells. Qed.

Lemma columns_of_replace_same l c cs :
  map snd (filter (fun x => py_key_eqb l (fst x)) (replace_columns l c cs))
  = map (fun _ => c) (filter (fun x => py_key_eqb l (fst x)) cs).
Proof.
  induction cs as [|[k x] cs IH]; [reflexivity|].
  unfold replace_columns in *. cbn [map filter fst].
  destruct (py_key_eqb l k) eqn:E; cbn [fst filter]; rewrite E; cbn [map snd];
    now rewrite IH.
Qed.

Lemma columns_of_replace_other s s' c cs :
  String.eqb s' s = false ->
  filter (fun x => py_key_eqb (PStr s) (fst x))
         (replace_columns (PStr s') c cs)
  = filter (fun x => py_key_eqb (PStr s) (fst x)) cs.
Proof.
  intro Hne. induction cs as [|[k x] cs IH]; [reflexivity|].
  unfold replace_columns in *. cbn [map filter fst].
  destruct (py_key_eqb (PStr s') k) eqn:E; cbn [fst filter].
  - rewrite py_key_eqb_str in E. apply str_key_eqb_true in E. subst k.
    cbn [py_key_eqb]. rewrite String.eqb_sym, Hne. exact IH.
  - destruct (py_key_eqb (PStr s) k); now rewrite IH.
Qed.

Lemma has_label_filter l df :
  has_label l df = false ->
  filter (fun x => py_key_eqb l (fst x)) (cols df) = [].
Proof.
  unfold has_label, labels. induction (cols df) as [|[k x] cs IH];
    [reflexivity|].
  cbn [map existsb fst filter]. destruct (py_key_eqb l k); [discriminate|].
  exact IH.
Qed.

Lemma has_label_columns l df :
  has_label l df = true -> columns_of l df <> [].
Proof.
  unfold has_label, labels, columns_of.
  induction (cols df) as [|[k x] cs IH]; [discriminate|].
  cbn [map existsb fst filter]. destruct (py_key_eqb l k); [discriminate|].
  exact IH.
Qed.

(** After [df[s] = cells], the cells under [s] are [cells]. *)
Lemma frame_cells_set_same s df c :
  frame_cells (PStr s) (frame_set_cells df (PStr s) c) = c.
Proof.
  unfold frame_cells, frame_set_cells.
  destruct (has_label (PStr s) df) eqn:E.
  - unfold columns_of at 1. cbn [cols]. rewrite columns_of_replace_same.
    apply has_label_columns in E. unfold columns_of in E.
    destruct (filter _ (cols df)); [now elim E | reflexivity].
  - unfold columns_of. cbn [cols]. rewrite filter_app, has_label_filter by exact E.
    cbn [filter fst]. now rewrite py_key_eqb_str_refl.
Qed.

(** [df[s'] = cells] leaves the cells under another label [s] alone. *)
Lemma frame_cells_set_other s s' df c :
  String.eqb s' s = false ->
  frame_cells (PStr s) (frame_set_cells df (PStr s') c)
  = frame_cells (PStr s) df.
Proof.
  intro Hne. unfold frame_cells, frame_set_cells, columns_of.
  destruct (has_label (PStr s') df); cbn [cols].
  - now rewrite columns_of_replace_other.
  - rewrite filter_app. cbn [filter fst py_key_eqb].
    rewrite String.eqb_sym, Hne. now rewrite app_nil_r.
Qed.

Lemma has_label_set_same s df c :
  has_label (PStr s) (frame_set_cells df (PStr s) c) = true.
Proof.
  unfold frame_set_cells. destruct (has_label (PStr s) df) eqn:E.
  - unfold has_label, labels, replace_columns in *. cbn [cols].
    rewrite map_map. rewrite <- E. f_equal. apply map_ext.
    intros [k x]. cbn [fst]. now destruct (py_key_eqb (PStr s) k).
  - unfold has_label, labels. cbn [cols]. rewrite map_app, existsb_app.
    cbn [map existsb fst]. rewrite py_key_eqb_str_refl.
    now rewrite orb_true_r.
Qed.

Lemma has_label_set_other l s' df c :
  has_label l df = true ->
  has_label l (frame_set_cells df (PStr s') c) = true.
Proof.
  intro H. unfold frame_set_cells. destruct (has_label (PStr s') df).
  - unfold has_label, labels, replace_columns in *. cbn [cols].
    rewrite map_map. rewrite <- H. f_equal. apply map_ext.
    intros [k x]. cbn [fst]. now destruct (py_key_eqb (PStr s') k).
  - unfold has_label, labels in *. cbn [cols]. rewrite map_app, existsb_app, H.
    reflexivity.
Qed.

(** ** Claims on the row transformer *)

Lemma combine_repeat {A B} (a : A) (b : B) n :
  combine (repeat a n) (repeat b n) = repeat (a, b) n.
Proof. induction n; simpl; congruence. Qed.

Lemma tagged_row_tags df county tag :
  tagged df county tag -> row_tags df = repeat (county, tag) (nrows df).
Proof.
  intros (_ & _ & Hc & Ht). unfold row_tags. rewrite Hc, Ht.
  apply combine_repeat.
Qed.

Lemma tagged_set df county tag :
  tagged (frame_set_scalar
            (frame_set_scalar df (PStr "County") county)
            (PStr "DataType") tag)
         county tag.
Proof.
  unfold tagged, frame_set_scalar.
  rewrite !nrows_set_cells. repeat split.
  - apply has_label_set_other, has_label_set_same.
  - apply has_label_set_same.
  - rewrite frame_cells_set_other by reflexivity. apply frame_cells_set_same.
  - apply frame_cells_set_same.
Qed.

(** On a payload that is not [None], [transform_bea_data] is
    [pd.DataFrame] followed by the two assignments. *)
Lemma transform_bea_data_built X payload county tag df :
  payload <> PNone -> pd_DataFrame X payload = Ret df ->
  Business.transform_bea_data X payload county tag
  = Ret (Some (frame_set_scalar
                 (frame_set_scalar df (PStr "County") county)
                 (PStr "DataType") tag)).
Proof.
  intros Hn Hd. unfold Business.transform_bea_data. rewrite Hd.
  destruct payload; try reflexivity. now elim Hn.
Qed.

Lemma transform_bea_data_refused X payload county tag e :
  pd_DataFrame X payload = Raise e ->
  Business.transform_bea_data X payload county tag = Raise e.
Proof.
  intros Hd. unfold Business.transform_bea_data. rewrite Hd.
  destruct payload; try reflexivity. discriminate.
Qed.

(** C7, amended.  Given the absence value [None] the row transformer
    returns [None].  Given any other payload together with a region name
    and a metric tag, it returns the table pandas builds from the payload,
    with as many rows, in which every row's County and DataType are exactly
    the name and the tag supplied; a list of records is such a payload and
    gives one row per record.  When pandas builds no table from the payload,
    the transformer raises the constructor's exception. *)
Theorem C7_transformer_tags_every_row :
  forall X payload county tag,
    Business.transform_bea_data X PNone (PStr county) (PStr tag) = Ret None
    /\ (payload <> PNone ->
        match pd_DataFrame X payload with
        | Ret df =>
            exists out,
              Business.transform_bea_data X payload (PStr county) (PStr tag)
              = Ret (Some out)
              /\ nrows out = nrows df
              /\ row_tags out = repeat (PStr county, PStr tag) (nrows df)
        | Raise e =>
            Business.transform_bea_data X payload (PStr county) (PStr tag)
            = Raise e
        end)
    /\ (forall records,
           payload = PList records -> forallb is_dict records = true ->
           exists out,
             Business.transform_bea_data X payload (PStr county) (PStr tag)
             = Ret (Some out)
             /\ nrows out = List.length records
             /\ row_tags out
                = repeat (PStr county, PStr tag) (List.length records)).
Proof.
  intros X payload county tag.
  assert (G : forall df, payload <> PNone -> pd_DataFrame X payload = Ret df ->
              exists out,
                Business.transform_bea_data X payload (PStr county) (PStr tag)
                = Ret (Some out)
                /\ nrows out = nrows df
                /\ row_tags out = repeat (PStr county, PStr tag) (nrows df)).
  { intros df Hn Hd. eexists.
    split; [exact (transform_bea_data_built X payload _ _ df Hn Hd)|].
    split; [now rewrite !nrows_set_scalar|].
    rewrite (tagged_row_tags _ _ _ (tagged_set df (PStr county) (PStr tag))).
    now rewrite !nrows_set_scalar. }
  split; [reflexivity | split].
  - intro Hn. destruct (pd_DataFrame X payload) as [df | e] eqn:Hd.
    + now apply G.
    + now apply transform_bea_data_refused.
  - intros records -> Hr.
    destruct (G (infer_objects X (from_records (map dict_items records))))
      as (out & He & Hrows & Ht).
    + discriminate.
    + simpl. now rewrite Hr.
    + exists out. split; [exact He|].
      simpl in Hrows, Ht. rewrite length_map in Hrows, Ht. auto.
Qed.

(** Two records for Kent tagged as GDP: two rows, both tagged. *)
Lemma C7_witness :
  exists out,
    Business.transform_bea_data (scripted [])
      (PList [bea_record "7,518"; bea_record "7,902"]) (PStr "Kent") (PStr "GDP")
    = Ret (Some out)
    /\ nrows out = 2%nat
    /\ row_tags out = [(PStr "Kent", PStr "GDP"); (PStr "Kent", PStr "GDP")].
Proof.
  destruct (C7_transformer_tags_every_row (scripted [])
              (PList [bea_record "7,518"; bea_record "7,902"]) "Kent" "GDP")
    as (_ & Hbuilt & Hrec).
  assert (Hn : PList [bea_record "7,518"; bea_record "7,902"] <> PNone)
    by discriminate.
  specialize (Hbuilt Hn). simpl in Hbuilt.
  destruct (Hrec [bea_record "7,518"; bea_record "7,902"] eq_refl eq_refl)
    as (out & He & Hrows & Ht).
  exists out. split; [exact He|]. split; [exact Hrows | exact Ht].
Defined.

(** C7 as stated fails: on a payload that is a string the transformer
    raises [ValueError], since [pd.DataFrame] refuses a bare scalar.  The
    fetcher does return such a payload when it stands under
    [BEAAPI.Results.Data], and the exception then leaves [process_state]. *)
Lemma C7_counterexample :
  Business.transform_bea_data (scripted []) (PStr "No data")
    (PStr "Kent") (PStr "GDP") = Raise ValueError
  /\ fst (Business.get_bea_data data_is_text key0 (PStr "10003") (PInt 2021)
            (PInt 10) 3 5 World0) = Ret (PStr "No data")
  /\ fst (Business.process_state data_is_text "Delaware" "out" key0 World0)
     = Raise ValueError.
Proof. by_running. Qed.

(** ** Data frames: concatenation *)

Lemma py_key_eqb_str_r k s : py_key_eqb k (PStr s) = true -> k = PStr s.
Proof.
  destruct k; simpl; try discriminate. intro H.
  apply String.eqb_eq in H. now subst.
Qed.

(** Labels that are equal as keys agree on being the string [s]. *)
Lemma py_key_eqb_str_congr s k k' :
  py_key_eqb k k' = true -> py_key_eqb (PStr s) k = py_key_eqb (PStr s) k'.
Proof.
  intro H. rewrite !py_key_eqb_str.
  destruct (str_key_eqb s k) eqn:E1.
  - apply str_key_eqb_true in E1. subst k.
    rewrite py_key_eqb_str in H. apply str_key_eqb_true in H. subst k'.
    simpl. now rewrite String.eqb_refl.
  - destruct (str_key_eqb s k') eqn:E2; [|reflexivity].
    apply str_key_eqb_true in E2. subst k'.
    apply py_key_eqb_str_r in H. subst k. simpl in E1.
    now rewrite String.eqb_refl in E1.
Qed.

Lemma stack_columns s (cf cg : list (pyval * list pyval)) :
  labels_eqb (map fst cf) (map fst cg) = true ->
  match
    map snd (filter (fun c => py_key_eqb (PStr s) (fst c))
               (map (fun cc => (fst (fst cc), snd (fst cc) ++ snd (snd cc)))
                    (combine cf cg)))
  with
  | c :: _ => c
  | [] => []
  end
  = match map snd (filter (fun c => py_key_eqb (PStr s) (fst c)) cf) with
    | c :: _ => c
    | [] => []
    end
    ++ match map snd (filter (fun c => py_key_eqb (PStr s) (fst c)) cg) with
       | c :: _ => c
       | [] => []
       end.
Proof.
  revert cg. induction cf as [|[kf xf] cf IH]; intros [|[kg xg] cg] H;
    try discriminate; [reflexivity|].
  cbn [map fst labels_eqb] in H. apply andb_prop in H. destruct H as [Hk Hr].
  cbn [combine map filter fst snd].
  rewrite <- (py_key_eqb_str_congr s kf kg Hk).
  destruct (py_key_eqb (PStr s) kf); [reflexivity|]. now apply IH.
Qed.

Lemma labels_stack f g :
  labels_eqb (labels f) (labels g) = true -> labels (stack f g) = labels f.
Proof.
  unfold labels, stack. cbn [cols]. generalize (cols g).
  induction (cols f) as [|[kf xf] cf IH]; intros [|[kg xg] cg] H;
    try discriminate; [reflexivity|].
  cbn [map fst labels_eqb] in H. apply andb_prop in H. destruct H as [_ Hr].
  cbn [combine map fst]. f_equal. now apply IH.
Qed.

Lemma frame_cells_stack s f g :
  labels_eqb (labels f) (labels g) = true ->
  frame_cells (PStr s) (stack f g)
  = frame_cells (PStr s) f ++ frame_cells (PStr s) g.
Proof. intro H. unfold frame_cells, columns_of. now apply stack_columns. Qed.

Lemma frame_cells_stack_all s rest : forall f,
  forallb (fun g => labels_eqb (labels f) (labels g)) rest = true ->
  frame_cells (PStr s) (fold_left stack rest f)
  = frame_cells (PStr s) f ++ flat_map (frame_cells (PStr s)) rest.
Proof.
  induction rest as [|g rest IH]; intros f H.
  - simpl. now rewrite app_nil_r.
  - cbn [forallb] in H. apply andb_prop in H. destruct H as [Hg Hr].
    cbn [fold_left flat_map]. rewrite IH.
    + rewrite frame_cells_stack by exact Hg. now rewrite app_assoc.
    + rewrite labels_stack by exact Hg. exact Hr.
Qed.

Lemma nrows_stack_all rest : forall f,
  nrows (fold_left stack rest f) = (nrows f + total_rows rest)%nat.
Proof.
  induction rest as [|g rest IH]; intro f; simpl.
  - lia.
  - rewrite IH. simpl. lia.
Qed.

(** Adding labels keeps the label [s] once it is there, and adds it with a
    frame that has it. *)
Lemma add_label_keeps s acc k :
  existsb (py_key_eqb (PStr s)) acc = true ->
  existsb (py_key_eqb (PStr s)) (add_label acc k) = true.
Proof.
  intro H. unfold add_label. destruct (existsb (py_key_eqb k) acc); [exact H|].
  now rewrite existsb_app, H.
Qed.

Lemma add_labels_keep s ks : forall acc,
  existsb (py_key_eqb (PStr s)) acc = true ->
  existsb (py_key_eqb (PStr s)) (fold_left add_label ks acc) = true.
Proof.
  induction ks as [|k ks IH]; intros acc H; [exact H|].
  cbn [fold_left]. apply IH. now apply add_label_keeps.
Qed.

Lemma add_labels_adds s ks : forall acc,
  existsb (py_key_eqb (PStr s)) ks = true ->
  existsb (py_key_eqb (PStr s)) (fold_left add_label ks acc) = true.
Proof.
  induction ks as [|k ks IH]; intros acc H; [discriminate|].
  cbn [existsb] in H. cbn [fold_left].
  destruct (py_key_eqb (PStr s) k) eqn:E.
  - apply add_labels_keep. rewrite py_key_eqb_str in E.
    apply str_key_eqb_true in E. subst k. unfold add_label.
    destruct (existsb (py_key_eqb (PStr s)) acc) eqn:Ha; [exact Ha|].
    rewrite existsb_app. cbn [existsb]. rewrite py_key_eqb_str_refl.
    now rewrite orb_true_r.
  - apply IH. exact H.
Qed.

Lemma union_labels_has s frames : forall acc,
  (existsb (py_key_eqb (PStr s)) acc = true
   \/ exists g, In g frames /\ has_label (PStr s) g = true) ->
  existsb (py_key_eqb (PStr s))
    (fold_left (fun acc g => fold_left add_label (labels g) acc) frames acc)
  = true.
Proof.
  induction frames as [|f frames IH]; intros acc H.
  - destruct H as [H | (g & [] & _)]. exact H.
  - cbn [fold_left]. apply IH. destruct H as [H | (g & [<- | Hin] & Hg)].
    + left. now apply add_labels_keep.
    + left. now apply add_labels_adds.
    + right. now exists g.
Qed.

(** The first column labelled [s] of a table built label by label. *)
Lemma frame_cells_tabulate s (F : pyval -> list pyval) ls n :
  existsb (py_key_eqb (PStr s)) ls = true ->
  frame_cells (PStr s) (mkFrame n (map (fun l => (l, F l)) ls)) = F (PStr s).
Proof.
  unfold frame_cells, columns_of. cbn [cols].
  induction ls as [|k ls IH]; [discriminate|].
  cbn [existsb map filter fst]. destruct (py_key_eqb (PStr s) k) eqn:E.
  - intros _. rewrite py_key_eqb_str in E. apply str_key_eqb_true in E.
    now subst k.
  - exact IH.
Qed.

Lemma flat_map_ext_in {A B} (f g : A -> list B) l :
  (forall x, In x l -> f x = g x) -> flat_map f l = flat_map g l.
Proof.
  induction l as [|x l IH]; intro H; [reflexivity|].
  simpl. rewrite H by now left. rewrite IH; [reflexivity|].
  intros y Hy. apply H. now right.
Qed.

(** The cells of a concatenation under a label that every frame has are
    the cells of the frames, one frame after the other; its rows are those
    of all frames. *)
Lemma pd_concat_cells s frames tbl :
  pd_concat frames = Ret tbl ->
  (forall g, In g frames -> has_label (PStr s) g = true) ->
  frame_cells (PStr s) tbl = flat_map (frame_cells (PStr s)) frames.
Proof.
  intros Hc Hl. unfold pd_concat in Hc. destruct frames as [|f rest];
    [discriminate|].
  destruct (forallb (fun g => labels_eqb (labels f) (labels g)) rest) eqn:Heq.
  - injection Hc as <-. cbn [flat_map]. now apply frame_cells_stack_all.
  - destruct (existsb (fun g => has_dup (labels g)) (f :: rest));
      [discriminate|].
    injection Hc as <-. rewrite frame_cells_tabulate.
    + transitivity (flat_map (cells_or_nan (PStr s)) (f :: rest));
        [reflexivity|].
      apply flat_map_ext_in. intros g Hg. unfold cells_or_nan.
      now rewrite (Hl g Hg).
    + apply union_labels_has. left. apply add_labels_adds.
      apply (Hl f). apply in_eq.
Qed.

Lemma pd_concat_nrows frames tbl :
  pd_concat frames = Ret tbl -> nrows tbl = total_rows frames.
Proof.
  unfold pd_concat. destruct frames as [|f rest]; [discriminate|].
  destruct (forallb _ rest).
  - intro H. injection H as <-. rewrite nrows_stack_all. reflexivity.
  - destruct (existsb _ (f :: rest)); [discriminate|].
    intro H. now injection H as <-.
Qed.

(** ** Claims on the aggregation of the BEA script *)

Lemma subseq_refl {A} (l : list A) : subseq l l.
Proof. induction l; [apply subseq_nil | now apply subseq_take]. Qed.

Lemma subseq_nil_l {A} (l : list A) : subseq [] l.
Proof. induction l; [apply subseq_nil | now apply subseq_skip]. Qed.

Lemma subseq_app {A} (a1 a2 b1 b2 : list A) :
  subseq a1 a2 -> subseq b1 b2 -> subseq (a1 ++ b1) (a2 ++ b2).
Proof.
  intros Ha Hb. induction Ha; simpl;
    [exact Hb | apply subseq_skip; auto | apply subseq_take; auto].
Qed.

Lemma subseq_In {A} (l1 l2 : list A) x : subseq l1 l2 -> In x l1 -> In x l2.
Proof.
  intros Hs. induction Hs; intro Hin; auto.
  - right. auto.
  - destruct Hin as [<- | Hin]; [now left | right; auto].
Qed.

Lemma subseq_NoDup {A} (l1 l2 : list A) : subseq l1 l2 -> NoDup l2 -> NoDup l1.
Proof.
  intros Hs. induction Hs; intro Hn; auto.
  - inversion Hn; auto.
  - inversion Hn; subst. constructor; auto.
    intro Hin. eauto using subseq_In.
Qed.

Lemma collected_app f1 k1 f2 k2 :
  collected f1 k1 -> collected f2 k2 -> collected (f1 ++ f2) (k1 ++ k2).
Proof. apply Forall2_app. Qed.

Lemma collected_has_label frames keys g :
  collected frames keys -> In g frames ->
  has_label (PStr "County") g = true /\ has_label (PStr "DataType") g = true.
Proof.
  induction 1 as [|df key frames keys Ht _ IH]; intros []; subst.
  - destruct Ht as (H1 & H2 & _). auto.
  - auto.
Qed.

Lemma combine_app_same {A B} (a1 a2 : list A) (b1 b2 : list B) :
  List.length a1 = List.length b1 ->
  combine (a1 ++ a2) (b1 ++ b2) = combine a1 b1 ++ combine a2 b2.
Proof.
  revert b1. induction a1 as [|x a1 IH]; intros [|y b1] H; try discriminate;
    [reflexivity|].
  simpl. f_equal. apply IH. now injection H.
Qed.

Lemma collected_rows frames keys :
  collected frames keys ->
  combine (flat_map (frame_cells (PStr "County")) frames)
          (flat_map (frame_cells (PStr "DataType")) frames)
  = block_rows (combine keys (map nrows frames))
  /\ total_rows frames
     = List.length (block_rows (combine keys (map nrows frames)))
  /\ List.length keys = List.length frames.
Proof.
  induction 1 as [|df key frames keys Ht _ (IH1 & IH2 & IH3)];
    [repeat split|].
  destruct Ht as (_ & _ & Hc & Hd).
  cbn [flat_map map combine block_rows fst snd total_rows fold_right List.length].
  rewrite Hc, Hd, combine_app_same by now rewrite !repeat_length.
  rewrite combine_repeat, <- surjective_pairing. split; [|split].
  - f_equal. exact IH1.
  - rewrite length_app, repeat_length. f_equal. exact IH2.
  - now f_equal.
Qed.

Lemma transform_bea_data_tagged X payload county tag df :
  Business.transform_bea_data X payload county tag = Ret (Some df) ->
  tagged df county tag.
Proof.
  unfold Business.transform_bea_data.
  destruct payload; try discriminate;
    (destruct (pd_DataFrame X _); [|discriminate]);
    intro H; injection H as <-; apply tagged_set.
Qed.

Lemma get_bea_data_exports X api_key geo year lc mr d w :
  exports (snd (Business.get_bea_data X api_key geo year lc mr d w))
  = exports w.
Proof.
  rewrite get_bea_data_unfold.
  destruct (retry_call_at_most X [Lit Business.BEA_API_URL]
              (Business.bea_params api_key geo year lc) Business.bea_unwrap
              mr d bea_unwrap_quiet w)
    as (n & naps & _ & _ & _ & He & _).
  exact He.
Qed.

(** A fetch-and-append block appends nothing, or one frame tagged with the
    county and the metric; it exports nothing. *)
Lemma collect_metric_spec X api_key geo county lc tag miss acc w :
  exports (snd (Business.collect_metric X api_key geo county lc tag miss acc w))
  = exports w
  /\ match fst (Business.collect_metric X api_key geo county lc tag miss acc w) with
     | Ret acc' =>
         exists frames keys,
           acc' = acc ++ frames /\ collected frames keys
           /\ subseq keys [(county, PStr tag)]
     | Raise _ => True
     end.
Proof.
  unfold Business.collect_metric, bind.
  pose proof (get_bea_data_exports X api_key geo (PInt 2021) (PInt lc) 3 5 w)
    as Hx.
  destruct (Business.get_bea_data X api_key geo (PInt 2021) (PInt lc) 3 5 w)
    as [[payload | e] w1]; cbn [fst snd] in *; [|auto].
  destruct (py_truthy payload).
  - unfold lift.
    destruct (Business.transform_bea_data X payload county (PStr tag))
      as [[df|] | e] eqn:Ht; cbn [fst snd ret]; split; auto.
    + exists [df], [(county, PStr tag)]. split; [reflexivity|]. split.
      * constructor; [|constructor].
        now apply transform_bea_data_tagged in Ht.
      * apply subseq_refl.
    + exists [], []. rewrite app_nil_r. repeat split; [constructor|].
      apply subseq_nil_l.
  - cbn [fst snd print ret exports]. split; [exact Hx|].
    exists [], []. rewrite app_nil_r. repeat split; [constructor|].
    apply subseq_nil_l.
Qed.

Lemma bind_run {A B} (m : M A) (k : A -> M B) w :
  bind m k w = match m w with
               | (Ret a, w1) => k a w1
               | (Raise e, w1) => (Raise e, w1)
               end.
Proof. reflexivity. Qed.

(** One pass of the county loop appends, in metric order, a frame for some
    of the three metrics, each tagged with the county and its metric. *)
Lemma county_body_spec X api_key name s w :
  exports (snd (Business.county_body X "Delaware" api_key (county_row name) s w))
  = exports w
  /\ match fst (Business.county_body X "Delaware" api_key (county_row name) s w) with
     | Ret (_, s') =>
         exists frames keys,
           fst s' = fst s ++ frames /\ collected frames keys
           /\ subseq keys (map (fun m => (PStr name, PStr m)) metric_tags)
     | Raise _ => True
     end.
Proof.
  unfold Business.county_body.
  rewrite county_row_name, bind_lift_Ret, String.eqb_refl.
  set (geo_fips := if str_key_eqb "New Castle" (PStr name) then _ else _).
  clearbody geo_fips.
  assert (Hnone : exists frames keys,
             fst s = fst s ++ frames /\ collected frames keys
             /\ subseq keys (map (fun m => (PStr name, PStr m)) metric_tags)).
  { exists [], []. rewrite app_nil_r. repeat split; [constructor|].
    apply subseq_nil_l. }
  destruct (py_truthy api_key); [|split; [reflexivity | exact Hnone]].
  destruct geo_fips as [geo|]; [|split; [reflexivity | exact I]].
  rewrite bind_ret.
  rewrite bind_run.
  destruct (collect_metric_spec X api_key geo (PStr name)
              Business.BEA_LINE_CODE_GDP "GDP"
              [Lit "Skipping "; Val (PStr name);
               Lit " due to missing BEA GDP data."] (fst s) w) as [Hx1 H1].
  destruct (Business.collect_metric X api_key geo (PStr name)
              Business.BEA_LINE_CODE_GDP "GDP" _ (fst s) w)
    as [[acc1 | e1] w1]; cbn [fst snd] in *; [|auto].
  rewrite bind_run.
  destruct (collect_metric_spec X api_key geo (PStr name)
              Business.BEA_LINE_CODE_GDP_CAPITA "GDP_CAPITA"
              [Lit "Skipping "; Val (PStr name);
               Lit " due to missing BEA GDP Capita data."] acc1 w1)
    as [Hx2 H2].
  destruct (Business.collect_metric X api_key geo (PStr name)
              Business.BEA_LINE_CODE_GDP_CAPITA "GDP_CAPITA" _ acc1 w1)
    as [[acc2 | e2] w2]; cbn [fst snd] in *; [|split; [congruence | exact I]].
  rewrite bind_run.
  destruct (collect_metric_spec X api_key geo (PStr name)
              Business.BEA_LINE_CODE_ANNUAL_GDP_GROWTH "ANNUAL_GDP_GROWTH"
              [Lit "Skipping "; Val (PStr name);
               Lit " due to missing BEA Annual GDP Growth data."] acc2 w2)
    as [Hx3 H3].
  destruct (Business.collect_metric X api_key geo (PStr name)
              Business.BEA_LINE_CODE_ANNUAL_GDP_GROWTH "ANNUAL_GDP_GROWTH"
              _ acc2 w2)
    as [[acc3 | e3] w3]; cbn [fst snd] in *; [|split; [congruence | exact I]].
  cbn [ret fst snd]. split; [congruence|].
  destruct H1 as (f1 & k1 & -> & Hc1 & Hs1).
  destruct H2 as (f2 & k2 & -> & Hc2 & Hs2).
  destruct H3 as (f3 & k3 & -> & Hc3 & Hs3).
  exists (f1 ++ f2 ++ f3), (k1 ++ k2 ++ k3). split; [|split].
  - now rewrite !app_assoc.
  - auto using collected_app.
  - apply (subseq_app k1 [_] (k2 ++ k3) [_; _]); [exact Hs1|].
    apply (subseq_app k2 [_] k3 [_]); assumption.
Qed.

(** The county loop: frames in region order crossed with metric order. *)
Lemma county_loop_spec X api_key names : forall s w,
  exports (snd (for_each_with (map county_row names) s
                  (Business.county_body X "Delaware" api_key) w))
  = exports w
  /\ match fst (for_each_with (map county_row names) s
                  (Business.county_body X "Delaware" api_key) w) with
     | Ret (_, s') =>
         exists frames keys,
           fst s' = fst s ++ frames /\ collected frames keys
           /\ subseq keys (list_prod (map PStr names) (map PStr metric_tags))
     | Raise _ => True
     end.
Proof.
  induction names as [|name names IH]; intros s w.
  - cbn. split; [reflexivity|]. exists [], []. rewrite app_nil_r.
    repeat split; constructor.
  - cbn [map for_each_with]. rewrite bind_run.
    destruct (county_body_spec X api_key name s w) as [Hx1 H1].
    destruct (Business.county_body X "Delaware" api_key (county_row name) s w)
      as [[[flow s1] | e] w1]; cbn [fst snd] in *; [|auto].
    destruct H1 as (f1 & k1 & Hs1 & Hc1 & Hq1).
    destruct flow as [|[]].
    + destruct (IH s1 w1) as [Hx2 H2].
      destruct (for_each_with (map county_row names) s1 _ w1)
        as [[[flow2 s2] | e2] w2]; cbn [fst snd] in *;
        [|split; [congruence | exact I]].
      split; [congruence|].
      destruct H2 as (f2 & k2 & Hs2 & Hc2 & Hq2).
      exists (f1 ++ f2), (k1 ++ k2). split; [|split].
      * now rewrite Hs2, Hs1, app_assoc.
      * now apply collected_app.
      * cbn [list_prod]. rewrite map_map. now apply subseq_app.
    + cbn [ret fst snd]. split; [exact Hx1|].
      exists f1, k1. split; [exact Hs1|]. split; [exact Hc1|].
      cbn [list_prod]. rewrite map_map.
      rewrite <- (app_nil_r k1). apply subseq_app; [exact Hq1|].
      apply subseq_nil_l.
Qed.

(** The export step writes nothing, or the concatenation of the collected
    frames, which then has a row. *)
Lemma export_state_spec X state folder frames w :
  exports (snd (Business.export_state X state folder frames w)) = exports w
  \/ exists tbl file,
      pd_concat frames = Ret tbl /\ frame_empty tbl = false
      /\ exports (snd (Business.export_state X state folder frames w))
         = exports w ++ [mkExport file "BEA Data" tbl].
Proof.
  unfold Business.export_state. rewrite bind_run.
  destruct frames as [|f rest].
  - left. reflexivity.
  - unfold lift. destruct (pd_concat (f :: rest)) as [tbl | e] eqn:Hc.
    + destruct (frame_empty tbl) eqn:He; cbn [negb].
      * left. reflexivity.
      * right.
        exists tbl, (os_path_join folder (state ++ "_bea_data_2021.xlsx")%string).
        split; [reflexivity|]. split; [exact He|].
        rewrite bind_run. unfold to_excel.
        destruct (to_excel_error X _ tbl); reflexivity.
    + left. reflexivity.
Qed.

Lemma bea_combinations_NoDup : NoDup bea_combinations.
Proof.
  unfold bea_combinations. cbn.
  repeat (constructor; [cbn; intuition congruence|]). constructor.
Qed.

Lemma map_fst_combine {A B} (a : list A) (b : list B) :
  List.length a = List.length b -> map fst (combine a b) = a.
Proof.
  revert b. induction a as [|x a IH]; intros [|y b] H; try discriminate;
    [reflexivity|].
  simpl. f_equal. apply IH. now injection H.
Qed.

(** What the BEA script exports in one run: nothing, or one table made of
    blocks in region order crossed with metric order. *)
Lemma business_export_blocks X state folder api_key w :
  exports (snd (Business.process_state X state folder api_key w)) = exports w
  \/ exists ex blocks,
      exports (snd (Business.process_state X state folder api_key w))
      = exports w ++ [ex]
      /\ subseq (map fst blocks) bea_combinations
      /\ row_tags (table ex) = block_rows blocks
      /\ nrows (table ex) = List.length (block_rows blocks).
Proof.
  unfold Business.process_state.
  destruct (String.eqb state "Delaware") eqn:Hs; [|left; reflexivity].
  apply String.eqb_eq in Hs. subst state.
  rewrite business_resolver_delaware, bind_ret, delaware_rows.
  change [county_row "New Castle"; county_row "Kent"; county_row "Sussex"]
    with (map county_row county_names).
  rewrite bind_run.
  destruct (county_loop_spec X api_key county_names ([], None) w) as [Hx H].
  unfold Business.Locals in *.
  destruct (for_each_with (map county_row county_names) ([], None) _ w)
    as [[[flow s'] | e] w1]; cbn [fst snd] in *; [|left; exact Hx].
  destruct flow as [|[]]; [|left; exact Hx].
  destruct H as (frames & keys & Hf & Hc & Hq). cbn [app] in Hf. rewrite Hf.
  destruct (export_state_spec X "Delaware" folder frames w1)
    as [He | (tbl & file & Hcat & _ & He)]; [left; congruence|].
  right. rewrite He, Hx.
  exists (mkExport file "BEA Data" tbl), (combine keys (map nrows frames)).
  destruct (collected_rows frames keys Hc) as (Hrows & Hlen & Hk).
  split; [reflexivity|]. split; [|split].
  - rewrite map_fst_combine by now rewrite length_map. exact Hq.
  - unfold row_tags. cbn [table].
    rewrite !(pd_concat_cells _ frames tbl Hcat); [exact Hrows | |];
      intros g Hg; now apply (collected_has_label frames keys g Hc).
  - cbn [table]. rewrite (pd_concat_nrows frames tbl Hcat). exact Hlen.
Qed.

(** The nine-row run: every combination once, in order. *)
Lemma business_nine_rows :
  exists ex,
    exports (snd (Business.process_state one_record_each "Delaware" "out"
                    key0 World0)) = [ex]
    /\ filename ex = "out/Delaware_bea_data_2021.xlsx"
    /\ nrows (table ex) = 9%nat
    /\ row_tags (table ex) = bea_combinations.
Proof. eexists. by_running. Qed.

(** ** Data frames: columns under a label *)

Lemma columns_of_set_other s s' df c :
  String.eqb s' s = false ->
  columns_of (PStr s) (frame_set_cells df (PStr s') c) = columns_of (PStr s) df.
Proof.
  intro Hne. unfold frame_set_cells, columns_of.
  destruct (has_label (PStr s') df); cbn [cols].
  - now rewrite columns_of_replace_other.
  - rewrite filter_app. cbn [filter fst py_key_eqb].
    rewrite String.eqb_sym, Hne. now rewrite app_nil_r.
Qed.

Lemma columns_of_set_same s df c :
  (List.length (columns_of (PStr s) df) <= 1)%nat ->
  columns_of (PStr s) (frame_set_cells df (PStr s) c) = [c].
Proof.
  intro Hle. unfold frame_set_cells.
  destruct (has_label (PStr s) df) eqn:E.
  - unfold columns_of in *. cbn [cols]. rewrite columns_of_replace_same.
    apply has_label_columns in E. unfold columns_of in E.
    rewrite length_map in Hle.
    destruct (filter _ (cols df)) as [|x [|y l]]; [now elim E | reflexivity|].
    simpl in Hle. lia.
  - unfold columns_of. cbn [cols].
    rewrite filter_app, has_label_filter by exact E.
    cbn [filter fst]. now rewrite py_key_eqb_str_refl.
Qed.

(** Renaming [old] to [new] in a frame without a [new] column moves the
    columns of [old] under [new] and leaves every other label alone. *)
Lemma columns_of_rename_new s s' df :
  has_label (PStr s') df = false ->
  columns_of (PStr s') (frame_rename df (PStr s) (PStr s'))
  = columns_of (PStr s) df.
Proof.
  unfold has_label, labels, columns_of, frame_rename. cbn [cols].
  induction (cols df) as [|[k x] cs IH]; [reflexivity|].
  cbn [map existsb fst filter]. intro H. apply orb_false_elim in H.
  destruct H as [Hk Hr].
  destruct (py_key_eqb (PStr s) k) eqn:E; cbn [fst filter snd].
  - rewrite py_key_eqb_str_refl. cbn [map snd]. f_equal. now apply IH.
  - rewrite Hk. now apply IH.
Qed.

Lemma columns_of_rename_other s0 s s' df :
  String.eqb s0 s = false -> String.eqb s0 s' = false ->
  columns_of (PStr s0) (frame_rename df (PStr s) (PStr s'))
  = columns_of (PStr s0) df.
Proof.
  intros H1 H2. unfold columns_of, frame_rename. cbn [cols].
  induction (cols df) as [|[k x] cs IH]; [reflexivity|].
  cbn [map fst filter].
  destruct (py_key_eqb (PStr s) k) eqn:E; cbn [fst filter snd].
  - rewrite py_key_eqb_str in E. apply str_key_eqb_true in E. subst k.
    cbn [py_key_eqb]. rewrite H1, H2. exact IH.
  - destruct (py_key_eqb (PStr s0) k); cbn [map snd]; now rewrite IH.
Qed.

(** In a frame with distinct labels, a label has at most one column. *)
Lemma columns_of_distinct s df :
  has_dup (labels df) = false -> (List.length (columns_of (PStr s) df) <= 1)%nat.
Proof.
  unfold labels, columns_of.
  induction (cols df) as [|[k x] cs IH]; [simpl; lia|].
  cbn [map fst has_dup filter]. intro H. apply orb_false_elim in H.
  destruct H as [Hk Hr].
  destruct (py_key_eqb (PStr s) k) eqn:E; [|now apply IH].
  rewrite py_key_eqb_str in E. apply str_key_eqb_true in E. subst k.
  assert (Hnil : filter (fun c => py_key_eqb (PStr s) (fst c)) cs = []).
  { clear IH Hr. induction cs as [|[k y] cs IH]; [reflexivity|].
    cbn [map fst existsb filter] in *. apply orb_false_elim in Hk.
    destruct Hk as [H1 H2]. rewrite H1. now apply IH. }
  rewrite Hnil. simpl. lia.
Qed.

Lemma frame_cells_columns l df c : columns_of l df = [c] -> frame_cells l df = c.
Proof. unfold frame_cells. now intros ->. Qed.

Lemma frame_getitem_one l df c :
  columns_of l df = [c] -> frame_getitem df l = Ret (Series c).
Proof. unfold frame_getitem. now intros ->. Qed.

Lemma has_label_of_columns l df c : columns_of l df = [c] -> has_label l df = true.
Proof.
  unfold columns_of, has_label, labels.
  induction (cols df) as [|[k x] cs IH]; [discriminate|].
  cbn [map fst filter existsb]. destruct (py_key_eqb l k); [reflexivity|].
  exact IH.
Qed.

Lemma columns_of_has_label l df :
  has_label l df = true -> (List.length (columns_of l df) <= 1)%nat ->
  columns_of l df = [frame_cells l df].
Proof.
  intros Hl Hle. apply has_label_columns in Hl. unfold frame_cells.
  destruct (columns_of l df) as [|c [|c' cs]]; [now elim Hl | reflexivity|].
  simpl in Hle. lia.
Qed.

Lemma map_combine_repeat {A B C} (f : A -> B -> C) (l : list A) (b : B) :
  map (fun p => f (fst p) (snd p)) (combine l (repeat b (List.length l)))
  = map (fun a => f a b) l.
Proof. induction l as [|a l IH]; simpl; congruence. Qed.

(** ** Claims on the census transformer *)

Lemma nrows_rename df a b : nrows (frame_rename df a b) = nrows df.
Proof. reflexivity. Qed.

Lemma frame_set_series_fits df l cells :
  List.length cells = nrows df ->
  frame_set_series df l cells = Ret (frame_set_cells df l cells).
Proof. intro H. unfold frame_set_series. now rewrite H, Nat.eqb_refl. Qed.

Lemma transform_census_data_run X df w :
  has_dup (labels df) = false ->
  has_label Education.B01001_001E df = true ->
  has_label Education.Total_Population df = false ->
  List.length (frame_cells Education.B01001_001E df) = nrows df ->
  forallb is_scalar (frame_cells Education.B01001_001E df) = true ->
  Education.transform_census_data X (Some df) w
  = (Ret (Some (census_transformed X df)), w).
Proof.
  intros Hdup HB HTP Hlen Hsc.
  unfold Education.transform_census_data, census_transformed.
  unfold Education.B01001_001E, Education.Total_Population, Education.Area,
    Education.Population_Density in *.
  set (col := frame_cells (PStr "B01001_001E") df) in *.
  set (numeric := map (to_numeric_cell X col) col).
  set (df1 := frame_rename df (PStr "B01001_001E") (PStr "Total Population")).
  assert (Hn : List.length numeric = nrows df)
    by (unfold numeric; now rewrite length_map).
  assert (H1 : columns_of (PStr "Total Population") df1 = [col]).
  { unfold df1. rewrite columns_of_rename_new by exact HTP.
    apply columns_of_has_label; [exact HB | now apply columns_of_distinct]. }
  set (df2 := frame_set_cells df1 (PStr "Total Population") numeric).
  assert (H2 : columns_of (PStr "Total Population") df2 = [numeric]).
  { unfold df2. apply columns_of_set_same. rewrite H1. simpl. lia. }
  set (area := repeat (PInt 100) (nrows df)).
  set (df3 := frame_set_cells df2 (PStr "Area (sq mi)") area).
  assert (H3 : columns_of (PStr "Area (sq mi)") df3 = [area]).
  { unfold df3. apply columns_of_set_same. unfold df2.
    rewrite columns_of_set_other by reflexivity. unfold df1.
    rewrite columns_of_rename_other by reflexivity.
    now apply columns_of_distinct. }
  assert (H4 : columns_of (PStr "Total Population") df3 = [numeric]).
  { unfold df3. now rewrite columns_of_set_other by reflexivity. }
  rewrite HB. fold df1.
  rewrite (frame_getitem_one _ _ _ H1), bind_lift_Ret.
  unfold pd_to_numeric. rewrite Hsc. fold numeric. rewrite bind_lift_Ret.
  rewrite frame_set_series_fits by (unfold df1; now rewrite nrows_rename).
  rewrite bind_lift_Ret. fold df2.
  unfold frame_set_scalar.
  replace (nrows df2) with (nrows df)
    by (unfold df2, df1; now rewrite nrows_set_cells, nrows_rename).
  fold area. fold df3.
  rewrite (has_label_of_columns _ _ _ H3), (has_label_of_columns _ _ _ H4).
  cbn [andb].
  rewrite (frame_getitem_one _ _ _ H4), bind_lift_Ret.
  rewrite (frame_getitem_one _ _ _ H3), bind_lift_Ret.
  unfold series_truediv. rewrite bind_lift_Ret.
  unfold area. rewrite <- Hn. rewrite map_combine_repeat.
  rewrite frame_set_series_fits.
  - rewrite bind_lift_Ret. reflexivity.
  - rewrite length_map. unfold df3, df2, df1.
    rewrite !nrows_set_cells, nrows_rename. exact Hn.
Qed.

Lemma columns_of_set_all s df c :
  Forall (eq c) (columns_of (PStr s) (frame_set_cells df (PStr s) c)).
Proof.
  unfold frame_set_cells. destruct (has_label (PStr s) df) eqn:E.
  - unfold columns_of. cbn [cols]. rewrite columns_of_replace_same.
    apply Forall_forall. intros x Hx. apply in_map_iff in Hx.
    now destruct Hx as (_ & <- & _).
  - unfold columns_of. cbn [cols].
    rewrite filter_app, has_label_filter by exact E.
    cbn [filter fst]. rewrite py_key_eqb_str_refl. cbn [app map snd].
    constructor; [reflexivity | constructor].
Qed.

Lemma frame_getitem_series l df c :
  frame_getitem df l = Ret (Series c) -> columns_of l df = [c].
Proof.
  unfold frame_getitem. destruct (columns_of l df) as [|x [|y cs]];
    try discriminate.
  intro H. now injection H as ->.
Qed.

(** What [transform_census_data] returns for a table with a 'B01001_001E'
    column, when it returns. *)
Lemma transform_census_data_rows X df w :
  has_label Education.B01001_001E df = true ->
  match Education.transform_census_data X (Some df) w with
  | (Ret (Some out), _) =>
      nrows out = nrows df
      /\ Forall (eq (repeat (PInt 100) (nrows out)))
                (columns_of Education.Area out)
      /\ frame_cells Education.Area out = repeat (PInt 100) (nrows out)
      /\ ((List.length (columns_of Education.Area df) <= 1)%nat ->
          frame_cells Education.Population_Density out
          = map (fun population => truediv X population (PInt 100))
                (frame_cells Education.Total_Population out))
  | (Ret None, _) => False
  | (Raise _, _) => True
  end.
Proof.
  intro HB.
  unfold Education.transform_census_data, Education.B01001_001E,
    Education.Total_Population, Education.Area, Education.Population_Density
    in *.
  rewrite HB.
  set (df1 := frame_rename df (PStr "B01001_001E") (PStr "Total Population")).
  unfold lift. rewrite bind_run.
  destruct (frame_getitem df1 (PStr "Total Population")) as [sel | e] eqn:Hsel;
    [|exact I].
  rewrite bind_run.
  destruct (pd_to_numeric X sel) as [numeric | e] eqn:Hnum; [|exact I].
  destruct sel as [c | cs]; [|discriminate Hnum].
  apply frame_getitem_series in Hsel.
  rewrite bind_run. unfold frame_set_series.
  destruct (Nat.eqb (List.length numeric) (nrows df1)) eqn:Hlen; [|exact I].
  apply Nat.eqb_eq in Hlen.
  set (df2 := frame_set_cells df1 (PStr "Total Population") numeric).
  assert (H2 : columns_of (PStr "Total Population") df2 = [numeric]).
  { unfold df2. apply columns_of_set_same. rewrite Hsel. simpl. lia. }
  unfold frame_set_scalar.
  set (area := repeat (PInt 100) (nrows df2)).
  set (df3 := frame_set_cells df2 (PStr "Area (sq mi)") area).
  assert (Hn3 : nrows df3 = nrows df)
    by (unfold df3, df2, df1; now rewrite !nrows_set_cells, nrows_rename).
  assert (H4 : columns_of (PStr "Total Population") df3 = [numeric]).
  { unfold df3. now rewrite columns_of_set_other by reflexivity. }
  replace (has_label (PStr "Area (sq mi)") df3) with true
    by (symmetry; apply has_label_set_same).
  rewrite (has_label_of_columns _ _ _ H4). cbn [andb].
  rewrite bind_run, (frame_getitem_one _ _ _ H4).
  rewrite bind_run.
  destruct (frame_getitem df3 (PStr "Area (sq mi)")) as [asel | e] eqn:Ha;
    [|exact I].
  rewrite bind_run.
  destruct (series_truediv X (Series numeric) asel) as [density | e] eqn:Hdiv;
    [|exact I].
  rewrite bind_run.
  destruct (Nat.eqb (List.length density) (nrows df3)); [|exact I].
  cbn [ret fst snd]. rewrite nrows_set_cells, Hn3.
  replace (repeat (PInt 100) (nrows df)) with area
    by (unfold area, df2, df1; now rewrite nrows_set_cells, nrows_rename).
  split; [reflexivity|]. split; [|split].
  - assert (Hk : columns_of (PStr "Area (sq mi)")
                   (frame_set_cells df3 (PStr "Population Density (per sq mi)")
                      density)
                 = columns_of (PStr "Area (sq mi)") df3)
      by now rewrite columns_of_set_other by reflexivity.
    rewrite Hk. exact (columns_of_set_all "Area (sq mi)" df2 area).
  - rewrite frame_cells_set_other by reflexivity.
    exact (frame_cells_set_same "Area (sq mi)" df2 area).
  - intro Hle.
    assert (H3 : columns_of (PStr "Area (sq mi)") df3 = [area]).
    { unfold df3. apply columns_of_set_same. unfold df2.
      rewrite columns_of_set_other by reflexivity. unfold df1.
      now rewrite columns_of_rename_other by reflexivity. }
    rewrite (frame_getitem_one _ _ _ H3) in Ha. injection Ha as <-.
    cbn [series_truediv] in Hdiv. injection Hdiv as <-.
    rewrite frame_cells_set_same.
    rewrite frame_cells_set_other by reflexivity.
    rewrite (frame_cells_columns _ _ _ H4).
    unfold area. replace (nrows df2) with (List.length numeric)
      by (rewrite Hlen; unfold df2; now rewrite nrows_set_cells).
    apply map_combine_repeat.
Qed.

(** [transform_census_data] returns a table when one column is labelled
    'B01001_001E' and holds one scalar per row, no column is labelled
    'Total Population' yet, and at most one is labelled 'Area (sq mi)'. *)
Lemma transform_census_data_returns X df w :
  has_label Education.B01001_001E df = true ->
  (List.length (columns_of Education.B01001_001E df) <= 1)%nat ->
  has_label Education.Total_Population df = false ->
  (List.length (columns_of Education.Area df) <= 1)%nat ->
  List.length (frame_cells Education.B01001_001E df) = nrows df ->
  forallb is_scalar (frame_cells Education.B01001_001E df) = true ->
  Education.transform_census_data X (Some df) w
  = (Ret (Some (census_transformed X df)), w).
Proof.
  intros HB HB1 HTP HA Hlen Hsc.
  unfold Education.transform_census_data, census_transformed.
  unfold Education.B01001_001E, Education.Total_Population, Education.Area,
    Education.Population_Density in *.
  set (col := frame_cells (PStr "B01001_001E") df) in *.
  set (numeric := map (to_numeric_cell X col) col).
  set (df1 := frame_rename df (PStr "B01001_001E") (PStr "Total Population")).
  assert (Hn : List.length numeric = nrows df)
    by (unfold numeric; now rewrite length_map).
  assert (H1 : columns_of (PStr "Total Population") df1 = [col]).
  { unfold df1. rewrite columns_of_rename_new by exact HTP.
    now apply columns_of_has_label. }
  set (df2 := frame_set_cells df1 (PStr "Total Population") numeric).
  assert (H2 : columns_of (PStr "Total Population") df2 = [numeric]).
  { unfold df2. apply columns_of_set_same. rewrite H1. simpl. lia. }
  set (area := repeat (PInt 100) (nrows df)).
  set (df3 := frame_set_cells df2 (PStr "Area (sq mi)") area).
  assert (H3 : columns_of (PStr "Area (sq mi)") df3 = [area]).
  { unfold df3. apply columns_of_set_same. unfold df2.
    rewrite columns_of_set_other by reflexivity. unfold df1.
    now rewrite columns_of_rename_other by reflexivity. }
  assert (H4 : columns_of (PStr "Total Population") df3 = [numeric]).
  { unfold df3. now rewrite columns_of_set_other by reflexivity. }
  rewrite HB. fold df1.
  rewrite (frame_getitem_one _ _ _ H1), bind_lift_Ret.
  unfold pd_to_numeric. rewrite Hsc. fold numeric. rewrite bind_lift_Ret.
  rewrite frame_set_series_fits by (unfold df1; now rewrite nrows_rename).
  rewrite bind_lift_Ret. fold df2.
  unfold frame_set_scalar.
  replace (nrows df2) with (nrows df)
    by (unfold df2, df1; now rewrite nrows_set_cells, nrows_rename).
  fold area. fold df3.
  rewrite (has_label_of_columns _ _ _ H3), (has_label_of_columns _ _ _ H4).
  cbn [andb].
  rewrite (frame_getitem_one _ _ _ H4), bind_lift_Ret.
  rewrite (frame_getitem_one _ _ _ H3), bind_lift_Ret.
  unfold series_truediv. rewrite bind_lift_Ret.
  unfold area. rewrite <- Hn. rewrite map_combine_repeat.
  rewrite frame_set_series_fits.
  - rewrite bind_lift_Ret. reflexivity.
  - rewrite length_map. unfold df3, df2, df1.
    rewrite !nrows_set_cells, nrows_rename. exact Hn.
Qed.

(** C10.  Whenever [transform_census_data] receives a table that contains
    the 'B01001_001E' column, the table it returns has the same number of
    rows, and in every row 'Area (sq mi)' is the constant 100 (in every
    column of that name) and, the table given having at most one column
    labelled 'Area (sq mi)', 'Population Density (per sq mi)' is that row's
    'Total Population' divided by 100, whatever the county.  It does return
    a table when one column is labelled 'B01001_001E' and holds one scalar
    per row and no column is labelled 'Total Population' yet; it never
    returns [None] for a table. *)
Theorem C10_constant_area_and_density :
  forall X census_df w,
    has_label Education.B01001_001E census_df = true ->
    (forall out w',
        Education.transform_census_data X (Some census_df) w
        = (Ret (Some out), w') ->
        nrows out = nrows census_df
        /\ Forall (eq (repeat (PInt 100) (nrows out)))
                  (columns_of Education.Area out)
        /\ frame_cells Education.Area out = repeat (PInt 100) (nrows out)
        /\ ((List.length (columns_of Education.Area census_df) <= 1)%nat ->
            frame_cells Education.Population_Density out
            = map (fun population => truediv X population (PInt 100))
                  (frame_cells Education.Total_Population out)))
    /\ fst (Education.transform_census_data X (Some census_df) w) <> Ret None
    /\ ((List.length (columns_of Education.B01001_001E census_df) <= 1)%nat ->
        has_label Education.Total_Population census_df = false ->
        (List.length (columns_of Education.Area census_df) <= 1)%nat ->
        List.length (frame_cells Education.B01001_001E census_df)
        = nrows census_df ->
        forallb is_scalar (frame_cells Education.B01001_001E census_df)
        = true ->
        exists out,
          Education.transform_census_data X (Some census_df) w
          = (Ret (Some out), w)).
Proof.
  intros X df w HB.
  pose proof (transform_census_data_rows X df w HB) as H.
  split; [|split].
  - intros out w' He. rewrite He in H. exact H.
  - destruct (Education.transform_census_data X (Some df) w)
      as [[[out|] | e] w1]; cbn [fst]; [discriminate | elim H | discriminate].
  - intros HB1 HTP HA Hlen Hsc. exists (census_transformed X df).
    now apply transform_census_data_returns.
Qed.

#[warnings="-inexact-float"]
Lemma C10_witness :
  exists out,
    Education.transform_census_data (scripted []) (Some two_counties) World0
    = (Ret (Some out), World0)
    /\ frame_cells Education.Area out = [PInt 100; PInt 100]
    /\ frame_cells Education.Total_Population out = [PInt 575494; PInt 186946]
    /\ frame_cells Education.Population_Density out
       = [PFloat 5754.94%float; PFloat 1869.46%float].
Proof.
  destruct (C10_constant_area_and_density (scripted []) two_counties World0
              eq_refl) as (Hrows & _ & Hret).
  destruct Hret as (out & He); try reflexivity; try (vm_compute; lia).
  destruct (Hrows out World0 He) as (Hn & _ & Ha & Hd).
  exists out. split; [exact He|].
  assert (Ht : frame_cells Education.Total_Population out
               = [PInt 575494; PInt 186946]).
  { vm_compute in He. injection He as <-. reflexivity. }
  split; [rewrite Ha, Hn; reflexivity|]. split; [exact Ht|].
  rewrite Hd, Ht; [vm_compute; reflexivity | vm_compute; lia].
Defined.

(** Where [transform_census_data] gives no output: on a table that contains
    'B01001_001E' and already has a 'Total Population' column the renaming
    gives two columns of that name, [pd.to_numeric] refuses the selection
    with [TypeError], and the exception leaves the function.  A census body
    with such a header takes [process_state] there. *)
Lemma two_population_columns_raise :
  has_label Education.B01001_001E both_columns = true
  /\ Education.transform_census_data (scripted []) (Some both_columns) World0
     = (Raise TypeError, World0)
  /\ fst (Education.process_state header_names_both "Delaware" "out" key0
            World0) = Raise TypeError.
Proof. by_running. Qed.

(** ** Where the value of a fetch call comes from *)

Lemma handler_result (l1 l2 l3 : Line) attempt mr d w v :
  fst ((print l1 ;;
        if attempt <? mr - 1 then
          print l2 ;; time_sleep d ;; ret Continue
        else print l3 ;; ret (Return PNone)) w) = Ret (Return v) ->
  v = PNone.
Proof.
  unfold bind, print, time_sleep, ret.
  destruct (attempt <? mr - 1); cbn [fst snd sleeps].
  - destruct (d <? 0); cbn [fst]; discriminate.
  - intro H. now injection H.
Qed.

Lemma retry_attempt_result X u ps unwrap mr d attempt w v :
  fst (retry_attempt X u ps unwrap mr d attempt w) = Ret (Return v) ->
  unwrapped unwrap v.
Proof.
  unfold retry_attempt. unfold try_except at 1. rewrite bind_run.
  unfold requests_get.
  set (w1 := mkWorld (requests w ++ [mkRequest u ps]) (sleeps w) (stdout w)
                     (exports w) (dirs w)).
  destruct (net X (List.length (requests w)) (mkRequest u ps)) as [e | t p].
  - cbn [find fst snd]. destruct (is_RequestException e).
    + intro H. left. now apply handler_result in H.
    + cbn [is_Exception]. intro H. left. cbn in H. now injection H.
  - unfold try_except at 1.
    destruct (unwrap (mkResponse t p) w1) as [[f | e] w2] eqn:Hu.
    + intro H. cbn [fst] in H. injection H as ->. right.
      exists (mkResponse t p), w1. now rewrite Hu.
    + cbn [find fst snd]. destruct (is_JSONDecodeError e).
      * match goal with
        | |- context [let (r, w') := ?m ?x in _] =>
            destruct (m x) as [[f | e'] w3] eqn:Hh
        end.
        -- intro H. cbn [fst] in H. injection H as ->. left.
           cbn [snd text] in Hh.
           exact (handler_result _ _ _ _ _ _ _ _ (f_equal fst Hh)).
        -- cbn [find fst snd]. destruct (is_RequestException e').
           ++ intro H. left. now apply handler_result in H.
           ++ cbn [is_Exception]. intro H. left. cbn in H. now injection H.
      * cbn [find fst snd]. destruct (is_RequestException e).
        -- intro H. left. now apply handler_result in H.
        -- cbn [is_Exception]. intro H. left. cbn in H. now injection H.
Qed.

Lemma retry_loop_result X u ps unwrap mr d items : forall w v,
  fst (for_each items (retry_attempt X u ps unwrap mr d) w) = Ret (Return v) ->
  unwrapped unwrap v.
Proof.
  induction items as [|a items IH]; intros w v; [discriminate|].
  cbn [for_each]. rewrite bind_run.
  destruct (retry_attempt X u ps unwrap mr d a w) as [[[|v'] | e] w1] eqn:Ha.
  - apply IH.
  - intro H. cbn in H. injection H as ->.
    apply (retry_attempt_result X u ps unwrap mr d a w). now rewrite Ha.
  - discriminate.
Qed.

Lemma retry_call_result X u ps unwrap mr d w v :
  fst (retry_call X u ps unwrap mr d w) = Ret v -> unwrapped unwrap v.
Proof.
  unfold retry_call. rewrite bind_run.
  destruct (for_each (py_range mr) (retry_attempt X u ps unwrap mr d) w)
    as [[[|v'] | e] w1] eqn:Hl.
  - intro H. cbn in H. injection H as <-. now left.
  - intro H. cbn in H. injection H as ->.
    apply (retry_loop_result X u ps unwrap mr d (py_range mr) w).
    now rewrite Hl.
  - discriminate.
Qed.

Lemma py_dict_zip_dict columns values d :
  py_dict_zip columns values = Ret d -> is_dict d = true.
Proof.
  unfold py_dict_zip. destruct (py_iter columns); [|discriminate].
  destruct (py_iter values); [|discriminate].
  destruct (dict_of_pairs _ []); [|discriminate].
  intro H. now injection H as <-.
Qed.

Lemma census_unwrap_result sf cf y r w0 v :
  fst (Education.census_unwrap sf cf y r w0) = Ret (Return v) ->
  v = PNone \/ is_dict v = true.
Proof.
  unfold Education.census_unwrap, response_json.
  destruct (parsed r) as [data|]; [|discriminate].
  rewrite bind_ret. unfold lift. rewrite !bind_run.
  destruct (py_len data) as [n|]; [|discriminate].
  destruct (1 <? n).
  - rewrite bind_run. destruct (py_index data 0) as [columns|]; [|discriminate].
    rewrite bind_run. destruct (py_index data 1) as [values|]; [|discriminate].
    rewrite bind_run.
    destruct (py_dict_zip columns values) as [d|] eqn:Hz; [|discriminate].
    intro H. cbn in H. injection H as <-. right.
    now apply py_dict_zip_dict in Hz.
  - intro H. cbn in H. injection H as <-. now left.
Qed.

(** [get_census_data_by_county] returns [None] or a dict, and exports
    nothing. *)
Lemma get_census_data_spec X api_key sf county year mr d w :
  exports (snd (Education.get_census_data_by_county X api_key sf county year
                  mr d w)) = exports w
  /\ forall v,
      fst (Education.get_census_data_by_county X api_key sf county year
             mr d w) = Ret v ->
      v = PNone \/ is_dict v = true.
Proof.
  unfold Education.get_census_data_by_county.
  destruct (py_hashable county); [|split; [reflexivity | discriminate]].
  destruct (dict_get county Education.fips_codes) as [cf|].
  - change (f <- for_each (py_range mr)
                   (Education.census_attempt X
                      (Education.census_url api_key sf cf year) sf cf year mr d) ;;
            match f with
            | Return v => ret v
            | Continue => ret PNone
            end)
      with (retry_call X (Education.census_url api_key sf cf year) []
              (Education.census_unwrap sf cf year) mr d).
    split.
    + destruct (retry_call_at_most X (Education.census_url api_key sf cf year)
                  [] (Education.census_unwrap sf cf year) mr d
                  (census_unwrap_quiet sf cf year) w)
        as (n & naps & _ & _ & _ & He & _).
      exact He.
    + intros v Hv. apply retry_call_result in Hv.
      destruct Hv as [-> | (r & w0 & Hr)]; [now left|].
      now apply census_unwrap_result in Hr.
  - split; [reflexivity|]. intros v Hv. cbn in Hv. injection Hv as <-.
    now left.
Qed.

(** ** Claims on the aggregation of the census script *)

Lemma truthy_dict v :
  py_truthy v = true -> v = PNone \/ is_dict v = true ->
  exists items, v = PDict items.
Proof.
  intros Ht [-> | Hd]; [discriminate|].
  destruct v; try discriminate. eauto.
Qed.

(** One pass of the county loop of the census script appends nothing, or
    one row for the county; it exports nothing. *)
Lemma census_county_body_spec X sf api_key name acc w :
  exports (snd (Education.county_body X sf api_key (county_row name) acc w))
  = exports w
  /\ match fst (Education.county_body X sf api_key (county_row name) acc w) with
     | Ret (_, acc') =>
         acc' = acc \/ exists df, acc' = acc ++ [df] /\ county_frame df name
     | Raise _ => True
     end.
Proof.
  unfold Education.county_body. rewrite county_row_name, bind_lift_Ret.
  destruct (py_truthy api_key); [|split; [reflexivity | now left]].
  rewrite bind_run.
  destruct (get_census_data_spec X api_key sf (PStr name) (PInt 2022) 3 5 w)
    as [Hx Hv].
  destruct (Education.get_census_data_by_county X api_key sf (PStr name)
              (PInt 2022) 3 5 w) as [[census_data | e] w1];
    cbn [fst snd] in *; [|auto].
  destruct (py_truthy census_data) eqn:Ht;
    [|split; [exact Hx | now left]].
  destruct (truthy_dict census_data Ht (Hv census_data eq_refl))
    as (items & ->).
  split; [exact Hx|]. cbn [fst]. right. eexists. split; [reflexivity|].
  unfold county_frame, frame_set_scalar.
  rewrite !nrows_set_cells. repeat split.
  - do 4 apply has_label_set_other. apply has_label_set_same.
  - rewrite !frame_cells_set_other by reflexivity.
    now rewrite frame_cells_set_same.
Qed.

Lemma census_county_loop_spec X sf api_key names : forall acc w,
  exports (snd (for_each_with (map county_row names) acc
                  (Education.county_body X sf api_key) w)) = exports w
  /\ match fst (for_each_with (map county_row names) acc
                  (Education.county_body X sf api_key) w) with
     | Ret (_, acc') =>
         exists frames found,
           acc' = acc ++ frames /\ Forall2 county_frame frames found
           /\ subseq found names
     | Raise _ => True
     end.
Proof.
  induction names as [|name names IH]; intros acc w.
  - cbn. split; [reflexivity|]. exists [], []. rewrite app_nil_r.
    repeat split; constructor.
  - cbn [map for_each_with]. rewrite bind_run.
    destruct (census_county_body_spec X sf api_key name acc w) as [Hx1 H1].
    destruct (Education.county_body X sf api_key (county_row name) acc w)
      as [[[flow acc1] | e] w1]; cbn [fst snd] in *; [|auto].
    assert (H1' : exists frames found,
               acc1 = acc ++ frames /\ Forall2 county_frame frames found
               /\ subseq found [name]).
    { destruct H1 as [-> | (df & -> & Hdf)].
      - exists [], []. rewrite app_nil_r. repeat split; [constructor|].
        apply subseq_nil_l.
      - exists [df], [name]. repeat split; [|apply subseq_refl].
        constructor; [exact Hdf | constructor]. }
    destruct H1' as (f1 & n1 & -> & Hc1 & Hq1).
    destruct flow as [|[]].
    + destruct (IH (acc ++ f1) w1) as [Hx2 H2].
      destruct (for_each_with (map county_row names) (acc ++ f1) _ w1)
        as [[[flow2 acc2] | e2] w2]; cbn [fst snd] in *;
        [|split; [congruence | exact I]].
      split; [congruence|].
      destruct H2 as (f2 & n2 & -> & Hc2 & Hq2).
      exists (f1 ++ f2), (n1 ++ n2). split; [|split].
      * now rewrite app_assoc.
      * now apply Forall2_app.
      * now apply (subseq_app n1 [name] n2 names).
    + cbn [ret fst snd]. split; [exact Hx1|].
      exists f1, n1. split; [reflexivity|]. split; [exact Hc1|].
      rewrite <- (app_nil_r n1).
      apply (subseq_app n1 [name] [] names); [exact Hq1 | apply subseq_nil_l].
Qed.

Lemma county_frames_cells frames found :
  Forall2 county_frame frames found ->
  flat_map (frame_cells (PStr "County")) frames = map PStr found
  /\ total_rows frames = List.length found
  /\ forall g, In g frames -> has_label (PStr "County") g = true.
Proof.
  induction 1 as [|df name frames found (Hl & Hc & Hn) _ (IH1 & IH2 & IH3)].
  - repeat split. intros g [].
  - cbn [flat_map map total_rows fold_right List.length].
    rewrite Hc, Hn, IH1. repeat split.
    + simpl. f_equal. exact IH2.
    + intros g [<- | Hg]; auto.
Qed.

Lemma frame_cells_rename_other s0 s s' df :
  String.eqb s0 s = false -> String.eqb s0 s' = false ->
  frame_cells (PStr s0) (frame_rename df (PStr s) (PStr s'))
  = frame_cells (PStr s0) df.
Proof.
  intros H1 H2. unfold frame_cells. now rewrite columns_of_rename_other.
Qed.

(** [transform_census_data] touches four labels only: under any other
    label the cells are those of its input, row for row; and it exports
    nothing. *)
Lemma transform_census_data_keeps X df w s :
  String.eqb s "B01001_001E" = false ->
  String.eqb s "Total Population" = false ->
  String.eqb s "Area (sq mi)" = false ->
  String.eqb s "Population Density (per sq mi)" = false ->
  exports (snd (Education.transform_census_data X (Some df) w)) = exports w
  /\ match fst (Education.transform_census_data X (Some df) w) with
     | Ret (Some out) =>
         frame_cells (PStr s) out = frame_cells (PStr s) df
         /\ nrows out = nrows df
     | Ret None => False
     | Raise _ => True
     end.
Proof.
  intros HB HT HA HD.
  assert (HT' : String.eqb "Total Population" s = false)
    by now rewrite String.eqb_sym.
  assert (HA' : String.eqb "Area (sq mi)" s = false)
    by now rewrite String.eqb_sym.
  assert (HD' : String.eqb "Population Density (per sq mi)" s = false)
    by now rewrite String.eqb_sym.
  unfold Education.transform_census_data, Education.B01001_001E,
    Education.Total_Population, Education.Area, Education.Population_Density.
  destruct (has_label (PStr "B01001_001E") df);
    [|split; [reflexivity | split; reflexivity]].
  set (df1 := frame_rename df (PStr "B01001_001E") (PStr "Total Population")).
  assert (K1 : frame_cells (PStr s) df1 = frame_cells (PStr s) df
               /\ nrows df1 = nrows df).
  { split; [now apply frame_cells_rename_other | reflexivity]. }
  unfold lift. rewrite bind_run.
  destruct (frame_getitem df1 (PStr "Total Population")) as [sel | e];
    [|split; [reflexivity | exact I]].
  rewrite bind_run.
  destruct (pd_to_numeric X sel) as [numeric | e];
    [|split; [reflexivity | exact I]].
  rewrite bind_run. unfold frame_set_series.
  destruct (Nat.eqb (List.length numeric) (nrows df1));
    [|split; [reflexivity | exact I]].
  set (df2 := frame_set_cells df1 (PStr "Total Population") numeric).
  assert (K2 : frame_cells (PStr s) df2 = frame_cells (PStr s) df
               /\ nrows df2 = nrows df).
  { unfold df2. rewrite frame_cells_set_other, nrows_set_cells by exact HT'.
    exact K1. }
  set (df3 := frame_set_scalar df2 (PStr "Area (sq mi)") (PInt 100)).
  assert (K3 : frame_cells (PStr s) df3 = frame_cells (PStr s) df
               /\ nrows df3 = nrows df).
  { unfold df3, frame_set_scalar.
    rewrite frame_cells_set_other, nrows_set_cells by exact HA'. exact K2. }
  destruct (has_label (PStr "Area (sq mi)") df3
            && has_label (PStr "Total Population") df3);
    [|split; [reflexivity | exact K3]].
  rewrite bind_run.
  destruct (frame_getitem df3 (PStr "Total Population")) as [population | e];
    [|split; [reflexivity | exact I]].
  rewrite bind_run.
  destruct (frame_getitem df3 (PStr "Area (sq mi)")) as [area | e];
    [|split; [reflexivity | exact I]].
  rewrite bind_run.
  destruct (series_truediv X population area) as [density | e];
    [|split; [reflexivity | exact I]].
  rewrite bind_run.
  destruct (Nat.eqb (List.length density) (nrows df3));
    [|split; [reflexivity | exact I]].
  cbn [ret fst snd]. split; [reflexivity|].
  rewrite frame_cells_set_other, nrows_set_cells by exact HD'. exact K3.
Qed.

(** The export step of the census script writes nothing, or a table whose
    County cells are those of the collected frames, in order. *)
Lemma census_export_state_spec X state folder frames w :
  exports (snd (Education.export_state X state folder frames w)) = exports w
  \/ exists ex tbl,
      pd_concat frames = Ret tbl
      /\ frame_cells (PStr "County") (table ex) = frame_cells (PStr "County") tbl
      /\ nrows (table ex) = nrows tbl
      /\ exports (snd (Education.export_state X state folder frames w))
         = exports w ++ [ex].
Proof.
  destruct (pd_concat frames) as [tbl | e] eqn:Hc;
    [|left; unfold Education.export_state; rewrite Hc; reflexivity].
  destruct (transform_census_data_keeps X tbl w "County"
              eq_refl eq_refl eq_refl eq_refl) as [Hx Hk].
  destruct (Education.transform_census_data X (Some tbl) w)
    as [[[out|] | e] w1] eqn:Ht; cbn [fst snd] in Hx, Hk; [|contradiction|].
  - destruct (frame_empty out) eqn:He.
    + left. unfold Education.export_state.
      rewrite Hc, bind_lift_Ret, bind_run, Ht, He. exact Hx.
    + right.
      exists (mkExport
                (os_path_join folder (state ++ "_census_data_2022.xlsx")%string)
                "Census Data" out), tbl.
      split; [reflexivity|]. cbn [table]. destruct Hk as [Hk1 Hk2].
      split; [exact Hk1|]. split; [exact Hk2|].
      unfold Education.export_state.
      rewrite Hc, bind_lift_Ret, bind_run, Ht, He. cbn [negb].
      rewrite bind_run. unfold to_excel.
      destruct (to_excel_error X
                  (os_path_join folder (state ++ "_census_data_2022.xlsx")%string)
                  out);
        cbn [snd print exports]; now rewrite Hx.
  - left. unfold Education.export_state.
    rewrite Hc, bind_lift_Ret, bind_run, Ht. exact Hx.
Qed.

Lemma county_names_NoDup : NoDup county_names.
Proof.
  unfold county_names.
  repeat (constructor; [cbn; intuition congruence|]). constructor.
Qed.

(** What the census script exports in one run: nothing, or one table with
    one row for each county for which data came, in region order. *)
Lemma census_export_rows X state folder api_key w :
  exports (snd (Education.process_state X state folder api_key w)) = exports w
  \/ exists ex found,
      exports (snd (Education.process_state X state folder api_key w))
      = exports w ++ [ex]
      /\ subseq found county_names
      /\ frame_cells (PStr "County") (table ex) = map PStr found
      /\ nrows (table ex) = List.length found.
Proof.
  unfold Education.process_state. rewrite bind_run. unfold os_makedirs.
  destruct (makedirs_error X folder); [left; reflexivity|].
  set (w0 := mkWorld (requests w) (sleeps w) (stdout w) (exports w)
                     (dirs w ++ [folder])).
  change (exports w) with (exports w0).
  destruct (String.eqb state "Delaware") eqn:Hs; [|left; reflexivity].
  apply String.eqb_eq in Hs. subst state.
  rewrite education_resolver_delaware, bind_ret, delaware_rows.
  change [county_row "New Castle"; county_row "Kent"; county_row "Sussex"]
    with (map county_row county_names).
  rewrite bind_run.
  destruct (census_county_loop_spec X (PStr "10") api_key county_names [] w0)
    as [Hx H].
  destruct (for_each_with (map county_row county_names) [] _ w0)
    as [[[flow acc] | e] w1]; cbn [fst snd] in *; [|left; exact Hx].
  destruct flow as [|[]]; [|left; exact Hx].
  destruct H as (frames & found & -> & Hc & Hq). cbn [app].
  destruct (census_export_state_spec X "Delaware" folder frames w1)
    as [He | (ex & tbl & Hcat & Hcells & Hrows & He)]; [left; congruence|].
  right. rewrite He, Hx. exists ex, found.
  destruct (county_frames_cells frames found Hc) as (Hf & Hn & Hl).
  split; [reflexivity|]. split; [exact Hq|]. split.
  - rewrite Hcells, (pd_concat_cells _ frames tbl Hcat Hl). exact Hf.
  - rewrite Hrows, (pd_concat_nrows frames tbl Hcat). exact Hn.
Qed.

(** ** The fetches behind the rows *)

Lemma fetches_app {K} (call : K -> M pyval) ks1 ks2 w w1 w2 ps1 ps2 :
  fetches call ks1 w ps1 w1 -> fetches call ks2 w1 ps2 w2 ->
  fetches call (ks1 ++ ks2) w (ps1 ++ ps2) w2.
Proof.
  induction 1 as [|k keys w payload wa wb payloads w' Hc Hx _ IH]; intro H2;
    [exact H2|].
  cbn [app]. exact (fetches_cons call k _ w payload wa wb _ w2 Hc Hx (IH H2)).
Qed.

Lemma fetches_length {K} (call : K -> M pyval) ks w ps w' :
  fetches call ks w ps w' -> List.length ps = List.length ks.
Proof. induction 1; cbn [List.length]; congruence. Qed.

Lemma payload_blocks_app X k1 k2 p1 p2 :
  List.length k1 = List.length p1 ->
  payload_blocks X (k1 ++ k2) (p1 ++ p2)
  = payload_blocks X k1 p1 ++ payload_blocks X k2 p2.
Proof.
  intro H. unfold payload_blocks. now rewrite combine_app_same, flat_map_app.
Qed.

Lemma payload_blocks_subseq X keys : forall payloads,
  subseq (map fst (payload_blocks X keys payloads)) keys.
Proof.
  induction keys as [|k keys IH]; intros [|p ps]; unfold payload_blocks;
    cbn [combine flat_map map fst snd].
  - constructor.
  - constructor.
  - apply subseq_nil_l.
  - destruct (py_truthy p); cbn [app map fst].
    + apply subseq_take, IH.
    + apply subseq_skip, IH.
Qed.

Lemma built_collected frames blocks :
  built frames blocks ->
  collected frames (map fst blocks) /\ map nrows frames = map snd blocks.
Proof.
  induction 1 as [|df b frames blocks (Ht & Hn) _ (IH1 & IH2)].
  - split; [constructor | reflexivity].
  - cbn [map]. split; [constructor; assumption | congruence].
Qed.

Lemma combine_fst_snd {A B} (l : list (A * B)) :
  combine (map fst l) (map snd l) = l.
Proof. induction l as [|[a b] l IH]; cbn; congruence. Qed.

Lemma transform_bea_data_rows X payload county tag df :
  Business.transform_bea_data X payload county tag = Ret (Some df) ->
  nrows df = payload_rows X payload.
Proof.
  unfold Business.transform_bea_data, payload_rows.
  destruct payload; try discriminate;
    (destruct (pd_DataFrame X _); [|discriminate]);
    intro H; injection H as <-; now rewrite !nrows_set_scalar.
Qed.

Lemma transform_bea_data_none X payload county tag :
  Business.transform_bea_data X payload county tag = Ret None ->
  payload = PNone.
Proof.
  unfold Business.transform_bea_data.
  destruct payload; try reflexivity;
    (destruct (pd_DataFrame X _); discriminate).
Qed.

(** A fetch-and-append block is one call of [get_bea_data]; when the
    payload is true the block appends the frame pandas makes of it, tagged
    with the county and the metric, and nothing otherwise. *)
Lemma collect_metric_fetch X api_key geo county lc tag miss acc w :
  match Business.collect_metric X api_key geo county lc tag miss acc w with
  | (Ret acc', w') =>
      exists payload w1 frames,
        Business.get_bea_data X api_key geo (PInt 2021) (PInt lc) 3 5 w
        = (Ret payload, w1)
        /\ extends w1 w' [] []
        /\ acc' = acc ++ frames
        /\ built frames
                 (if py_truthy payload
                  then [((county, PStr tag), payload_rows X payload)]
                  else [])
  | (Raise _, _) => True
  end.
Proof.
  unfold Business.collect_metric. rewrite bind_run.
  destruct (Business.get_bea_data X api_key geo (PInt 2021) (PInt lc) 3 5 w)
    as [[payload | e] w1]; [|exact I].
  destruct (py_truthy payload) eqn:Ht.
  - unfold lift. rewrite bind_run.
    destruct (Business.transform_bea_data X payload county (PStr tag))
      as [[df|] | e] eqn:Htr; cbn [ret]; [| |exact I].
    + exists payload, w1, [df]. split; [reflexivity|].
      split; [apply extends_refl|]. split; [reflexivity|]. rewrite Ht.
      constructor; [|constructor]. cbn [fst snd]. split.
      * exact (transform_bea_data_tagged _ _ _ _ _ Htr).
      * exact (transform_bea_data_rows _ _ _ _ _ Htr).
    + apply transform_bea_data_none in Htr. subst payload. discriminate.
  - exists payload, w1, []. split; [reflexivity|].
    split; [apply quiet_print|]. rewrite app_nil_r, Ht.
    split; [reflexivity | constructor].
Qed.

(** One pass of the county loop of the BEA script is the three fetches of
    the county, in metric order. *)
Lemma bea_county_body_fetch X api_key name geo s w :
  (forall prev,
      (if str_key_eqb "New Castle" (PStr name) then Some (PStr "10003")
       else if str_key_eqb "Kent" (PStr name) then Some (PStr "10001")
       else if str_key_eqb "Sussex" (PStr name) then Some (PStr "10005")
       else prev) = Some (PStr geo)) ->
  match Business.county_body X "Delaware" api_key (county_row name) s w with
  | (Ret (Continue, s'), w') =>
      exists payloads frames,
        fetches (bea_fetch X api_key)
                (map (pair (name, geo)) bea_line_codes) w payloads w'
        /\ fst s' = fst s ++ frames
        /\ built frames
                 (payload_blocks X
                    (map combination (map (pair (name, geo)) bea_line_codes))
                    payloads)
  | _ => True
  end.
Proof.
  intro Hgeo. unfold Business.county_body.
  rewrite county_row_name, bind_lift_Ret, String.eqb_refl.
  set (geo_fips := if str_key_eqb "New Castle" (PStr name) then _ else _).
  assert (Hg : geo_fips = Some (PStr geo)) by (subst geo_fips; apply Hgeo).
  clearbody geo_fips. subst geo_fips.
  destruct (py_truthy api_key); [|exact I].
  rewrite bind_ret, bind_run.
  pose proof (collect_metric_fetch X api_key (PStr geo) (PStr name)
                Business.BEA_LINE_CODE_GDP "GDP"
                [Lit "Skipping "; Val (PStr name);
                 Lit " due to missing BEA GDP data."] (fst s) w) as H1.
  destruct (Business.collect_metric X api_key (PStr geo) (PStr name)
              Business.BEA_LINE_CODE_GDP "GDP" _ (fst s) w)
    as [[acc1 | e1] w1]; [|exact I].
  rewrite bind_run.
  pose proof (collect_metric_fetch X api_key (PStr geo) (PStr name)
                Business.BEA_LINE_CODE_GDP_CAPITA "GDP_CAPITA"
                [Lit "Skipping "; Val (PStr name);
                 Lit " due to missing BEA GDP Capita data."] acc1 w1) as H2.
  destruct (Business.collect_metric X api_key (PStr geo) (PStr name)
              Business.BEA_LINE_CODE_GDP_CAPITA "GDP_CAPITA" _ acc1 w1)
    as [[acc2 | e2] w2]; [|exact I].
  rewrite bind_run.
  pose proof (collect_metric_fetch X api_key (PStr geo) (PStr name)
                Business.BEA_LINE_CODE_ANNUAL_GDP_GROWTH "ANNUAL_GDP_GROWTH"
                [Lit "Skipping "; Val (PStr name);
                 Lit " due to missing BEA Annual GDP Growth data."] acc2 w2)
    as H3.
  destruct (Business.collect_metric X api_key (PStr geo) (PStr name)
              Business.BEA_LINE_CODE_ANNUAL_GDP_GROWTH "ANNUAL_GDP_GROWTH"
              _ acc2 w2)
    as [[acc3 | e3] w3]; [|exact I].
  cbn [ret fst snd].
  destruct H1 as (p1 & wa & f1 & Hc1 & Hx1 & -> & Hb1).
  destruct H2 as (p2 & wb & f2 & Hc2 & Hx2 & -> & Hb2).
  destruct H3 as (p3 & wc & f3 & Hc3 & Hx3 & -> & Hb3).
  exists [p1; p2; p3], (f1 ++ f2 ++ f3). split; [|split].
  - cbn [map bea_line_codes].
    apply (fetches_cons _ _ _ w p1 wa w1); [exact Hc1 | exact Hx1 |].
    apply (fetches_cons _ _ _ w1 p2 wb w2); [exact Hc2 | exact Hx2 |].
    apply (fetches_cons _ _ _ w2 p3 wc w3); [exact Hc3 | exact Hx3 |].
    constructor.
  - now rewrite !app_assoc.
  - unfold payload_blocks.
    cbn [map bea_line_codes combination combine flat_map fst snd].
    rewrite app_nil_r.
    apply Forall2_app; [exact Hb1|]. apply Forall2_app; assumption.
Qed.

(** The county loop of the BEA script is the fetches of its counties
    crossed with the metrics, in that order. *)
Lemma bea_county_loop_fetch X api_key fips : forall s w,
  Forall (fun e => forall prev,
            (if str_key_eqb "New Castle" (PStr (fst e))
             then Some (PStr "10003")
             else if str_key_eqb "Kent" (PStr (fst e))
             then Some (PStr "10001")
             else if str_key_eqb "Sussex" (PStr (fst e))
             then Some (PStr "10005")
             else prev) = Some (PStr (snd e))) fips ->
  match for_each_with (map county_row (map fst fips)) s
          (Business.county_body X "Delaware" api_key) w with
  | (Ret (Continue, s'), w') =>
      exists payloads frames,
        fetches (bea_fetch X api_key) (list_prod fips bea_line_codes)
                w payloads w'
        /\ fst s' = fst s ++ frames
        /\ built frames
                 (payload_blocks X
                    (map combination (list_prod fips bea_line_codes))
                    payloads)
  | _ => True
  end.
Proof.
  induction fips as [|[name geo] fips IH]; intros s w Hall.
  - cbn. exists [], []. rewrite app_nil_r.
    split; [constructor|]. split; [reflexivity | constructor].
  - inversion Hall as [|? ? Hgeo Hrest]; subst. cbn [fst snd] in Hgeo.
    cbn [map fst for_each_with]. rewrite bind_run.
    pose proof (bea_county_body_fetch X api_key name geo s w Hgeo) as H1.
    destruct (Business.county_body X "Delaware" api_key (county_row name) s w)
      as [[[flow s1] | e] w1]; [|exact I].
    destruct flow as [|[]]; cbn [fst snd]; [|exact I].
    specialize (IH s1 w1 Hrest).
    destruct (for_each_with (map county_row (map fst fips)) s1 _ w1)
      as [[[flow2 s2] | e2] w2]; [|exact I].
    destruct flow2 as [|[]]; [|exact I].
    destruct H1 as (p1 & f1 & Hf1 & Hs1 & Hb1).
    destruct IH as (p2 & f2 & Hf2 & Hs2 & Hb2).
    exists (p1 ++ p2), (f1 ++ f2). cbn [list_prod]. split; [|split].
    + exact (fetches_app _ _ _ _ _ _ _ _ Hf1 Hf2).
    + now rewrite Hs2, Hs1, app_assoc.
    + rewrite map_app, payload_blocks_app.
      * now apply Forall2_app.
      * rewrite !length_map. symmetry.
        rewrite (fetches_length _ _ _ _ _ Hf1). now rewrite length_map.
Qed.

(** What the BEA script exports in one run, from its nine fetches. *)
Lemma business_export_fetched X state folder api_key w :
  exports (snd (Business.process_state X state folder api_key w)) = exports w
  \/ exists ex payloads w1,
      exports (snd (Business.process_state X state folder api_key w))
      = exports w ++ [ex]
      /\ fetches (bea_fetch X api_key) bea_plan w payloads w1
      /\ row_tags (table ex)
         = block_rows (payload_blocks X bea_combinations payloads)
      /\ nrows (table ex)
         = List.length (block_rows (payload_blocks X bea_combinations
                                      payloads)).
Proof.
  unfold Business.process_state.
  destruct (String.eqb state "Delaware") eqn:Hs; [|left; reflexivity].
  apply String.eqb_eq in Hs. subst state.
  rewrite business_resolver_delaware, bind_ret, delaware_rows.
  change [county_row "New Castle"; county_row "Kent"; county_row "Sussex"]
    with (map county_row county_names).
  rewrite bind_run.
  destruct (county_loop_spec X api_key county_names ([], None) w) as [Hx _].
  assert (Hplan : Forall (fun e => forall prev,
              (if str_key_eqb "New Castle" (PStr (fst e))
               then Some (PStr "10003")
               else if str_key_eqb "Kent" (PStr (fst e))
               then Some (PStr "10001")
               else if str_key_eqb "Sussex" (PStr (fst e))
               then Some (PStr "10005")
               else prev) = Some (PStr (snd e))) bea_fips).
  { repeat constructor. }
  pose proof (bea_county_loop_fetch X api_key bea_fips ([], None) w Hplan)
    as Hf.
  change (map fst bea_fips) with county_names in Hf.
  unfold Business.Locals in *.
  destruct (for_each_with (map county_row county_names) ([], None) _ w)
    as [[[flow s'] | e] w1]; cbn [fst snd] in *; [|left; exact Hx].
  destruct flow as [|[]]; [|left; exact Hx].
  destruct Hf as (payloads & frames & Hfetch & Hfr & Hb).
  cbn [app] in Hfr. rewrite Hfr.
  destruct (export_state_spec X "Delaware" folder frames w1)
    as [He | (tbl & file & Hcat & _ & He)]; [left; congruence|].
  right. rewrite He, Hx.
  exists (mkExport file "BEA Data" tbl), payloads, w1.
  split; [reflexivity|]. split; [exact Hfetch|].
  change (map combination (list_prod bea_fips bea_line_codes))
    with bea_combinations in Hb.
  destruct (built_collected _ _ Hb) as (Hc & Hn).
  destruct (collected_rows _ _ Hc) as (Hrows & Hlen & _).
  rewrite Hn, combine_fst_snd in Hrows, Hlen.
  split.
  - unfold row_tags. cbn [table].
    rewrite !(pd_concat_cells _ frames tbl Hcat); [exact Hrows | |];
      intros g Hg; now apply (collected_has_label frames _ g Hc).
  - cbn [table]. rewrite (pd_concat_nrows frames tbl Hcat). exact Hlen.
Qed.

Lemma answered_subseq names : forall payloads,
  subseq (answered names payloads) names.
Proof.
  induction names as [|n names IH]; intros [|p ps]; unfold answered;
    cbn [combine filter map fst snd].
  - constructor.
  - constructor.
  - apply subseq_nil_l.
  - destruct (py_truthy p); cbn [map fst].
    + apply subseq_take, IH.
    + apply subseq_skip, IH.
Qed.

Lemma answered_app n1 n2 p1 p2 :
  List.length n1 = List.length p1 ->
  answered (n1 ++ n2) (p1 ++ p2) = answered n1 p1 ++ answered n2 p2.
Proof.
  intro H. unfold answered.
  now rewrite combine_app_same, filter_app, map_app.
Qed.

(** One pass of the county loop of the census script is one fetch; when
    the payload is true the pass appends one row for the county, and
    nothing otherwise. *)
Lemma census_county_body_fetch X api_key name acc w :
  match Education.county_body X (PStr "10") api_key (county_row name) acc w
  with
  | (Ret (Continue, acc'), w') =>
      exists payload frames,
        fetches (census_fetch X api_key) [name] w [payload] w'
        /\ acc' = acc ++ frames
        /\ Forall2 county_frame frames (answered [name] [payload])
  | _ => True
  end.
Proof.
  unfold Education.county_body. rewrite county_row_name, bind_lift_Ret.
  destruct (py_truthy api_key); [|exact I].
  rewrite bind_run.
  destruct (get_census_data_spec X api_key (PStr "10") (PStr name) (PInt 2022)
              3 5 w) as [_ Hv].
  destruct (Education.get_census_data_by_county X api_key (PStr "10")
              (PStr name) (PInt 2022) 3 5 w) as [[census_data | e] w1] eqn:Hc;
    cbn [fst snd] in *; [|exact I].
  destruct (py_truthy census_data) eqn:Ht.
  - destruct (truthy_dict census_data Ht (Hv census_data eq_refl))
      as (items & ->).
    cbn [ret lift bind fst snd]. eexists (PDict items), [_].
    split; [|split; [reflexivity|]].
    + apply (fetches_cons _ _ _ w (PDict items) w1 w1);
        [exact Hc | apply extends_refl | constructor].
    + unfold answered. cbn [combine filter snd]. rewrite Ht. cbn [map fst].
      constructor; [|constructor].
      unfold county_frame, frame_set_scalar.
      rewrite !nrows_set_cells. repeat split.
      * do 4 apply has_label_set_other. apply has_label_set_same.
      * rewrite !frame_cells_set_other by reflexivity.
        now rewrite frame_cells_set_same.
  - exists census_data, []. rewrite app_nil_r.
    split; [|split; [reflexivity|]].
    + eapply (fetches_cons _ _ _ w census_data w1);
        [exact Hc | | constructor].
      unfold extends. cbn. rewrite !app_nil_r. auto.
    + unfold answered. cbn [combine filter snd]. rewrite Ht. constructor.
Qed.

Lemma census_county_loop_fetch X api_key names : forall acc w,
  match for_each_with (map county_row names) acc
          (Education.county_body X (PStr "10") api_key) w with
  | (Ret (Continue, acc'), w') =>
      exists payloads frames,
        fetches (census_fetch X api_key) names w payloads w'
        /\ acc' = acc ++ frames
        /\ Forall2 county_frame frames (answered names payloads)
  | _ => True
  end.
Proof.
  induction names as [|name names IH]; intros acc w.
  - cbn. exists [], []. rewrite app_nil_r.
    split; [constructor|]. split; [reflexivity | constructor].
  - cbn [map for_each_with]. rewrite bind_run.
    pose proof (census_county_body_fetch X api_key name acc w) as H1.
    destruct (Education.county_body X (PStr "10") api_key (county_row name)
                acc w) as [[[flow acc1] | e] w1]; [|exact I].
    destruct flow as [|[]]; cbn [fst snd]; [|exact I].
    specialize (IH acc1 w1).
    destruct (for_each_with (map county_row names) acc1 _ w1)
      as [[[flow2 acc2] | e2] w2]; [|exact I].
    destruct flow2 as [|[]]; [|exact I].
    destruct H1 as (p1 & f1 & Hf1 & -> & Hb1).
    destruct IH as (p2 & f2 & Hf2 & -> & Hb2).
    exists ([p1] ++ p2), (f1 ++ f2). split; [|split].
    + exact (fetches_app _ [name] names _ _ _ _ _ Hf1 Hf2).
    + now rewrite app_assoc.
    + change (name :: names) with ([name] ++ names).
      rewrite answered_app by reflexivity.
      now apply Forall2_app.
Qed.

(** What the census script exports in one run, from its three fetches. *)
Lemma census_export_fetched X state folder api_key w :
  exports (snd (Education.process_state X state folder api_key w)) = exports w
  \/ exists ex payloads w1,
      exports (snd (Education.process_state X state folder api_key w))
      = exports w ++ [ex]
      /\ fetches (census_fetch X api_key) county_names (made folder w)
                 payloads w1
      /\ frame_cells (PStr "County") (table ex)
         = map PStr (answered county_names payloads)
      /\ nrows (table ex) = List.length (answered county_names payloads).
Proof.
  unfold Education.process_state. rewrite bind_run. unfold os_makedirs.
  destruct (makedirs_error X folder); [left; reflexivity|].
  fold (made folder w). change (exports w) with (exports (made folder w)).
  destruct (String.eqb state "Delaware") eqn:Hs; [|left; reflexivity].
  apply String.eqb_eq in Hs. subst state.
  rewrite education_resolver_delaware, bind_ret, delaware_rows.
  change [county_row "New Castle"; county_row "Kent"; county_row "Sussex"]
    with (map county_row county_names).
  rewrite bind_run.
  destruct (census_county_loop_spec X (PStr "10") api_key county_names []
              (made folder w)) as [Hx _].
  pose proof (census_county_loop_fetch X api_key county_names []
                (made folder w)) as Hf.
  destruct (for_each_with (map county_row county_names) [] _ (made folder w))
    as [[[flow acc] | e] w1]; cbn [fst snd] in *; [|left; exact Hx].
  destruct flow as [|[]]; [|left; exact Hx].
  destruct Hf as (payloads & frames & Hfetch & -> & Hc). cbn [app].
  destruct (census_export_state_spec X "Delaware" folder frames w1)
    as [He | (ex & tbl & Hcat & Hcells & Hrows & He)]; [left; congruence|].
  right. rewrite He, Hx. exists ex, payloads, w1.
  destruct (county_frames_cells frames _ Hc) as (Hfc & Hn & Hl).
  split; [reflexivity|]. split; [exact Hfetch|]. split.
  - rewrite Hcells, (pd_concat_cells _ frames tbl Hcat Hl). exact Hfc.
  - rewrite Hrows, (pd_concat_nrows frames tbl Hcat). exact Hn.
Qed.

Lemma payload_rows_records X records :
  forallb is_dict records = true ->
  payload_rows X (PList records) = List.length records.
Proof.
  intro H. unfold payload_rows. cbn [pd_DataFrame]. rewrite H.
  cbn [infer_objects from_records nrows]. apply length_map.
Qed.

(** C8, amended.  In every run, what [process_state] exports is nothing or
    one table.  In the BEA script the table is made from the nine fetches
    of the run, the three counties crossed with the three metrics in
    iteration order, each a call of [get_bea_data] made where the one
    before left off: the table consists of blocks of rows, one block for
    each fetch that gave data (a payload that is true), in the order of
    the fetches and no combination with more than one block; a block has
    the rows pandas makes of the payload, one row per record when the
    payload is a list of records, and every row carries the fetch's
    (County, DataType) pair, so that rows repeat a combination when a
    payload has several records.  In the census script the table is made
    from the three fetches of the run, one call of
    [get_census_data_by_county] for each county in iteration order: it has
    exactly one row for each county whose fetch gave data, in that order,
    and no county twice. *)
Theorem C8_rows_in_product_order_by_blocks :
  forall X state output_folder api_key w,
    (exports (snd (Business.process_state X state output_folder api_key w))
     = exports w
     \/ exists ex blocks payloads w1,
         exports (snd (Business.process_state X state output_folder api_key w))
         = exports w ++ [ex]
         /\ fetches (bea_fetch X api_key) bea_plan w payloads w1
         /\ map combination bea_plan = bea_combinations
         /\ blocks = payload_blocks X bea_combinations payloads
         /\ subseq (map fst blocks) bea_combinations
         /\ NoDup (map fst blocks)
         /\ row_tags (table ex) = block_rows blocks
         /\ nrows (table ex) = List.length (block_rows blocks))
    /\ (forall records,
           forallb is_dict records = true ->
           payload_rows X (PList records) = List.length records)
    /\ (exports (snd (Education.process_state X state output_folder api_key w))
        = exports w
        \/ exists ex found payloads w1,
            exports (snd (Education.process_state X state output_folder
                            api_key w))
            = exports w ++ [ex]
            /\ fetches (census_fetch X api_key) county_names
                       (made output_folder w) payloads w1
            /\ found = answered county_names payloads
            /\ subseq found county_names
            /\ NoDup found
            /\ frame_cells (PStr "County") (table ex) = map PStr found
            /\ nrows (table ex) = List.length found).
Proof.
  intros X state folder api_key w. split; [|split].
  - destruct (business_export_fetched X state folder api_key w)
      as [H | (ex & payloads & w1 & He & Hf & Ht & Hn)]; [now left|].
    right. exists ex, (payload_blocks X bea_combinations payloads), payloads, w1.
    pose proof (payload_blocks_subseq X bea_combinations payloads) as Hq.
    repeat split; auto.
    exact (subseq_NoDup _ _ Hq bea_combinations_NoDup).
  - exact (payload_rows_records X).
  - destruct (census_export_fetched X state folder api_key w)
      as [H | (ex & payloads & w1 & He & Hf & Hc & Hn)]; [now left|].
    right. exists ex, (answered county_names payloads), payloads, w1.
    pose proof (answered_subseq county_names payloads) as Hq.
    repeat split; auto.
    exact (subseq_NoDup _ _ Hq county_names_NoDup).
Qed.

(** C8 as stated fails: when the payload of one fetch has two records, the
    exported table has two rows with the same (region, metric)
    combination. *)
Lemma C8_counterexample :
  exists ex,
    exports (snd (Business.process_state two_records_once "Delaware" "out"
                    key0 World0)) = [ex]
    /\ row_tags (table ex)
       = [(PStr "New Castle", PStr "GDP"); (PStr "New Castle", PStr "GDP")]
    /\ ~ NoDup (row_tags (table ex)).
Proof.
  eexists. split; [vm_compute; reflexivity|].
  split; [vm_compute; reflexivity|].
  intro H. vm_compute in H. inversion H as [|x l Hnin _]. apply Hnin.
  left. reflexivity.
Qed.

Lemma census_three_rows :
  exists ex,
    exports (snd (Education.process_state census_up "Delaware" "out" key0
                    World0)) = [ex]
    /\ filename ex = "out/Delaware_census_data_2022.xlsx"
    /\ frame_cells (PStr "County") (table ex)
       = [PStr "New Castle"; PStr "Kent"; PStr "Sussex"]
    /\ frame_cells Education.Area (table ex) = [PInt 100; PInt 100; PInt 100]
    /\ frame_cells Education.Total_Population (table ex)
       = [PInt 575494; PInt 186946; PInt 255956].
Proof. eexists. by_running. Qed.

(** ** The run that collects no row *)

Lemma frame_empty_no_rows df : nrows df = 0%nat -> frame_empty df = true.
Proof. unfold frame_empty. now intros ->. Qed.

(** BEA script: when the collected frames have no row, the export step is
    not invoked; when no frame was collected it prints that there is
    nothing to save and returns. *)
Lemma business_no_rows_no_export X state folder frames w :
  total_rows frames = 0%nat ->
  exports (snd (Business.export_state X state folder frames w)) = exports w
  /\ (frames = [] ->
      Business.export_state X state folder frames w
      = print [Lit "No BEA data to save for "; Val (PStr state)] w).
Proof.
  intro H0. split.
  - destruct (export_state_spec X state folder frames w)
      as [He | (tbl & file & Hcat & Hne & _)]; [exact He|].
    apply pd_concat_nrows in Hcat. rewrite H0 in Hcat.
    apply frame_empty_no_rows in Hcat. congruence.
  - intros ->. reflexivity.
Qed.

(** With the network down the BEA script reports that there is nothing to
    save, and exports nothing. *)
Lemma business_network_down :
  exists w',
    Business.process_state (scripted []) "Delaware" "out" key0 World0
    = (Ret tt, w')
    /\ exports w' = []
    /\ last (stdout w') [] = [Lit "No BEA data to save for ";
                             Val (PStr "Delaware")].
Proof. eexists. by_running. Qed.

(** C1, at the input on which the census script departs from it.  When no
    county gave data the list handed to [pd.concat] is empty and
    [pd.concat] raises [ValueError]: the export step is not invoked, but
    the run ends with that exception and the line that reports that there
    is nothing to save is never printed.  So it is for every run that
    reaches the export step with nothing collected, and for the run with
    the network down in particular. *)
Theorem C1_census_run_without_rows_raises :
  (forall X state output_folder w,
      Education.export_state X state output_folder [] w = (Raise ValueError, w))
  /\ fst (Education.process_state (scripted []) "Delaware" "out" key0 World0)
     = Raise ValueError
  /\ exports (snd (Education.process_state (scripted []) "Delaware" "out"
                     key0 World0)) = []
  /\ ~ In [Lit "No census data to save for "; Val (PStr "Delaware")]
          (stdout (snd (Education.process_state (scripted []) "Delaware"
                          "out" key0 World0))).
Proof.
  split; [reflexivity|]. split; [vm_compute; reflexivity|].
  split; [vm_compute; reflexivity|].
  intro H. vm_compute in H.
  repeat (destruct H as [H | H]; [discriminate|]). exact H.
Qed.

(** * Further properties of the scripts *)

(** ** The retry loop under any network *)

Lemma never_continues_bind {A R} (m : M A) (k : A -> M (Flow R)) :
  (forall a, never_continues (k a)) -> never_continues (bind m k).
Proof.
  intros Hk w. unfold bind. destruct (m w) as [[a | e] w1].
  - apply Hk.
  - discriminate.
Qed.

Lemma never_continues_return {R} (r : R) : never_continues (ret (Return r)).
Proof. intro w. discriminate. Qed.

Lemma never_continues_if {R} (b : bool) (m1 m2 : M (Flow R)) :
  never_continues m1 -> never_continues m2 ->
  never_continues (if b then m1 else m2).
Proof. destruct b; auto. Qed.

Ltac settles_tac :=
  repeat first
    [ apply never_continues_return
    | apply never_continues_if
    | apply never_continues_bind; intro ].

Lemma bea_unwrap_settles response :
  never_continues (Business.bea_unwrap response).
Proof. unfold Business.bea_unwrap. settles_tac. Qed.

Lemma census_unwrap_settles sf cf y response :
  never_continues (Education.census_unwrap sf cf y response).
Proof. unfold Education.census_unwrap. settles_tac. Qed.

Section RetryInvariant.
Variable X : Externals.
Variable u : Line.
Variable ps : list (string * pyval).
Variable unwrap : Response -> M (Flow pyval).
Variables max_retries retry_delay : Z.

Hypothesis unwrap_quiet : forall r, quiet (unwrap r).
Hypothesis unwrap_settles : forall r, never_continues (unwrap r).

Let req : Request := mkRequest u ps.

Local Abbreviation attempt_at :=
  (retry_attempt X u ps unwrap max_retries retry_delay).
Local Abbreviation the_call :=
  (retry_call X u ps unwrap max_retries retry_delay).

(** A retry clause goes on only after a sleep, with an attempt left; it
    raises only when the delay is negative. *)
Lemma handler_outcome (l1 l2 l3 : Line) attempt w0 :
  match (print l1 ;;
         if attempt <? max_retries - 1 then
           print l2 ;; time_sleep retry_delay ;; ret Continue
         else print l3 ;; ret (@Return pyval PNone)) w0 with
  | (Ret Continue, w') =>
      attempt < max_retries - 1 /\ 0 <= retry_delay
      /\ extends w0 w' [] [retry_delay]
  | (Ret (Return _), w') => extends w0 w' [] []
  | (Raise e, w') => retry_delay < 0 /\ extends w0 w' [] [] /\ e = ValueError
  end.
Proof.
  unfold bind, print, time_sleep, ret. cbn [fst snd].
  destruct (attempt <? max_retries - 1) eqn:Ha; cbn.
  - destruct (retry_delay <? 0) eqn:Hd; cbn.
    + apply Z.ltb_lt in Hd. split; [exact Hd|]. split; [|reflexivity].
      unfold extends. cbn. rewrite !app_nil_r. auto.
    + apply Z.ltb_lt in Ha. apply Z.ltb_ge in Hd.
      split; [exact Ha|]. split; [exact Hd|].
      unfold extends. cbn. rewrite !app_nil_r. auto.
  - unfold extends. cbn. rewrite !app_nil_r. auto.
Qed.

Lemma unexpected_outcome (l : Line) w0 :
  (print l ;; ret (@Return pyval PNone)) w0
  = (Ret (Return PNone), snd (print l w0)).
Proof. reflexivity. Qed.

(** One attempt, whatever the reply. *)
Lemma attempt_outcome attempt w :
  match attempt_at attempt w with
  | (Ret Continue, w') =>
      attempt < max_retries - 1 /\ 0 <= retry_delay
      /\ extends w w' [req] [retry_delay]
  | (Ret (Return _), w') => extends w w' [req] []
  | (Raise e, w') => retry_delay < 0 /\ extends w w' [req] []
  end.
Proof.
  assert (Hclause : forall l1 l2 l3 w0,
             extends w w0 [req] [] ->
             match (print l1 ;;
                    if attempt <? max_retries - 1 then
                      print l2 ;; time_sleep retry_delay ;; ret Continue
                    else print l3 ;; ret (@Return pyval PNone)) w0 with
             | (Ret Continue, w') =>
                 attempt < max_retries - 1 /\ 0 <= retry_delay
                 /\ extends w w' [req] [retry_delay]
             | (Ret (Return _), w') => extends w w' [req] []
             | (Raise e, w') =>
                 retry_delay < 0 /\ extends w w' [req] [] /\ e = ValueError
             end).
  { intros l1 l2 l3 w0 H0.
    pose proof (handler_outcome l1 l2 l3 attempt w0) as H.
    destruct ((print l1 ;; _) w0) as [[[|v] | e] w1].
    - destruct H as (Ha & Hd & Hx). split; [exact Ha|]. split; [exact Hd|].
      exact (extends_trans _ _ _ _ _ _ _ H0 Hx).
    - exact (extends_nil_r _ _ _ _ _ H0 H).
    - destruct H as (Hd & Hx & He). split; [exact Hd|]. split; [|exact He].
      exact (extends_nil_r _ _ _ _ _ H0 Hx). }
  assert (Hlast : forall l w0,
             extends w w0 [req] [] ->
             extends w (snd (print l w0)) [req] []).
  { intros l w0 H0. exact (extends_nil_r _ _ _ _ _ H0 (quiet_print l w0)). }
  unfold retry_attempt. unfold try_except at 1. rewrite bind_run.
  unfold requests_get. fold req. fold (sent req w).
  pose proof (extends_sent u ps w) as Hs. fold req in Hs.
  destruct (net X (List.length (requests w)) req) as [e | t p].
  - cbn [find fst snd]. destruct (is_RequestException e); cbn [fst snd].
    + specialize (Hclause [Lit "API request failed: "; Exn e]
                    [Lit "Retrying in "; Val (PInt retry_delay);
                     Lit " seconds..."]
                    [Lit "Max retries reached. Skipping."] (sent req w) Hs).
      destruct ((print _ ;; _) (sent req w)) as [[[|v] | e'] w1]; auto.
      destruct Hclause as (Hd & Hx & _). auto.
    + unfold is_Exception. cbn [fst snd]. rewrite unexpected_outcome. now apply Hlast.
  - unfold try_except at 1.
    pose proof (unwrap_quiet (mkResponse t p) (sent req w)) as Hq.
    pose proof (unwrap_settles (mkResponse t p) (sent req w)) as Hn.
    destruct (unwrap (mkResponse t p) (sent req w)) as [[f | e] w2];
      cbn [fst snd] in Hq, Hn.
    + assert (H2 : extends w w2 [req] [])
        by exact (extends_nil_r _ _ _ _ _ Hs Hq).
      destruct f as [|v]; [now elim Hn | exact H2].
    + assert (H2 : extends w w2 [req] [])
        by exact (extends_nil_r _ _ _ _ _ Hs Hq).
      cbn [find fst snd]. destruct (is_JSONDecodeError e); cbn [fst snd].
      * cbn [text].
        specialize (Hclause
                      [Lit "JSONDecodeError: "; Exn e;
                       Lit ". Response content: "; Lit t]
                      [Lit "Retrying in "; Val (PInt retry_delay);
                       Lit " seconds..."]
                      [Lit "Max retries reached.  Skipping."] w2 H2).
        destruct ((print _ ;; _) w2) as [[[|v] | e'] w3]; auto.
        destruct Hclause as (Hd & Hx & ->).
        cbn [find fst snd is_RequestException]. unfold is_Exception.
        cbn [fst snd].
        rewrite unexpected_outcome. now apply Hlast.
      * cbn [find fst snd]. destruct (is_RequestException e); cbn [fst snd].
        -- specialize (Hclause [Lit "API request failed: "; Exn e]
                         [Lit "Retrying in "; Val (PInt retry_delay);
                          Lit " seconds..."]
                         [Lit "Max retries reached. Skipping."] w2 H2).
           destruct ((print _ ;; _) w2) as [[[|v] | e'] w3]; auto.
           destruct Hclause as (Hd & Hx & _). auto.
        -- unfold is_Exception. cbn [fst snd]. rewrite unexpected_outcome. now apply Hlast.
Qed.

(** The loop from attempt [a] on, over [n] attempts. *)
Lemma loop_outcome (n : nat) : forall (a : nat) (w : World),
  match for_each (map Z.of_nat (seq a n)) attempt_at w with
  | (Ret Continue, w') =>
      extends w w' (repeat req n) (repeat retry_delay n)
      /\ ((0 < n)%nat -> Z.of_nat (a + n) - 1 < max_retries - 1)
  | (Ret (Return _), w') =>
      exists k, (k < n)%nat
                /\ extends w w' (repeat req (S k)) (repeat retry_delay k)
  | (Raise _, w') =>
      retry_delay < 0
      /\ exists k, (k < n)%nat
                   /\ extends w w' (repeat req (S k)) (repeat retry_delay k)
  end.
Proof.
  induction n as [|n IH]; intros a w.
  - cbn. split; [apply extends_refl | lia].
  - cbn [seq map for_each]. rewrite bind_run.
    pose proof (attempt_outcome (Z.of_nat a) w) as Ha.
    destruct (attempt_at (Z.of_nat a) w) as [[[|v] | e] w1].
    + destruct Ha as (Hlt & Hd & Hx). specialize (IH (S a) w1).
      destruct (for_each (map Z.of_nat (seq (S a) n)) attempt_at w1)
        as [[[|v] | e] w2].
      * destruct IH as (Hx2 & Hn). split.
        -- exact (extends_trans _ _ _ _ _ _ _ Hx Hx2).
        -- intros _. destruct n; [lia|].
           replace (a + S (S n))%nat with (S a + S n)%nat by lia.
           apply Hn. lia.
      * destruct IH as (k & Hk & Hx2). exists (S k). split; [lia|].
        exact (extends_trans _ _ _ _ _ _ _ Hx Hx2).
      * destruct IH as (Hneg & k & Hk & Hx2). split; [exact Hneg|].
        exists (S k). split; [lia|].
        exact (extends_trans _ _ _ _ _ _ _ Hx Hx2).
    + cbn [ret]. exists O. split; [lia | exact Ha].
    + destruct Ha as (Hneg & Hx). split; [exact Hneg|].
      exists O. split; [lia | exact Hx].
Qed.

(** A whole call, whatever the network: it issues [n] requests, at most
    [max_retries] and at least one when an attempt is allowed, sleeps
    between them and not after the last, and raises only out of a sleep of
    negative length. *)
Lemma call_outcome w :
  exists n,
    (n <= Z.to_nat max_retries)%nat
    /\ (1 <= max_retries -> (1 <= n)%nat)
    /\ extends w (snd (the_call w)) (repeat req n)
               (repeat retry_delay (n - 1))
    /\ match fst (the_call w) with
       | Ret _ => True
       | Raise _ => retry_delay < 0
       end.
Proof.
  unfold retry_call, py_range. rewrite bind_run.
  pose proof (loop_outcome (Z.to_nat max_retries) 0 w) as H.
  destruct (for_each (map Z.of_nat (seq 0 (Z.to_nat max_retries))) attempt_at w)
    as [[[|v] | e] w1]; cbn [ret fst snd].
  - destruct H as (Hx & Hn).
    assert (H0 : Z.to_nat max_retries = O).
    { destruct (Z.to_nat max_retries) eqn:E; [reflexivity|].
      assert (Hlt : (0 < S n)%nat) by lia. specialize (Hn Hlt). lia. }
    rewrite H0 in Hx. exists O.
    split; [lia|]. split; [lia|]. split; [exact Hx | exact I].
  - destruct H as (k & Hk & Hx). exists (S k).
    split; [lia|]. split; [lia|]. split; [|exact I].
    cbn [Nat.sub]. now rewrite Nat.sub_0_r.
  - destruct H as (Hneg & k & Hk & Hx). exists (S k).
    split; [lia|]. split; [lia|]. split; [|exact Hneg].
    cbn [Nat.sub]. now rewrite Nat.sub_0_r.
Qed.

(** A value an attempt returns is [None] or what the statements under the
    inner [try] returned on the reply to this attempt. *)
Lemma attempt_value attempt w v :
  fst (attempt_at attempt w) = Ret (Return v) ->
  v = PNone
  \/ exists t p,
       net X (List.length (requests w)) req = ReplyBody t p
       /\ fst (unwrap (mkResponse t p) (sent req w)) = Ret (Return v).
Proof.
  unfold retry_attempt. unfold try_except at 1. rewrite bind_run.
  unfold requests_get. fold req. fold (sent req w).
  destruct (net X (List.length (requests w)) req) as [e | t p].
  - cbn [find fst snd]. destruct (is_RequestException e).
    + intro H. left. now apply handler_result in H.
    + intro H. left. cbn in H. now injection H.
  - unfold try_except at 1.
    destruct (unwrap (mkResponse t p) (sent req w)) as [[f | e] w2] eqn:Hu.
    + intro H. cbn [fst] in H. injection H as ->. right.
      exists t, p. split; [reflexivity|]. now rewrite Hu.
    + cbn [find fst snd]. destruct (is_JSONDecodeError e).
      * match goal with
        | |- context [let (r, w') := ?m ?x in _] =>
            destruct (m x) as [[f | e'] w3] eqn:Hh
        end.
        -- intro H. cbn [fst] in H. injection H as ->. left.
           cbn [snd text] in Hh.
           exact (handler_result _ _ _ _ _ _ _ _ (f_equal fst Hh)).
        -- cbn [find fst snd]. destruct (is_RequestException e').
           ++ intro H. left. now apply handler_result in H.
           ++ intro H. left. cbn in H. now injection H.
      * cbn [find fst snd]. destruct (is_RequestException e).
        -- intro H. left. now apply handler_result in H.
        -- intro H. left. cbn in H. now injection H.
Qed.

(** The value of the loop comes from the reply to its last request. *)
Lemma loop_value (n : nat) : forall (a : nat) (w : World) v,
  fst (for_each (map Z.of_nat (seq a n)) attempt_at w) = Ret (Return v) ->
  v = PNone
  \/ exists t p w0,
       net X (Nat.pred (List.length (requests
                (snd (for_each (map Z.of_nat (seq a n)) attempt_at w))))) req
       = ReplyBody t p
       /\ fst (unwrap (mkResponse t p) w0) = Ret (Return v).
Proof.
  induction n as [|n IH]; intros a w v; [discriminate|].
  cbn [seq map for_each]. rewrite bind_run.
  pose proof (attempt_outcome (Z.of_nat a) w) as Ho.
  pose proof (attempt_value (Z.of_nat a) w) as Hv.
  destruct (attempt_at (Z.of_nat a) w) as [[[|v'] | e] w1].
  - apply IH.
  - cbn [ret fst snd]. intro H. injection H as ->.
    destruct (Hv v eq_refl) as [-> | (t & p & Hn & Hu)]; [now left|].
    right. exists t, p, (sent req w). split; [|exact Hu].
    destruct Ho as (Hr & _). rewrite Hr, length_app. cbn [List.length].
    now rewrite Nat.add_1_r.
  - discriminate.
Qed.

Lemma call_value w v :
  fst (the_call w) = Ret v ->
  v = PNone
  \/ exists t p w0,
       net X (Nat.pred (List.length (requests (snd (the_call w))))) req
       = ReplyBody t p
       /\ fst (unwrap (mkResponse t p) w0) = Ret (Return v).
Proof.
  unfold retry_call, py_range. rewrite bind_run.
  pose proof (loop_value (Z.to_nat max_retries) 0 w) as H.
  destruct (for_each (map Z.of_nat (seq 0 (Z.to_nat max_retries))) attempt_at w)
    as [[[|v'] | e] w1]; cbn [ret fst snd] in *.
  - intro Hv. injection Hv as <-. now left.
  - intro Hv. injection Hv as <-. now apply H.
  - discriminate.
Qed.

(** With a negative delay and an attempt to spare, a first transient
    failure ends the call after its one request: the [ValueError] of
    [time.sleep] leaves the clause for transport errors, and is caught as
    an unexpected error when it leaves the clause for decode errors. *)
Lemma negative_delay_first_failure w :
  (forall t, raises (unwrap (mkResponse t None)) JSONDecodeError) ->
  retry_delay < 0 -> 2 <= max_retries ->
  transient (net X (List.length (requests w)) req) = true ->
  extends w (snd (the_call w)) [req] []
  /\ fst (the_call w)
     = match net X (List.length (requests w)) req with
       | ReplyRaises _ => Raise ValueError
       | ReplyBody _ _ => Ret PNone
       end.
Proof.
  intros Hund Hd Hm Ht. unfold retry_call, py_range.
  destruct (Z.to_nat max_retries) as [|k] eqn:Ek; [lia|].
  cbn [seq map for_each]. rewrite !bind_run.
  pose proof (attempt_outcome (Z.of_nat 0) w) as Ho.
  assert (Hres : fst (attempt_at (Z.of_nat 0) w)
                 = match net X (List.length (requests w)) req with
                   | ReplyRaises _ => Raise ValueError
                   | ReplyBody _ _ => Ret (Return PNone)
                   end).
  { unfold retry_attempt. unfold try_except at 1. rewrite bind_run.
    unfold requests_get. fold req. fold (sent req w).
    assert (Ha : (Z.of_nat 0 <? max_retries - 1) = true)
      by (apply Z.ltb_lt; lia).
    assert (Hs : (retry_delay <? 0) = true) by (apply Z.ltb_lt; lia).
    destruct (net X (List.length (requests w)) req) as [e | t [data|]];
      cbn [transient] in Ht; try discriminate.
    - cbn [find fst snd]. rewrite Ht. cbn [fst snd].
      unfold bind, print, time_sleep. rewrite Ha. cbn [fst snd sleeps].
      rewrite Hs. reflexivity.
    - unfold try_except at 1.
      pose proof (Hund t (sent req w)) as Hu.
      destruct (unwrap (mkResponse t None) (sent req w)) as [r0 w2].
      cbn [fst] in Hu. subst r0. cbn [find fst snd is_JSONDecodeError].
      unfold bind, print, time_sleep. rewrite Ha. cbn [fst snd sleeps].
      rewrite Hs. reflexivity. }
  destruct (attempt_at (Z.of_nat 0) w) as [[[|v] | e] w1];
    cbn [fst snd ret] in *.
  - destruct Ho as (_ & Hge & _). lia.
  - split; [exact Ho|].
    destruct (net X (List.length (requests w)) req); [discriminate|].
    now injection Hres as ->.
  - destruct Ho as (_ & Ho). split; [exact Ho|].
    destruct (net X (List.length (requests w)) req); [|discriminate].
    now injection Hres as ->.
Qed.

End RetryInvariant.

(** ** The fetchers under any network *)

Lemma bea_unwrap_value r w0 v :
  fst (Business.bea_unwrap r w0) = Ret (Return v) ->
  v = PNone
  \/ exists data,
       parsed r = Some data
       /\ dict_path ["BEAAPI"; "Results"; "Data"] data = Some v.
Proof.
  destruct r as [t [data|]].
  - destruct (dict_path ["BEAAPI"; "Results"; "Data"] data) as [p|] eqn:Hp.
    + rewrite (bea_unwrap_data t data p Hp w0). intro H. injection H as <-.
      right. exists data. split; [reflexivity | exact Hp].
    + destruct (bea_unwrap_no_data t data Hp) as [Hy | (e & He & _)].
      * rewrite (Hy w0). intro H. injection H as <-. now left.
      * rewrite (He w0). discriminate.
  - rewrite (bea_unwrap_undecodable t w0). discriminate.
Qed.

Lemma census_unwrap_value sf cf y r w0 v :
  fst (Education.census_unwrap sf cf y r w0) = Ret (Return v) ->
  v = PNone
  \/ exists data columns values,
       parsed r = Some data
       /\ py_index data 0 = Ret columns /\ py_index data 1 = Ret values
       /\ py_dict_zip columns values = Ret v.
Proof.
  unfold Education.census_unwrap, response_json.
  destruct (parsed r) as [data|]; [|discriminate].
  rewrite bind_ret. unfold lift. rewrite !bind_run.
  destruct (py_len data) as [n|]; [|discriminate].
  destruct (1 <? n).
  - rewrite bind_run.
    destruct (py_index data 0) as [columns|] eqn:H0; [|discriminate].
    rewrite bind_run.
    destruct (py_index data 1) as [values|] eqn:H1; [|discriminate].
    rewrite bind_run.
    destruct (py_dict_zip columns values) as [d|] eqn:Hz; [|discriminate].
    intro H. cbn in H. injection H as <-. right.
    exists data, columns, values. auto.
  - intro H. cbn in H. injection H as <-. now left.
Qed.

Lemma py_len_unexpected c e : py_len c = Raise e -> unexpected e.
Proof.
  destruct c; try discriminate; intro H; injection H as <-; split; reflexivity.
Qed.

Lemma py_index_unexpected c i e : py_index c i = Raise e -> unexpected e.
Proof.
  unfold py_index.
  destruct c; try destruct (nth_error _ _); try destruct (dict_get _ _);
    try discriminate; intro H; injection H as <-; split; reflexivity.
Qed.

Lemma dict_of_pairs_unexpected pairs : forall acc e,
  dict_of_pairs pairs acc = Raise e -> unexpected e.
Proof.
  induction pairs as [|[k v] pairs IH]; intros acc e; [discriminate|].
  cbn [dict_of_pairs]. destruct (py_hashable k); [apply IH|].
  intro H. injection H as <-. split; reflexivity.
Qed.

Lemma py_iter_unexpected c e : py_iter c = Raise e -> unexpected e.
Proof.
  destruct c; try discriminate; intro H; injection H as <-; split; reflexivity.
Qed.

Lemma py_dict_zip_unexpected columns values e :
  py_dict_zip columns values = Raise e -> unexpected e.
Proof.
  unfold py_dict_zip.
  destruct (py_iter columns) as [ks|e1] eqn:H1.
  - destruct (py_iter values) as [vs|e2] eqn:H2.
    + destruct (dict_of_pairs (combine ks vs) []) as [d|e3] eqn:H3;
        [discriminate|].
      intro H. injection H as <-. exact (dict_of_pairs_unexpected _ _ _ H3).
    + intro H. injection H as <-. exact (py_iter_unexpected _ _ H2).
  - intro H. injection H as <-. exact (py_iter_unexpected _ _ H1).
Qed.

(** On a body that decodes, the statements under the inner [try] of the
    census fetcher return [None] or a dict, or raise something no retry
    clause names. *)
Lemma census_unwrap_decoded sf cf y t data :
  (exists v,
      yields (Education.census_unwrap sf cf y (mkResponse t (Some data)))
             (Return v)
      /\ (v = PNone \/ is_dict v = true))
  \/ exists e,
      raises (Education.census_unwrap sf cf y (mkResponse t (Some data))) e
      /\ unexpected e.
Proof.
  unfold Education.census_unwrap, response_json. cbn [parsed].
  rewrite bind_ret.
  destruct (py_len data) as [n|e] eqn:Hl.
  - rewrite bind_lift_Ret. destruct (1 <? n).
    + destruct (py_index data 0) as [columns|e] eqn:H0.
      * rewrite bind_lift_Ret.
        destruct (py_index data 1) as [values|e] eqn:H1.
        -- rewrite bind_lift_Ret.
           destruct (py_dict_zip columns values) as [d|e] eqn:Hz.
           ++ rewrite bind_lift_Ret. left. exists d.
              split; [intro w; reflexivity|]. right.
              exact (py_dict_zip_dict _ _ _ Hz).
           ++ rewrite bind_lift_Raise. right. exists e.
              split; [intro w; reflexivity|].
              exact (py_dict_zip_unexpected _ _ _ Hz).
        -- rewrite bind_lift_Raise. right. exists e.
           split; [intro w; reflexivity|].
           exact (py_index_unexpected _ _ _ H1).
      * rewrite bind_lift_Raise. right. exists e.
        split; [intro w; reflexivity|].
        exact (py_index_unexpected _ _ _ H0).
    + left. exists PNone. split; [intro w; reflexivity | now left].
  - rewrite bind_lift_Raise. right. exists e.
    split; [intro w; reflexivity|].
    exact (py_len_unexpected _ _ Hl).
Qed.

Lemma listed_county_hashable county cf :
  dict_get county Education.fips_codes = Some cf -> py_hashable county = true.
Proof. destruct county; try reflexivity; discriminate. Qed.

(** X1.  [get_bea_data], whatever the network answers and whatever the delay:
    the call issues [n] requests, all the same, at least one when an attempt
    is allowed and never more than [max_retries], and sleeps [n - 1] times,
    [retry_delay] seconds each; it exports nothing and makes no directory. *)
Theorem bea_call_sleeps_between_requests :
  forall X api_key geo_fips year linecode max_retries retry_delay w,
  exists n,
    (Nat.min 1 (Z.to_nat max_retries) <= n)%nat
    /\ (n <= Z.to_nat max_retries)%nat
    /\ extends w
         (snd (Business.get_bea_data X api_key geo_fips year linecode
                 max_retries retry_delay w))
         (repeat (bea_request api_key geo_fips year linecode) n)
         (repeat retry_delay (n - 1)).
Proof.
  intros X api_key geo year lc mr d w. rewrite get_bea_data_unfold.
  destruct (call_outcome X [Lit Business.BEA_API_URL]
              (Business.bea_params api_key geo year lc) Business.bea_unwrap
              mr d bea_unwrap_quiet bea_unwrap_settles w)
    as (n & Hle & Hge & Hx & _).
  exists n. split; [|split; [exact Hle | exact Hx]].
  destruct (Z_le_gt_dec 1 mr) as [H1 | H1]; [specialize (Hge H1)|]; lia.
Qed.

(** X2.  [get_census_data_by_county] for a county of the FIPS table, whatever
    the network answers and whatever the delay: [n] requests for that county's
    code, at least one when an attempt is allowed and never more than
    [max_retries], and [n - 1] sleeps of [retry_delay] seconds. *)
Theorem census_call_sleeps_between_requests :
  forall X api_key state_fips county county_fips year max_retries retry_delay w,
    dict_get county Education.fips_codes = Some county_fips ->
    exists n,
      (Nat.min 1 (Z.to_nat max_retries) <= n)%nat
      /\ (n <= Z.to_nat max_retries)%nat
      /\ extends w
           (snd (Education.get_census_data_by_county X api_key state_fips
                   county year max_retries retry_delay w))
           (repeat (census_request api_key state_fips county_fips year) n)
           (repeat retry_delay (n - 1)).
Proof.
  intros X api_key sf county cf year mr d w Hk.
  rewrite (get_census_data_unfold X api_key sf county cf year mr d
             (listed_county_hashable county cf Hk) Hk).
  destruct (call_outcome X (Education.census_url api_key sf cf year) []
              (Education.census_unwrap sf cf year) mr d
              (census_unwrap_quiet sf cf year)
              (census_unwrap_settles sf cf year) w)
    as (n & Hle & Hge & Hx & _).
  exists n. split; [|split; [exact Hle | exact Hx]].
  destruct (Z_le_gt_dec 1 mr) as [H1 | H1]; [specialize (Hge H1)|]; lia.
Qed.

(** Kent, with the network down: three requests for code 001, two sleeps. *)
Lemma census_call_sleeps_between_requests_witness :
  exists n,
    (1 <= n)%nat /\ (n <= 3)%nat
    /\ extends World0
         (snd (Education.get_census_data_by_county (scripted []) key0
                 (PStr "10") (PStr "Kent") (PInt 2022) 3 5 World0))
         (repeat (census_request key0 (PStr "10") (PStr "001") (PInt 2022)) n)
         (repeat 5 (n - 1)).
Proof.
  exact (census_call_sleeps_between_requests (scripted []) key0 (PStr "10")
           (PStr "Kent") (PStr "001") (PInt 2022) 3 5 World0 eq_refl).
Defined.

(** X3.  [get_bea_data] with a delay that is not negative never raises,
    whatever the network answers; what it returns is [None], or what stands
    under [BEAAPI.Results.Data] in the body of the reply to its last request.
    *)
Theorem bea_call_returns_last_payload :
  forall X api_key geo_fips year linecode max_retries retry_delay w,
    0 <= retry_delay ->
    exists v w',
      Business.get_bea_data X api_key geo_fips year linecode
        max_retries retry_delay w = (Ret v, w')
      /\ (v = PNone
          \/ exists t data,
               net X (Nat.pred (List.length (requests w')))
                   (bea_request api_key geo_fips year linecode)
               = ReplyBody t (Some data)
               /\ dict_path ["BEAAPI"; "Results"; "Data"] data = Some v).
Proof.
  intros X api_key geo year lc mr d w Hd. rewrite get_bea_data_unfold.
  destruct (call_outcome X [Lit Business.BEA_API_URL]
              (Business.bea_params api_key geo year lc) Business.bea_unwrap
              mr d bea_unwrap_quiet bea_unwrap_settles w)
    as (n & _ & _ & _ & Hres).
  pose proof (call_value X [Lit Business.BEA_API_URL]
                (Business.bea_params api_key geo year lc) Business.bea_unwrap
                mr d bea_unwrap_quiet bea_unwrap_settles w) as Hval.
  destruct (retry_call X [Lit Business.BEA_API_URL]
              (Business.bea_params api_key geo year lc) Business.bea_unwrap
              mr d w) as [[v | e] w']; cbn [fst snd] in *; [|lia].
  exists v, w'. split; [reflexivity|].
  destruct (Hval v eq_refl) as [-> | (t & p & w0 & Hn & Hu)]; [now left|].
  apply bea_unwrap_value in Hu. destruct Hu as [-> | (data & Hp & Hv)];
    [now left|].
  cbn [parsed] in Hp. subst p. right. exists t, data.
  split; [exact Hn | exact Hv].
Qed.

(** One transport error, then a body with one record: the record comes
    back. *)
Lemma bea_call_returns_last_payload_witness :
  exists v w',
    Business.get_bea_data flaky_once key0 (PStr "10003") (PInt 2021)
      (PInt 10) 3 5 World0 = (Ret v, w')
    /\ (v = PNone
        \/ exists t data,
             net flaky_once (Nat.pred (List.length (requests w')))
                 (bea_request key0 (PStr "10003") (PInt 2021) (PInt 10))
             = ReplyBody t (Some data)
             /\ dict_path ["BEAAPI"; "Results"; "Data"] data = Some v).
Proof.
  apply (bea_call_returns_last_payload flaky_once key0 (PStr "10003")
           (PInt 2021) (PInt 10) 3 5 World0).
  lia.
Defined.

(** X4.  [get_census_data_by_county] with a delay that is not negative and a
    county name that can be looked up never raises, whatever the network
    answers; what it returns is [None], or [dict(zip(data[0], data[1]))] for
    the body [data] of the reply to its last request, which was for the code
    of a county of the FIPS table. *)
Theorem census_call_returns_last_row :
  forall X api_key state_fips county year max_retries retry_delay w,
    0 <= retry_delay -> py_hashable county = true ->
    exists v w',
      Education.get_census_data_by_county X api_key state_fips county year
        max_retries retry_delay w = (Ret v, w')
      /\ (v = PNone
          \/ exists county_fips t data columns values,
               dict_get county Education.fips_codes = Some county_fips
               /\ net X (Nat.pred (List.length (requests w')))
                      (census_request api_key state_fips county_fips year)
                  = ReplyBody t (Some data)
               /\ py_index data 0 = Ret columns
               /\ py_index data 1 = Ret values
               /\ py_dict_zip columns values = Ret v).
Proof.
  intros X api_key sf county year mr d w Hd Hh.
  destruct (dict_get county Education.fips_codes) as [cf|] eqn:Hk.
  - rewrite (get_census_data_unfold X api_key sf county cf year mr d Hh Hk).
    destruct (call_outcome X (Education.census_url api_key sf cf year) []
                (Education.census_unwrap sf cf year) mr d
                (census_unwrap_quiet sf cf year)
                (census_unwrap_settles sf cf year) w)
      as (n & _ & _ & _ & Hres).
    pose proof (call_value X (Education.census_url api_key sf cf year) []
                  (Education.census_unwrap sf cf year) mr d
                  (census_unwrap_quiet sf cf year)
                  (census_unwrap_settles sf cf year) w) as Hval.
    destruct (retry_call X (Education.census_url api_key sf cf year) []
                (Education.census_unwrap sf cf year) mr d w)
      as [[v | e] w']; cbn [fst snd] in *; [|lia].
    exists v, w'. split; [reflexivity|].
    destruct (Hval v eq_refl) as [-> | (t & p & w0 & Hn & Hu)]; [now left|].
    apply census_unwrap_value in Hu.
    destruct Hu as [-> | (data & columns & values & Hp & H0 & H1 & Hz)];
      [now left|].
    cbn [parsed] in Hp. subst p. right. exists cf, t, data, columns, values.
    auto.
  - unfold Education.get_census_data_by_county. rewrite Hh, Hk.
    eexists. eexists. split; [reflexivity | now left].
Qed.

(** Every county answers: the row of New Castle comes back as a dict. *)
Lemma census_call_returns_last_row_witness :
  exists v w',
    Education.get_census_data_by_county census_up key0 (PStr "10")
      (PStr "New Castle") (PInt 2022) 3 5 World0 = (Ret v, w')
    /\ (v = PNone
        \/ exists county_fips t data columns values,
             dict_get (PStr "New Castle") Education.fips_codes
             = Some county_fips
             /\ net census_up (Nat.pred (List.length (requests w')))
                    (census_request key0 (PStr "10") county_fips (PInt 2022))
                = ReplyBody t (Some data)
             /\ py_index data 0 = Ret columns
             /\ py_index data 1 = Ret values
             /\ py_dict_zip columns values = Ret v).
Proof.
  apply (census_call_returns_last_row census_up key0 (PStr "10")
           (PStr "New Castle") (PInt 2022) 3 5 World0).
  - lia.
  - reflexivity.
Defined.

(** X5.  A census reply that decodes is never retried, whatever it holds: the
    call returns from its first attempt, [None] or a dict, after one request
    and no sleep. *)
Theorem census_decoded_reply_is_not_retried :
  forall X api_key state_fips county county_fips year max_retries retry_delay
         w t data,
    1 <= max_retries ->
    dict_get county Education.fips_codes = Some county_fips ->
    net X (List.length (requests w))
        (census_request api_key state_fips county_fips year)
    = ReplyBody t (Some data) ->
    exists v w',
      Education.get_census_data_by_county X api_key state_fips county year
        max_retries retry_delay w = (Ret v, w')
      /\ extends w w' [census_request api_key state_fips county_fips year] []
      /\ (v = PNone \/ is_dict v = true).
Proof.
  intros X api_key sf county cf year mr d w t data Hm Hk Hr.
  rewrite (get_census_data_unfold X api_key sf county cf year mr d
             (listed_county_hashable county cf Hk) Hk).
  unfold census_request in *.
  destruct (census_unwrap_decoded sf cf year t data)
    as [(v & Hy & Hv) | (e & He & Hn1 & Hn2)].
  - destruct (retry_call_recovers X (Education.census_url api_key sf cf year)
                [] (Education.census_unwrap sf cf year) mr d
                (census_unwrap_quiet sf cf year)
                (census_unwrap_undecodable sf cf year) 0 w v)
      as (w' & He & Hx); [lia | lia | intros j Hj; lia | |].
    + rewrite Nat.add_0_r, Hr. exact Hy.
    + exists v, w'. auto.
  - destruct (retry_call_unexpected X (Education.census_url api_key sf cf year)
                [] (Education.census_unwrap sf cf year) mr d
                (census_unwrap_quiet sf cf year)
                (census_unwrap_undecodable sf cf year) 0 w e)
      as (w' & Hc & Hx); [lia | lia | intros j Hj; lia | | exact Hn1
                         | exact Hn2 |].
    + rewrite Nat.add_0_r, Hr. exact He.
    + exists PNone, w'. split; [exact Hc|]. split; [exact Hx | now left].
Qed.

(** A body with the header alone: "No data found", [None], one request. *)
Lemma census_decoded_reply_is_not_retried_witness :
  exists v w',
    Education.get_census_data_by_county
      (scripted [ReplyBody "[..]" (Some (PList [PList [PStr "NAME"]]))])
      key0 (PStr "10") (PStr "Sussex") (PInt 2022) 3 5 World0 = (Ret v, w')
    /\ extends World0 w'
         [census_request key0 (PStr "10") (PStr "005") (PInt 2022)] []
    /\ (v = PNone \/ is_dict v = true).
Proof.
  apply (census_decoded_reply_is_not_retried
           (scripted [ReplyBody "[..]" (Some (PList [PList [PStr "NAME"]]))])
           key0 (PStr "10") (PStr "Sussex") (PStr "005") (PInt 2022) 3 5
           World0 "[..]" (PList [PList [PStr "NAME"]])).
  - lia.
  - reflexivity.
  - reflexivity.
Defined.

(** X6.  [get_bea_data] with a negative delay and at least two attempts
    allowed: a first transient failure ends the call after its one request.
    When the failure is a transport error, the [ValueError] of [time.sleep]
    leaves the function; when it is a body that does not decode, the same
    [ValueError] is caught by the clause for unexpected errors and the call
    returns [None]. *)
Theorem bea_negative_delay_ends_at_first_failure :
  forall X api_key geo_fips year linecode max_retries retry_delay w,
    retry_delay < 0 -> 2 <= max_retries ->
    transient (net X (List.length (requests w))
                   (bea_request api_key geo_fips year linecode)) = true ->
    extends w
      (snd (Business.get_bea_data X api_key geo_fips year linecode
              max_retries retry_delay w))
      [bea_request api_key geo_fips year linecode] []
    /\ fst (Business.get_bea_data X api_key geo_fips year linecode
              max_retries retry_delay w)
       = match net X (List.length (requests w))
                   (bea_request api_key geo_fips year linecode) with
         | ReplyRaises _ => Raise ValueError
         | ReplyBody _ _ => Ret PNone
         end.
Proof.
  intros X api_key geo year lc mr d w Hd Hm Ht. rewrite get_bea_data_unfold.
  exact (negative_delay_first_failure X [Lit Business.BEA_API_URL]
           (Business.bea_params api_key geo year lc) Business.bea_unwrap
           mr d bea_unwrap_quiet bea_unwrap_settles w
           bea_unwrap_undecodable Hd Hm Ht).
Qed.

(** A body that is not JSON and a delay of -1 second: [None], one request. *)
Lemma bea_negative_delay_ends_at_first_failure_witness :
  extends World0
    (snd (Business.get_bea_data (scripted [ReplyBody "<html>" None]) key0
            (PStr "10003") (PInt 2021) (PInt 10) 3 (-1) World0))
    [bea_request key0 (PStr "10003") (PInt 2021) (PInt 10)] []
  /\ fst (Business.get_bea_data (scripted [ReplyBody "<html>" None]) key0
            (PStr "10003") (PInt 2021) (PInt 10) 3 (-1) World0)
     = Ret PNone.
Proof.
  apply (bea_negative_delay_ends_at_first_failure
           (scripted [ReplyBody "<html>" None]) key0 (PStr "10003")
           (PInt 2021) (PInt 10) 3 (-1) World0).
  - lia.
  - lia.
  - reflexivity.
Defined.

(** X7.  [get_census_data_by_county] for a county of the FIPS table, with a
    negative delay and at least two attempts allowed: a first transient
    failure ends the call after its one request.  A transport error lets the
    [ValueError] of [time.sleep] leave the function; a body that does not
    decode has the same [ValueError] caught by the clause for unexpected
    errors, and the call returns [None]. *)
Theorem census_negative_delay_ends_at_first_failure :
  forall X api_key state_fips county county_fips year max_retries retry_delay w,
    retry_delay < 0 -> 2 <= max_retries ->
    dict_get county Education.fips_codes = Some county_fips ->
    transient (net X (List.length (requests w))
                   (census_request api_key state_fips county_fips year))
    = true ->
    extends w
      (snd (Education.get_census_data_by_county X api_key state_fips county
              year max_retries retry_delay w))
      [census_request api_key state_fips county_fips year] []
    /\ fst (Education.get_census_data_by_county X api_key state_fips county
              year max_retries retry_delay w)
       = match net X (List.length (requests w))
                   (census_request api_key state_fips county_fips year) with
         | ReplyRaises _ => Raise ValueError
         | ReplyBody _ _ => Ret PNone
         end.
Proof.
  intros X api_key sf county cf year mr d w Hd Hm Hk Ht.
  rewrite (get_census_data_unfold X api_key sf county cf year mr d
             (listed_county_hashable county cf Hk) Hk).
  exact (negative_delay_first_failure X (Education.census_url api_key sf cf year)
           [] (Education.census_unwrap sf cf year) mr d
           (census_unwrap_quiet sf cf year) (census_unwrap_settles sf cf year)
           w (census_unwrap_undecodable sf cf year) Hd Hm Ht).
Qed.

(** The network down and a delay of -1 second: the [ValueError] escapes
    after one request. *)
Lemma census_negative_delay_ends_at_first_failure_witness :
  extends World0
    (snd (Education.get_census_data_by_county (scripted []) key0 (PStr "10")
            (PStr "Kent") (PInt 2022) 3 (-1) World0))
    [census_request key0 (PStr "10") (PStr "001") (PInt 2022)] []
  /\ fst (Education.get_census_data_by_county (scripted []) key0 (PStr "10")
            (PStr "Kent") (PInt 2022) 3 (-1) World0)
     = Raise ValueError.
Proof.
  apply (census_negative_delay_ends_at_first_failure (scripted []) key0
           (PStr "10") (PStr "Kent") (PStr "001") (PInt 2022) 3 (-1) World0).
  - lia.
  - lia.
  - reflexivity.
  - reflexivity.
Defined.

Lemma unlisted_county_lookup county :
  (forall name, In name county_names -> county <> PStr name) ->
  dict_get county Education.fips_codes = None.
Proof.
  intro H. unfold Education.fips_codes. cbn [dict_get].
  destruct (py_key_eqb county (PStr "New Castle")) eqn:E1.
  { apply py_key_eqb_str_r in E1. elim (H "New Castle"); [now left | exact E1]. }
  destruct (py_key_eqb county (PStr "Kent")) eqn:E2.
  { apply py_key_eqb_str_r in E2.
    elim (H "Kent"); [right; now left | exact E2]. }
  destruct (py_key_eqb county (PStr "Sussex")) eqn:E3.
  { apply py_key_eqb_str_r in E3.
    elim (H "Sussex"); [right; right; now left | exact E3]. }
  reflexivity.
Qed.

(** X8.  [get_census_data_by_county] for a county that is none of the three of
    the FIPS table: no request is issued and nothing sleeps, whatever the
    retry parameters.  The call prints that no code was found and returns
    [None]; a name that cannot be a dict key (a list, a dict) makes the lookup
    raise a [TypeError] instead. *)
Theorem census_unlisted_county_is_not_fetched :
  forall X api_key state_fips county year max_retries retry_delay w,
    (forall name, In name county_names -> county <> PStr name) ->
    Education.get_census_data_by_county X api_key state_fips county year
      max_retries retry_delay w
    = if py_hashable county
      then (Ret PNone,
            snd (print [Lit "FIPS code not found for "; Val county] w))
      else (Raise TypeError, w).
Proof.
  intros X api_key sf county year mr d w H.
  unfold Education.get_census_data_by_county.
  rewrite (unlisted_county_lookup county H).
  destruct (py_hashable county); reflexivity.
Qed.

(** A county of another state. *)
Lemma census_unlisted_county_is_not_fetched_witness :
  exists w',
    Education.get_census_data_by_county census_up key0 (PStr "10")
      (PStr "Franklin") (PInt 2022) 3 5 World0 = (Ret PNone, w')
    /\ requests w' = [] /\ sleeps w' = []
    /\ stdout w' = [[Lit "FIPS code not found for "; Val (PStr "Franklin")]].
Proof.
  eexists. split.
  - apply (census_unlisted_county_is_not_fetched census_up key0 (PStr "10")
             (PStr "Franklin") (PInt 2022) 3 5 World0).
    intros name [<- | [<- | [<- | []]]]; discriminate.
  - split; [reflexivity|]. split; reflexivity.
Defined.

(** ** Replies that are not transient failures *)

Section RetrySettled.
Variable X : Externals.
Variable u : Line.
Variable ps : list (string * pyval).
Variable unwrap : Response -> M (Flow pyval).
Variables max_retries retry_delay : Z.

Hypothesis unwrap_quiet : forall r, quiet (unwrap r).
Hypothesis unwrap_settles : forall r, never_continues (unwrap r).
Hypothesis unwrap_decoded :
  forall t data w0,
    match fst (unwrap (mkResponse t (Some data)) w0) with
    | Ret _ => True
    | Raise e => unexpected e
    end.

Let req : Request := mkRequest u ps.

Local Abbreviation attempt_at :=
  (retry_attempt X u ps unwrap max_retries retry_delay).
Local Abbreviation the_call :=
  (retry_call X u ps unwrap max_retries retry_delay).

(** An attempt whose reply is not a transient failure returns. *)
Lemma attempt_settles attempt w :
  transient (net X (List.length (requests w)) req) = false ->
  exists v, fst (attempt_at attempt w) = Ret (Return v).
Proof.
  intro Ht. unfold retry_attempt. unfold try_except at 1. rewrite bind_run.
  unfold requests_get. fold req. fold (sent req w).
  destruct (net X (List.length (requests w)) req) as [e | t [data|]];
    cbn [transient] in Ht; try discriminate.
  - cbn [find fst snd]. rewrite Ht. cbn [fst snd]. now exists PNone.
  - unfold try_except at 1.
    pose proof (unwrap_decoded t data (sent req w)) as Hu.
    pose proof (unwrap_settles (mkResponse t (Some data)) (sent req w)) as Hn.
    destruct (unwrap (mkResponse t (Some data)) (sent req w))
      as [[[|v] | e] w2]; cbn [fst snd] in *.
    + now elim Hn.
    + now exists v.
    + destruct Hu as (Hn1 & Hn2). cbn [find fst snd]. rewrite Hn2.
      cbn [find fst snd]. rewrite Hn1. cbn [fst snd]. now exists PNone.
Qed.

(** A call whose first reply is not a transient failure returns after that
    one request, without a sleep. *)
Lemma call_settles w :
  1 <= max_retries ->
  transient (net X (List.length (requests w)) req) = false ->
  exists v w', the_call w = (Ret v, w') /\ extends w w' [req] [].
Proof.
  intros Hm Ht. unfold retry_call, py_range.
  destruct (Z.to_nat max_retries) as [|k] eqn:Ek; [lia|].
  cbn [seq map for_each]. rewrite !bind_run.
  destruct (attempt_settles (Z.of_nat 0) w Ht) as (v & Hv).
  pose proof (attempt_outcome X u ps unwrap max_retries retry_delay
                unwrap_quiet unwrap_settles (Z.of_nat 0) w) as Ho.
  destruct (attempt_at (Z.of_nat 0) w) as [[[|v'] | e] w1];
    cbn [fst snd] in *; try discriminate.
  injection Hv as ->. exists v, w1. split; [reflexivity | exact Ho].
Qed.

(** A fetcher whose replies are never transient failures makes one request
    a call and never sleeps. *)
Lemma retry_call_spends_one (P : Request -> Prop) :
  1 <= max_retries ->
  (forall n r, transient (net X n r) = false) ->
  P req -> spends P retry_delay 1 0 the_call.
Proof.
  intros Hm Hnet HP w.
  destruct (call_settles w Hm (Hnet _ _)) as (v & w' & He & Hr & Hs & _ & Hd).
  rewrite He. cbn [snd]. exists [req], []. repeat split; auto.
Qed.

End RetrySettled.

Lemma bea_unwrap_decoded t data w0 :
  match fst (Business.bea_unwrap (mkResponse t (Some data)) w0) with
  | Ret _ => True
  | Raise e => unexpected e
  end.
Proof.
  destruct (dict_path ["BEAAPI"; "Results"; "Data"] data) as [p|] eqn:Hp.
  - now rewrite (bea_unwrap_data t data p Hp w0).
  - destruct (bea_unwrap_no_data t data Hp) as [Hy | (e & He & Hu)].
    + now rewrite (Hy w0).
    + now rewrite (He w0).
Qed.

Lemma census_unwrap_decoded_at sf cf y t data w0 :
  match fst (Education.census_unwrap sf cf y (mkResponse t (Some data)) w0) with
  | Ret _ => True
  | Raise e => unexpected e
  end.
Proof.
  destruct (census_unwrap_decoded sf cf y t data)
    as [(v & Hy & _) | (e & He & Hu)].
  - now rewrite (Hy w0).
  - now rewrite (He w0).
Qed.

(** ** Budgets of requests and sleeps *)

Lemma within_same P secs w w' :
  requests w' = requests w -> sleeps w' = sleeps w -> dirs w' = dirs w ->
  within P secs 0 0 w w'.
Proof.
  intros Hr Hs Hd. exists [], []. rewrite !app_nil_r.
  repeat split; auto.
Qed.

Lemma within_trans P secs r1 s1 r2 s2 w1 w2 w3 :
  within P secs r1 s1 w1 w2 -> within P secs r2 s2 w2 w3 ->
  within P secs (r1 + r2) (s1 + s2) w1 w3.
Proof.
  intros (rs1 & n1 & Hr1 & Hl1 & Hp1 & Hs1 & Hm1 & Hq1 & Hd1)
         (rs2 & n2 & Hr2 & Hl2 & Hp2 & Hs2 & Hm2 & Hq2 & Hd2).
  exists (rs1 ++ rs2), (n1 ++ n2).
  rewrite Hr2, Hr1, Hs2, Hs1, Hd2, Hd1, !app_assoc, !length_app.
  split; [reflexivity|]. split; [lia|]. split; [now apply Forall_app|].
  split; [reflexivity|]. split; [lia|]. split; [now apply Forall_app|].
  reflexivity.
Qed.

Lemma within_weaken P secs r s r' s' w w' :
  (r <= r')%nat -> (s <= s')%nat ->
  within P secs r s w w' -> within P secs r' s' w w'.
Proof.
  intros Hr Hs (rs & naps & H1 & H2 & H3 & H4 & H5 & H6 & H7).
  exists rs, naps. repeat split; auto; lia.
Qed.

Lemma spends_weaken {A} P secs r s r' s' (m : M A) :
  (r <= r')%nat -> (s <= s')%nat ->
  spends P secs r s m -> spends P secs r' s' m.
Proof. intros Hr Hs H w. exact (within_weaken _ _ _ _ _ _ _ _ Hr Hs (H w)). Qed.

Lemma spends_ret {A} P secs (a : A) : spends P secs 0 0 (ret a).
Proof. intro w. now apply within_same. Qed.

Lemma spends_raise {A} P secs e : spends P secs 0 0 (@raise A e).
Proof. intro w. now apply within_same. Qed.

Lemma spends_lift {A} P secs (r : Res A) : spends P secs 0 0 (lift r).
Proof. intro w. now apply within_same. Qed.

Lemma spends_print P secs l : spends P secs 0 0 (print l).
Proof. intro w. now apply within_same. Qed.

Lemma spends_to_excel P secs X df file sheet :
  spends P secs 0 0 (to_excel X df file sheet).
Proof.
  intro w. unfold to_excel.
  destruct (to_excel_error X file df); now apply within_same.
Qed.

Lemma spends_bind {A B} P secs r1 s1 r2 s2 (m : M A) (k : A -> M B) :
  spends P secs r1 s1 m -> (forall a, spends P secs r2 s2 (k a)) ->
  spends P secs (r1 + r2) (s1 + s2) (bind m k).
Proof.
  intros Hm Hk w. unfold bind. specialize (Hm w).
  destruct (m w) as [[a | e] w1]; cbn [snd] in *.
  - exact (within_trans _ _ _ _ _ _ _ _ _ Hm (Hk a w1)).
  - apply (within_weaken P secs r1 s1); [lia | lia | exact Hm].
Qed.

Lemma spends_then {A B} P secs (m : M A) (k : A -> M B) :
  spends P secs 0 0 m -> (forall a, spends P secs 0 0 (k a)) ->
  spends P secs 0 0 (bind m k).
Proof. exact (spends_bind P secs 0 0 0 0 m k). Qed.

(** A loop of [n] passes costs [n] times what a pass may cost. *)
Lemma spends_for_each_with {T S R} P secs r s (items : list T)
  (body : T -> S -> M (Flow R * S)) :
  (forall x s0, In x items -> spends P secs r s (body x s0)) ->
  forall s0,
    spends P secs (List.length items * r) (List.length items * s)
           (for_each_with items s0 body).
Proof.
  induction items as [|x items IH]; intros Hb s0.
  - apply spends_ret.
  - cbn [for_each_with List.length Nat.mul].
    apply spends_bind; [apply Hb; now left|].
    intros [f s1]. cbn [fst snd]. destruct f as [|v].
    + apply IH. intros y s2 Hy. apply Hb. now right.
    + apply (spends_weaken P secs 0 0); [lia | lia | apply spends_ret].
Qed.

(** Statements that neither fetch nor sleep. *)
Ltac spends_nothing extra :=
  repeat first
    [ extra
    | apply spends_ret | apply spends_raise | apply spends_lift
    | apply spends_print | apply spends_to_excel
    | apply spends_then; [|intro]
    | match goal with
      | |- spends _ _ _ _ (if ?b then _ else _) => destruct b
      | |- spends _ _ _ _ (match ?x with _ => _ end) => destruct x
      end ].

(** A fetch call stays within [max_retries] requests and one sleep
    fewer. *)
Lemma retry_call_spends X u ps unwrap mr d (P : Request -> Prop) :
  (forall r, quiet (unwrap r)) -> (forall r, never_continues (unwrap r)) ->
  P (mkRequest u ps) ->
  spends P d (Z.to_nat mr) (Z.to_nat mr - 1) (retry_call X u ps unwrap mr d).
Proof.
  intros Hq Hn HP w.
  destruct (call_outcome X u ps unwrap mr d Hq Hn w)
    as (n & Hle & _ & (Hr & Hs & _ & Hd) & _).
  exists (repeat (mkRequest u ps) n), (repeat d (n - 1)).
  rewrite !repeat_length.
  split; [exact Hr|]. split; [exact Hle|].
  split; [apply Forall_forall; intros x Hx; apply repeat_spec in Hx;
          now subst x|].
  split; [exact Hs|]. split; [lia|].
  split; [apply Forall_forall; intros x Hx; apply repeat_spec in Hx;
          now subst x|].
  exact Hd.
Qed.

(** ** The BEA script as a whole *)

Lemma get_bea_data_spends X api_key geo year lc mr d (P : Request -> Prop) :
  P (bea_request api_key geo year lc) ->
  spends P d (Z.to_nat mr) (Z.to_nat mr - 1)
         (Business.get_bea_data X api_key geo year lc mr d).
Proof.
  intro HP. rewrite get_bea_data_unfold.
  now apply retry_call_spends;
    auto using bea_unwrap_quiet, bea_unwrap_settles.
Qed.

(** When no reply is a transient failure, a call is one request. *)
Lemma get_bea_data_spends_one X api_key geo year lc mr d (P : Request -> Prop) :
  1 <= mr -> (forall n r, transient (net X n r) = false) ->
  P (bea_request api_key geo year lc) ->
  spends P d 1 0 (Business.get_bea_data X api_key geo year lc mr d).
Proof.
  intros Hm Hnet HP. rewrite get_bea_data_unfold.
  apply retry_call_spends_one;
    [exact bea_unwrap_quiet | exact bea_unwrap_settles
    | exact bea_unwrap_decoded | exact Hm | exact Hnet | exact HP].
Qed.

Lemma business_export_state_spends X P state folder frames :
  spends P 5 0 0 (Business.export_state X state folder frames).
Proof. unfold Business.export_state. spends_nothing fail. Qed.

(** The budget of a run of the BEA script, from the budget [r], [s] of one
    of its fetch calls. *)
Section BusinessBudget.
Variable X : Externals.
Variable api_key : pyval.
Variables r s : nat.

Hypothesis call_budget :
  forall geo lc,
    bea_query api_key (bea_request api_key geo (PInt 2021) (PInt lc)) ->
    spends (bea_query api_key) 5 r s
           (Business.get_bea_data X api_key geo (PInt 2021) (PInt lc) 3 5).

Lemma collect_metric_spends geo county lc tag miss acc :
  In geo ["10003"; "10001"; "10005"]%string ->
  In lc [Business.BEA_LINE_CODE_GDP; Business.BEA_LINE_CODE_GDP_CAPITA;
         Business.BEA_LINE_CODE_ANNUAL_GDP_GROWTH] ->
  spends (bea_query api_key) 5 r s
         (Business.collect_metric X api_key (PStr geo) county lc tag miss acc).
Proof.
  intros Hg Hl. unfold Business.collect_metric.
  apply (spends_weaken (bea_query api_key) 5 (r + 0) (s + 0)); [lia | lia |].
  apply spends_bind.
  - apply call_budget. exists geo, lc. auto.
  - intro bea_data. spends_nothing fail.
Qed.

(** One pass of the county loop of the BEA script: three fetches. *)
Lemma bea_county_body_spends name s0 :
  In name county_names ->
  spends (bea_query api_key) 5 (3 * r) (3 * s)
         (Business.county_body X "Delaware" api_key (county_row name) s0).
Proof.
  intro Hin. unfold Business.county_body.
  rewrite county_row_name, bind_lift_Ret, String.eqb_refl.
  set (geo_fips := if str_key_eqb "New Castle" (PStr name) then _ else _).
  assert (Hg : exists geo,
             In geo ["10003"; "10001"; "10005"]%string
             /\ geo_fips = Some (PStr geo)).
  { subst geo_fips. destruct Hin as [<- | [<- | [<- | []]]]; eexists;
      (split; [|reflexivity]); cbn; auto. }
  destruct Hg as (geo & Hgin & Hg). clearbody geo_fips. subst geo_fips.
  destruct (py_truthy api_key).
  - rewrite bind_ret.
    apply (spends_weaken (bea_query api_key) 5
             (r + (r + (r + 0))) (s + (s + (s + 0)))); [lia | lia |].
    apply spends_bind; [apply collect_metric_spends; cbn; auto | intro acc1].
    apply spends_bind; [apply collect_metric_spends; cbn; auto | intro acc2].
    apply spends_bind; [apply collect_metric_spends; cbn; auto | intro acc3].
    apply spends_ret.
  - apply (spends_weaken (bea_query api_key) 5 0 0); [lia | lia |].
    spends_nothing fail.
Qed.

Lemma business_process_state_budget state folder :
  spends (bea_query api_key) 5 (9 * r) (9 * s)
         (Business.process_state X state folder api_key).
Proof.
  unfold Business.process_state.
  destruct (String.eqb state "Delaware") eqn:Hs.
  - apply String.eqb_eq in Hs. subst state.
    rewrite business_resolver_delaware, bind_ret, delaware_rows.
    change [county_row "New Castle"; county_row "Kent"; county_row "Sussex"]
      with (map county_row county_names).
    apply (spends_weaken (bea_query api_key) 5
             (List.length (map county_row county_names) * (3 * r) + 0)
             (List.length (map county_row county_names) * (3 * s) + 0));
      [cbn [List.length map county_names]; lia
      | cbn [List.length map county_names]; lia |].
    apply spends_bind.
    + apply spends_for_each_with.
      intros x s0 Hx. apply in_map_iff in Hx. destruct Hx as (name & <- & Hin).
      now apply bea_county_body_spends.
    + intros [f s1]. cbn [fst snd]. destruct f.
      * apply business_export_state_spends.
      * apply spends_ret.
  - apply (spends_weaken (bea_query api_key) 5 0 0); [lia | lia |].
    apply spends_print.
Qed.

End BusinessBudget.

Lemma business_process_state_spends X state folder api_key :
  spends (bea_query api_key) 5 27 18
         (Business.process_state X state folder api_key).
Proof.
  apply (business_process_state_budget X api_key 3 2).
  intros geo lc HP.
  exact (get_bea_data_spends X api_key geo (PInt 2021) (PInt lc) 3 5 _ HP).
Qed.

Lemma business_process_state_spends_one X state folder api_key :
  (forall n r, transient (net X n r) = false) ->
  spends (bea_query api_key) 5 9 0
         (Business.process_state X state folder api_key).
Proof.
  intro Hnet. apply (business_process_state_budget X api_key 1 0).
  intros geo lc HP.
  apply get_bea_data_spends_one; [lia | exact Hnet | exact HP].
Qed.

(** The export step of the BEA script writes nothing, or one table that has
    a row, under the name made of the folder and the state. *)
Lemma business_export_state_named X state folder frames w :
  exports (snd (Business.export_state X state folder frames w)) = exports w
  \/ exists tbl,
      frame_empty tbl = false
      /\ exports (snd (Business.export_state X state folder frames w))
         = exports w
           ++ [mkExport
                 (os_path_join folder (state ++ "_bea_data_2021.xlsx")%string)
                 "BEA Data" tbl].
Proof.
  unfold Business.export_state. rewrite bind_run.
  destruct frames as [|f rest].
  - left. reflexivity.
  - unfold lift. destruct (pd_concat (f :: rest)) as [tbl | e] eqn:Hc.
    + destruct (frame_empty tbl) eqn:He; cbn [negb].
      * left. reflexivity.
      * right. exists tbl. split; [exact He|].
        rewrite bind_run. unfold to_excel.
        destruct (to_excel_error X _ tbl); reflexivity.
    + left. reflexivity.
Qed.

Lemma business_process_state_named X state folder api_key w :
  exports (snd (Business.process_state X state folder api_key w)) = exports w
  \/ exists tbl,
      state = "Delaware"%string
      /\ frame_empty tbl = false
      /\ exports (snd (Business.process_state X state folder api_key w))
         = exports w
           ++ [mkExport (os_path_join folder "Delaware_bea_data_2021.xlsx")
                 "BEA Data" tbl].
Proof.
  unfold Business.process_state.
  destruct (String.eqb state "Delaware") eqn:Hs; [|left; reflexivity].
  apply String.eqb_eq in Hs. subst state.
  rewrite business_resolver_delaware, bind_ret, delaware_rows.
  change [county_row "New Castle"; county_row "Kent"; county_row "Sussex"]
    with (map county_row county_names).
  rewrite bind_run.
  destruct (county_loop_spec X api_key county_names ([], None) w) as [Hx _].
  unfold Business.Locals in *.
  destruct (for_each_with (map county_row county_names) ([], None) _ w)
    as [[[flow s'] | e] w1]; cbn [fst snd] in *; [|left; exact Hx].
  destruct flow as [|[]]; [|left; exact Hx].
  destruct (business_export_state_named X "Delaware" folder (fst s') w1)
    as [He | (tbl & Hne & He)]; [left; congruence|].
  right. exists tbl. split; [reflexivity|]. split; [exact Hne|].
  rewrite He, Hx. reflexivity.
Qed.

(** X9.  [process_state] of the BEA script, whatever the state, the credential
    and the network: at most 27 requests, each a query for one of the three
    county codes and one of the three line codes for 2021 with the credential
    given; at most 18 sleeps, each of 5 seconds; no directory made. *)
Theorem business_run_budget :
  forall X state output_folder api_key w,
    within (bea_query api_key) 5 27 18 w
           (snd (Business.process_state X state output_folder api_key w)).
Proof.
  intros X state folder api_key w.
  exact (business_process_state_spends X state folder api_key w).
Qed.

(** X10.  [process_state] of the BEA script exports at most one spreadsheet in
    a run, and only for Delaware: the file is [Delaware_bea_data_2021.xlsx] in
    the output folder, the sheet is "BEA Data", and the table has at least one
    row and one column. *)
Theorem business_run_exports_one_named_table :
  forall X state output_folder api_key w,
    exports (snd (Business.process_state X state output_folder api_key w))
    = exports w
    \/ exists tbl,
        state = "Delaware"%string
        /\ frame_empty tbl = false
        /\ exports (snd (Business.process_state X state output_folder
                           api_key w))
           = exports w
             ++ [mkExport
                   (os_path_join output_folder "Delaware_bea_data_2021.xlsx")
                   "BEA Data" tbl].
Proof.
  intros X state folder api_key w.
  exact (business_process_state_named X state folder api_key w).
Qed.

(** X11.  The BEA script run as a program, in directory [cwd]: the directory
    [cwd/Delaware] is made first, and a directory that cannot be made ends the
    run before any request.  Otherwise the run stays within the budget of
    [process_state], every request carrying the credential of line 195, and
    exports at most one spreadsheet, [Delaware_bea_data_2021.xlsx] in that
    directory. *)
Theorem business_main_run :
  forall X cwd w,
    match makedirs_error X (os_path_join cwd "Delaware") with
    | Some e => Business.main X cwd w = (Raise e, w)
    | None =>
        within (bea_query Business.bea_api_key) 5 27 18
               (made (os_path_join cwd "Delaware") w)
               (snd (Business.main X cwd w))
        /\ (exports (snd (Business.main X cwd w)) = exports w
            \/ exists tbl,
                frame_empty tbl = false
                /\ exports (snd (Business.main X cwd w))
                   = exports w
                     ++ [mkExport
                           (os_path_join (os_path_join cwd "Delaware")
                              "Delaware_bea_data_2021.xlsx")
                           "BEA Data" tbl])
    end.
Proof.
  intros X cwd w. unfold Business.main. cbn [for_each].
  rewrite !bind_run. unfold os_makedirs.
  destruct (makedirs_error X (os_path_join cwd "Delaware")); [reflexivity|].
  fold (made (os_path_join cwd "Delaware") w). rewrite bind_run.
  pose proof (business_process_state_spends X "Delaware"
                (os_path_join cwd "Delaware") Business.bea_api_key
                (made (os_path_join cwd "Delaware") w)) as Hb.
  pose proof (business_process_state_named X "Delaware"
                (os_path_join cwd "Delaware") Business.bea_api_key
                (made (os_path_join cwd "Delaware") w)) as He.
  destruct (Business.process_state X "Delaware" (os_path_join cwd "Delaware")
              Business.bea_api_key (made (os_path_join cwd "Delaware") w))
    as [[[] | e] w1]; cbn [fst snd ret] in *.
  - split; [exact Hb|].
    destruct He as [He | (tbl & _ & Hne & He)]; [now left|].
    right. now exists tbl.
  - split; [exact Hb|].
    destruct He as [He | (tbl & _ & Hne & He)]; [now left|].
    right. now exists tbl.
Qed.

(** X12.  [process_state] of the BEA script for a state other than Delaware:
    one line is printed and nothing else happens. *)
Theorem business_other_state_is_refused :
  forall X state output_folder api_key w,
    state <> "Delaware"%string ->
    Business.process_state X state output_folder api_key w
    = (Ret tt,
       mkWorld (requests w) (sleeps w)
         (stdout w ++ [[Lit "State "; Val (PStr state);
                        Lit " not yet implemented."]])
         (exports w) (dirs w)).
Proof.
  intros X state folder api_key w Hs. unfold Business.process_state.
  apply String.eqb_neq in Hs. rewrite Hs. reflexivity.
Qed.

Lemma business_other_state_is_refused_witness :
  exists w',
    Business.process_state one_record_each "Ohio" "out" key0 World0
    = (Ret tt, w')
    /\ requests w' = [] /\ exports w' = [] /\ dirs w' = [].
Proof.
  eexists. split.
  - apply (business_other_state_is_refused one_record_each "Ohio" "out"
             key0 World0).
    discriminate.
  - split; [reflexivity|]. split; reflexivity.
Defined.

(** ** The census script as a whole *)

Lemma listed_county_code name :
  In name county_names ->
  exists cf,
    In cf ["003"; "001"; "005"]%string
    /\ dict_get (PStr name) Education.fips_codes = Some (PStr cf).
Proof.
  intro Hin. destruct Hin as [<- | [<- | [<- | []]]]; eexists;
    (split; [|reflexivity]); cbn; auto.
Qed.

Lemma get_census_data_spends X api_key name :
  In name county_names ->
  spends (census_query api_key) 5 3 2
         (Education.get_census_data_by_county X api_key (PStr "10") (PStr name)
            (PInt 2022) 3 5).
Proof.
  intro Hin. destruct (listed_county_code name Hin) as (cf & Hcf & Hk).
  rewrite (get_census_data_unfold X api_key (PStr "10") (PStr name) (PStr cf)
             (PInt 2022) 3 5 eq_refl Hk).
  apply (retry_call_spends X _ _ _ 3 5 (census_query api_key)
           (census_unwrap_quiet _ _ _) (census_unwrap_settles _ _ _)).
  exists cf. split; [exact Hcf | reflexivity].
Qed.

(** When no reply is a transient failure, a call is one request. *)
Lemma get_census_data_spends_one X api_key name :
  (forall n r, transient (net X n r) = false) ->
  In name county_names ->
  spends (census_query api_key) 5 1 0
         (Education.get_census_data_by_county X api_key (PStr "10") (PStr name)
            (PInt 2022) 3 5).
Proof.
  intros Hnet Hin. destruct (listed_county_code name Hin) as (cf & Hcf & Hk).
  rewrite (get_census_data_unfold X api_key (PStr "10") (PStr name) (PStr cf)
             (PInt 2022) 3 5 eq_refl Hk).
  apply (retry_call_spends_one X _ _ _ 3 5
           (census_unwrap_quiet _ _ _) (census_unwrap_settles _ _ _)
           (census_unwrap_decoded_at _ _ _) (census_query api_key));
    [lia | exact Hnet |].
  exists cf. split; [exact Hcf | reflexivity].
Qed.

Lemma transform_census_data_spends X P df :
  spends P 5 0 0 (Education.transform_census_data X df).
Proof. unfold Education.transform_census_data. spends_nothing fail. Qed.

Lemma census_export_state_spends X P state folder frames :
  spends P 5 0 0 (Education.export_state X state folder frames).
Proof.
  unfold Education.export_state.
  spends_nothing ltac:(apply transform_census_data_spends).
Qed.

(** The budget of a run of the census script, from the budget [r], [s] of
    one of its fetch calls. *)
Section CensusBudget.
Variable X : Externals.
Variable api_key : pyval.
Variables r s : nat.

Hypothesis call_budget :
  forall name,
    In name county_names ->
    spends (census_query api_key) 5 r s
           (Education.get_census_data_by_county X api_key (PStr "10")
              (PStr name) (PInt 2022) 3 5).

(** One pass of the county loop of the census script: one fetch. *)
Lemma census_county_body_spends name acc :
  In name county_names ->
  spends (census_query api_key) 5 r s
         (Education.county_body X (PStr "10") api_key (county_row name) acc).
Proof.
  intro Hin. unfold Education.county_body.
  rewrite county_row_name, bind_lift_Ret.
  destruct (py_truthy api_key).
  - apply (spends_weaken (census_query api_key) 5 (r + 0) (s + 0));
      [lia | lia |].
    apply spends_bind.
    + now apply call_budget.
    + intro census_data. spends_nothing fail.
  - apply (spends_weaken (census_query api_key) 5 0 0); [lia | lia |].
    spends_nothing fail.
Qed.

Lemma census_process_state_budget state folder w :
  match makedirs_error X folder with
  | Some e => Education.process_state X state folder api_key w = (Raise e, w)
  | None =>
      within (census_query api_key) 5 (3 * r) (3 * s) (made folder w)
             (snd (Education.process_state X state folder api_key w))
  end.
Proof.
  unfold Education.process_state. rewrite bind_run. unfold os_makedirs.
  destruct (makedirs_error X folder); [reflexivity|].
  fold (made folder w).
  match goal with
  | |- within _ _ _ _ _ (snd (?m _)) =>
      assert (H : spends (census_query api_key) 5 (3 * r) (3 * s) m);
        [|exact (H _)]
  end.
  destruct (String.eqb state "Delaware") eqn:Hs.
  - apply String.eqb_eq in Hs. subst state.
    rewrite education_resolver_delaware, bind_ret, delaware_rows.
    change [county_row "New Castle"; county_row "Kent"; county_row "Sussex"]
      with (map county_row county_names).
    apply (spends_weaken (census_query api_key) 5
             (List.length (map county_row county_names) * r + 0)
             (List.length (map county_row county_names) * s + 0));
      [cbn [List.length map county_names]; lia
      | cbn [List.length map county_names]; lia |].
    apply spends_bind.
    + apply spends_for_each_with.
      intros x s0 Hx. apply in_map_iff in Hx. destruct Hx as (name & <- & Hin).
      now apply census_county_body_spends.
    + intros [f s1]. cbn [fst snd]. destruct f.
      * apply census_export_state_spends.
      * apply spends_ret.
  - apply (spends_weaken (census_query api_key) 5 0 0); [lia | lia |].
    apply spends_print.
Qed.

End CensusBudget.

Lemma census_process_state_spends X state folder api_key w :
  match makedirs_error X folder with
  | Some e => Education.process_state X state folder api_key w = (Raise e, w)
  | None =>
      within (census_query api_key) 5 9 6 (made folder w)
             (snd (Education.process_state X state folder api_key w))
  end.
Proof.
  apply (census_process_state_budget X api_key 3 2).
  intros name Hin. now apply get_census_data_spends.
Qed.

Lemma census_process_state_spends_one X state folder api_key w :
  (forall n r, transient (net X n r) = false) ->
  match makedirs_error X folder with
  | Some e => Education.process_state X state folder api_key w = (Raise e, w)
  | None =>
      within (census_query api_key) 5 3 0 (made folder w)
             (snd (Education.process_state X state folder api_key w))
  end.
Proof.
  intro Hnet. apply (census_process_state_budget X api_key 1 0).
  intros name Hin. now apply get_census_data_spends_one.
Qed.

(** X13.  [process_state] of the census script, whatever the state, the
    credential and the network: the directory is made first, and a directory
    that cannot be made ends the call there; after it come at most 9 requests,
    each a query for one of the three county codes in state 10 for 2022 with
    the credential given, and at most 6 sleeps, each of 5 seconds. *)
Theorem census_run_budget :
  forall X state output_folder api_key w,
    match makedirs_error X output_folder with
    | Some e =>
        Education.process_state X state output_folder api_key w = (Raise e, w)
    | None =>
        within (census_query api_key) 5 9 6 (made output_folder w)
               (snd (Education.process_state X state output_folder api_key w))
    end.
Proof.
  intros X state folder api_key w.
  exact (census_process_state_spends X state folder api_key w).
Qed.

(** X14.  [process_state] of the census script for a state other than
    Delaware: the output directory has been made (unless that fails) when the
    state is refused; nothing is fetched and nothing exported. *)
Theorem census_other_state_leaves_a_directory :
  forall X state output_folder api_key w,
    state <> "Delaware"%string ->
    makedirs_error X output_folder = None ->
    Education.process_state X state output_folder api_key w
    = (Ret tt,
       mkWorld (requests w) (sleeps w)
         (stdout w ++ [[Lit "State "; Val (PStr state);
                        Lit " not yet implemented."]])
         (exports w) (dirs w ++ [output_folder])).
Proof.
  intros X state folder api_key w Hs Hm. unfold Education.process_state.
  rewrite bind_run. unfold os_makedirs. rewrite Hm.
  apply String.eqb_neq in Hs. rewrite Hs. reflexivity.
Qed.

Lemma census_other_state_leaves_a_directory_witness :
  exists w',
    Education.process_state census_up "Ohio" "output/Ohio" key0 World0
    = (Ret tt, w')
    /\ requests w' = [] /\ exports w' = [] /\ dirs w' = ["output/Ohio"%string].
Proof.
  eexists. split.
  - apply (census_other_state_leaves_a_directory census_up "Ohio"
             "output/Ohio" key0 World0).
    + discriminate.
    + reflexivity.
  - split; [reflexivity|]. split; reflexivity.
Defined.

(** One pass of the county loop appends nothing, or a one-row frame that
    carries the four education figures. *)
Lemma census_county_body_figures X sf api_key name acc w :
  match fst (Education.county_body X sf api_key (county_row name) acc w) with
  | Ret (_, acc') =>
      acc' = acc \/ exists df, acc' = acc ++ [df] /\ figures_frame df
  | Raise _ => True
  end.
Proof.
  unfold Education.county_body. rewrite county_row_name, bind_lift_Ret.
  destruct (py_truthy api_key); [|now left].
  rewrite bind_run.
  destruct (get_census_data_spec X api_key sf (PStr name) (PInt 2022) 3 5 w)
    as [_ Hv].
  destruct (Education.get_census_data_by_county X api_key sf (PStr name)
              (PInt 2022) 3 5 w) as [[census_data | e] w1];
    cbn [fst snd] in *; [|auto].
  destruct (py_truthy census_data) eqn:Ht; [|now left].
  destruct (truthy_dict census_data Ht (Hv census_data eq_refl))
    as (items & ->).
  cbn [fst]. right. eexists. split; [reflexivity|].
  unfold figures_frame, education_figures, frame_set_scalar.
  rewrite !nrows_set_cells. split; [reflexivity|].
  repeat constructor; cbn [fst snd];
    try (repeat first [apply has_label_set_same | apply has_label_set_other]);
    rewrite ?frame_cells_set_other by reflexivity;
    now rewrite frame_cells_set_same.
Qed.

Lemma census_county_loop_figures X sf api_key names : forall acc w,
  match fst (for_each_with (map county_row names) acc
               (Education.county_body X sf api_key) w) with
  | Ret (_, acc') =>
      exists frames, acc' = acc ++ frames /\ Forall figures_frame frames
  | Raise _ => True
  end.
Proof.
  induction names as [|name names IH]; intros acc w.
  - cbn. exists []. rewrite app_nil_r. split; [reflexivity | constructor].
  - cbn [map for_each_with]. rewrite bind_run.
    pose proof (census_county_body_figures X sf api_key name acc w) as H1.
    destruct (Education.county_body X sf api_key (county_row name) acc w)
      as [[[flow acc1] | e] w1]; cbn [fst snd] in *; [|exact I].
    assert (H1' : exists frames,
               acc1 = acc ++ frames /\ Forall figures_frame frames).
    { destruct H1 as [-> | (df & -> & Hdf)].
      - exists []. rewrite app_nil_r. split; [reflexivity | constructor].
      - exists [df]. split; [reflexivity|]. constructor; [exact Hdf|].
        constructor. }
    destruct H1' as (f1 & -> & Hf1).
    destruct flow as [|[]].
    + specialize (IH (acc ++ f1) w1).
      destruct (for_each_with (map county_row names) (acc ++ f1) _ w1)
        as [[[flow2 acc2] | e2] w2]; cbn [fst snd] in *; [|exact I].
      destruct IH as (f2 & -> & Hf2). exists (f1 ++ f2).
      split; [now rewrite app_assoc | now apply Forall_app].
    + cbn [ret fst snd]. exists f1. split; [reflexivity | exact Hf1].
Qed.

Lemma figures_frames_cells frames :
  Forall figures_frame frames ->
  forall lv, In lv education_figures ->
    flat_map (frame_cells (PStr (fst lv))) frames
    = repeat (snd lv) (total_rows frames)
    /\ forall g, In g frames -> has_label (PStr (fst lv)) g = true.
Proof.
  induction 1 as [|df frames (Hn & Hall) _ IH]; intros lv Hin.
  - split; [reflexivity | intros g []].
  - destruct (IH lv Hin) as (IH1 & IH2).
    rewrite Forall_forall in Hall. destruct (Hall lv Hin) as (Hl & Hc).
    cbn [flat_map total_rows fold_right]. rewrite Hc, Hn, IH1. split.
    + reflexivity.
    + intros g [<- | Hg]; auto.
Qed.

(** The export step of the census script writes nothing, or one table that
    has a row, under the name made of the folder and the state; the table
    has the rows of the concatenation and its cells under every label that
    the transformation does not touch. *)
Lemma census_export_state_cells X state folder frames w :
  exports (snd (Education.export_state X state folder frames w)) = exports w
  \/ exists tbl out,
      pd_concat frames = Ret tbl
      /\ frame_empty out = false
      /\ nrows out = nrows tbl
      /\ (forall s,
             String.eqb s "B01001_001E" = false ->
             String.eqb s "Total Population" = false ->
             String.eqb s "Area (sq mi)" = false ->
             String.eqb s "Population Density (per sq mi)" = false ->
             frame_cells (PStr s) out = frame_cells (PStr s) tbl)
      /\ exports (snd (Education.export_state X state folder frames w))
         = exports w
           ++ [mkExport
                 (os_path_join folder (state ++ "_census_data_2022.xlsx")%string)
                 "Census Data" out].
Proof.
  destruct (pd_concat frames) as [tbl | e] eqn:Hc;
    [|left; unfold Education.export_state; rewrite Hc; reflexivity].
  pose proof (transform_census_data_keeps X tbl w) as Hk.
  destruct (Education.transform_census_data X (Some tbl) w)
    as [[[out|] | e] w1] eqn:Ht; cbn [fst snd] in Hk.
  - assert (Hx : exports w1 = exports w)
      by exact (proj1 (Hk "County"%string eq_refl eq_refl eq_refl eq_refl)).
    destruct (frame_empty out) eqn:He.
    + left. unfold Education.export_state.
      rewrite Hc, bind_lift_Ret, bind_run, Ht, He. exact Hx.
    + right. exists tbl, out. split; [reflexivity|]. split; [exact He|].
      split; [exact (proj2 (proj2 (Hk "County"%string eq_refl eq_refl eq_refl
                                      eq_refl)))|].
      split; [intros s H1 H2 H3 H4; exact (proj1 (proj2 (Hk s H1 H2 H3 H4)))|].
      unfold Education.export_state.
      rewrite Hc, bind_lift_Ret, bind_run, Ht, He. cbn [negb].
      rewrite bind_run. unfold to_excel.
      destruct (to_excel_error X
                  (os_path_join folder (state ++ "_census_data_2022.xlsx")%string)
                  out);
        cbn [snd print exports]; now rewrite Hx.
  - elim (proj2 (Hk "County"%string eq_refl eq_refl eq_refl eq_refl)).
  - left. unfold Education.export_state.
    rewrite Hc, bind_lift_Ret, bind_run, Ht.
    exact (proj1 (Hk "County"%string eq_refl eq_refl eq_refl eq_refl)).
Qed.

Lemma census_process_state_export X state folder api_key w :
  exports (snd (Education.process_state X state folder api_key w)) = exports w
  \/ exists out,
      state = "Delaware"%string
      /\ frame_empty out = false
      /\ Forall (fun lv => frame_cells (PStr (fst lv)) out
                           = repeat (snd lv) (nrows out))
                education_figures
      /\ exports (snd (Education.process_state X state folder api_key w))
         = exports w
           ++ [mkExport (os_path_join folder "Delaware_census_data_2022.xlsx")
                 "Census Data" out].
Proof.
  unfold Education.process_state. rewrite bind_run. unfold os_makedirs.
  destruct (makedirs_error X folder); [left; reflexivity|].
  fold (made folder w). change (exports w) with (exports (made folder w)).
  destruct (String.eqb state "Delaware") eqn:Hs; [|left; reflexivity].
  apply String.eqb_eq in Hs. subst state.
  rewrite education_resolver_delaware, bind_ret, delaware_rows.
  change [county_row "New Castle"; county_row "Kent"; county_row "Sussex"]
    with (map county_row county_names).
  rewrite bind_run.
  destruct (census_county_loop_spec X (PStr "10") api_key county_names []
              (made folder w)) as [Hx _].
  pose proof (census_county_loop_figures X (PStr "10") api_key county_names []
                (made folder w)) as Hf.
  destruct (for_each_with (map county_row county_names) [] _ (made folder w))
    as [[[flow acc] | e] w1]; cbn [fst snd] in *; [|left; exact Hx].
  destruct flow as [|[]]; [|left; exact Hx].
  destruct Hf as (frames & -> & Hf). cbn [app].
  destruct (census_export_state_cells X "Delaware" folder frames w1)
    as [He | (tbl & out & Hcat & Hne & Hrows & Hcells & He)];
    [left; congruence|].
  right. exists out. split; [reflexivity|]. split; [exact Hne|].
  split; [|rewrite He, Hx; reflexivity].
  apply Forall_forall. intros lv Hin.
  destruct (figures_frames_cells frames Hf lv Hin) as (Hfl & Hl).
  rewrite Hrows, (pd_concat_nrows frames tbl Hcat), <- Hfl.
  rewrite <- (pd_concat_cells _ frames tbl Hcat Hl).
  destruct Hin as [<- | [<- | [<- | [<- | []]]]]; now apply Hcells.
Qed.

(** X15.  [process_state] of the census script exports at most one spreadsheet
    in a run, and only for Delaware: the file is
    [Delaware_census_data_2022.xlsx] in the output folder, the sheet is
    "Census Data", and the table has at least one row and one column. *)
Theorem census_run_exports_one_named_table :
  forall X state output_folder api_key w,
    exports (snd (Education.process_state X state output_folder api_key w))
    = exports w
    \/ exists tbl,
        state = "Delaware"%string
        /\ frame_empty tbl = false
        /\ exports (snd (Education.process_state X state output_folder
                           api_key w))
           = exports w
             ++ [mkExport
                   (os_path_join output_folder
                      "Delaware_census_data_2022.xlsx")
                   "Census Data" tbl].
Proof.
  intros X state folder api_key w.
  destruct (census_process_state_export X state folder api_key w)
    as [H | (out & Hs & Hne & _ & He)]; [now left|].
  right. now exists out.
Qed.

(** X16.  Every row of a table the census script exports carries the same four
    education figures, the constants of lines 12-15, whatever the county and
    whatever the network answered: 87, 9.9, 24.9 and 5. *)
Theorem census_export_rows_carry_the_figures :
  forall X state output_folder api_key w ex,
    In ex (exports (snd (Education.process_state X state output_folder
                           api_key w))) ->
    In ex (exports w)
    \/ Forall (fun lv => frame_cells (PStr (fst lv)) (table ex)
                         = repeat (snd lv) (nrows (table ex)))
              education_figures.
Proof.
  intros X state folder api_key w ex Hin.
  destruct (census_process_state_export X state folder api_key w)
    as [H | (out & _ & _ & Hfig & He)].
  - left. now rewrite <- H.
  - rewrite He in Hin. apply in_app_or in Hin.
    destruct Hin as [Hin | [<- | []]]; [now left|].
    right. exact Hfig.
Qed.

(** Every county answers: the three rows carry the figures. *)
#[warnings="-inexact-float"]
Lemma census_export_rows_carry_the_figures_witness :
  exists ex,
    exports (snd (Education.process_state census_up "Delaware" "out" key0
                    World0)) = [ex]
    /\ frame_cells (PStr "High School Completion (%)") (table ex)
       = [PInt 87; PInt 87; PInt 87]
    /\ frame_cells (PStr "Bachelors Degree (%)") (table ex)
       = [PFloat 24.9%float; PFloat 24.9%float; PFloat 24.9%float].
Proof.
  assert (He : exists ex,
             exports (snd (Education.process_state census_up "Delaware" "out"
                             key0 World0)) = [ex]
             /\ nrows (table ex) = 3%nat).
  { eexists. split; vm_compute; reflexivity. }
  destruct He as (ex & He & Hn). exists ex. split; [exact He|].
  destruct (census_export_rows_carry_the_figures census_up "Delaware" "out"
              key0 World0 ex) as [[] | Hfig].
  - rewrite He. now left.
  - rewrite Forall_forall in Hfig.
    pose proof (Hfig ("High School Completion (%)"%string,
                      Education.HIGH_SCHOOL_GRADUATION_RATE)) as H1.
    pose proof (Hfig ("Bachelors Degree (%)"%string,
                      Education.BACHELORS_DEGREE_ATTAINMENT)) as H2.
    cbn [fst snd] in H1, H2. rewrite H1, H2, Hn by (cbn; auto).
    split; reflexivity.
Defined.

(** X17.  The census script run as a program: the directory [output/Delaware]
    is made first, and a directory that cannot be made ends the run before any
    request.  Otherwise the run stays within the budget of [process_state],
    every request carrying the credential of line 189, and exports at most one
    spreadsheet, [output/Delaware/Delaware_census_data_2022.xlsx]. *)
Theorem census_main_run :
  forall X w,
    match makedirs_error X "output/Delaware" with
    | Some e => Education.main X w = (Raise e, w)
    | None =>
        within (census_query Education.census_api_key) 5 9 6
               (made "output/Delaware" w) (snd (Education.main X w))
        /\ (exports (snd (Education.main X w)) = exports w
            \/ exists tbl,
                frame_empty tbl = false
                /\ exports (snd (Education.main X w))
                   = exports w
                     ++ [mkExport
                           "output/Delaware/Delaware_census_data_2022.xlsx"
                           "Census Data" tbl])
    end.
Proof.
  intros X w. unfold Education.main. cbn [for_each].
  rewrite !bind_run.
  change ("output/" ++ "Delaware")%string with "output/Delaware"%string.
  pose proof (census_process_state_spends X "Delaware" "output/Delaware"
                Education.census_api_key w) as Hb.
  pose proof (census_process_state_export X "Delaware" "output/Delaware"
                Education.census_api_key w) as He.
  change (os_path_join "output/Delaware" "Delaware_census_data_2022.xlsx")
    with "output/Delaware/Delaware_census_data_2022.xlsx"%string in He.
  destruct (makedirs_error X "output/Delaware").
  - rewrite Hb. reflexivity.
  - destruct (Education.process_state X "Delaware" "output/Delaware"
                Education.census_api_key w)
      as [[[] | e] w1]; cbn [fst snd ret] in *.
    + split; [exact Hb|].
      destruct He as [He | (tbl & _ & Hne & _ & He)]; [now left|].
      right. now exists tbl.
    + split; [exact Hb|].
      destruct He as [He | (tbl & _ & Hne & _ & He)]; [now left|].
      right. now exists tbl.
Qed.

(** ** The transformers, column by column *)

Lemma record_labels_has s (records : list (list (pyval * pyval))) : forall acc,
  (existsb (py_key_eqb (PStr s)) acc = true
   \/ exists r, In r records
                /\ existsb (py_key_eqb (PStr s)) (map fst r) = true) ->
  existsb (py_key_eqb (PStr s))
    (fold_left (fun acc r => fold_left add_label (map fst r) acc) records acc)
  = true.
Proof.
  induction records as [|r0 records IH]; intros acc H.
  - destruct H as [H | (r & [] & _)]. exact H.
  - cbn [fold_left]. apply IH. destruct H as [H | (r & [<- | Hin] & Hr)].
    + left. now apply add_labels_keep.
    + left. now apply add_labels_adds.
    + right. now exists r.
Qed.

Lemma dict_get_key k items v :
  dict_get k items = Some v -> existsb (py_key_eqb k) (map fst items) = true.
Proof.
  induction items as [|[k' v'] items IH]; [discriminate|].
  cbn [dict_get map existsb fst]. destruct (py_key_eqb k k'); auto.
Qed.

(** X18.  [transform_bea_data] loses nothing of a list of records: a field
    for which some record carries a string (as the BEA service gives every
    value), other than the two the transformer assigns, becomes a column
    that holds every record's value for it, in order, with [NaN] for a
    record that lacks it. *)
Theorem transform_bea_data_keeps_the_fields :
  forall X records county tag s r text,
    forallb is_dict records = true ->
    s <> "County"%string -> s <> "DataType"%string ->
    In r records -> dict_get (PStr s) (dict_items r) = Some (PStr text) ->
    exists out,
      Business.transform_bea_data X (PList records) county tag
      = Ret (Some out)
      /\ has_label (PStr s) out = true
      /\ frame_cells (PStr s) out
         = map (fun r => record_cell (PStr s) (dict_items r)) records.
Proof.
  intros X records county tag s r text Hd Hc Ht Hin Hv.
  assert (Hl : existsb (py_key_eqb (PStr s))
                 (record_labels (map dict_items records)) = true).
  { unfold record_labels. apply record_labels_has. right.
    exists (dict_items r). split; [now apply in_map|].
    exact (dict_get_key _ _ _ Hv). }
  assert (Hobj : existsb is_object
                   (map (record_cell (PStr s)) (map dict_items records))
                 = true).
  { apply existsb_exists. exists (PStr text). split; [|reflexivity].
    apply in_map_iff. exists (dict_items r). split; [|now apply in_map].
    unfold record_cell. now rewrite Hv. }
  eexists. split.
  - apply transform_bea_data_built; [discriminate|].
    cbn [pd_DataFrame]. rewrite Hd. reflexivity.
  - unfold frame_set_scalar, infer_objects, from_records. cbn [nrows cols].
    rewrite map_map. cbn [fst snd]. split.
    + do 2 apply has_label_set_other. unfold has_label, labels.
      cbn [cols]. rewrite map_map. cbn [fst]. now rewrite map_id.
    + apply String.eqb_neq in Hc, Ht.
      rewrite !frame_cells_set_other by now rewrite String.eqb_sym.
      rewrite (frame_cells_tabulate s
                 (fun l => infer_column X
                             (map (record_cell l) (map dict_items records))))
        by exact Hl.
      unfold infer_column. rewrite Hobj. cbn [orb]. now rewrite map_map.
Qed.

(** Two records, the second without a value: the value and [NaN]. *)
Lemma transform_bea_data_keeps_the_fields_witness :
  exists out,
    Business.transform_bea_data (scripted [])
      (PList [bea_record "7,518"; PDict [(PStr "GeoFips", PStr "10001")]])
      (PStr "Kent") (PStr "GDP") = Ret (Some out)
    /\ has_label (PStr "DataValue") out = true
    /\ frame_cells (PStr "DataValue") out = [PStr "7,518"; NaN].
Proof.
  apply (transform_bea_data_keeps_the_fields (scripted [])
           [bea_record "7,518"; PDict [(PStr "GeoFips", PStr "10001")]]
           (PStr "Kent") (PStr "GDP") "DataValue" (bea_record "7,518")
           "7,518").
  - reflexivity.
  - discriminate.
  - discriminate.
  - now left.
  - reflexivity.
Defined.

(** X19.  [transform_census_data] leaves alone what it does not name: whenever
    it returns, it returns a table, with as many rows as it was given and,
    under every label other than 'B01001_001E', 'Total Population', 'Area (sq
    mi)' and 'Population Density (per sq mi)', the cells it was given.
    Whether it returns or raises, it exports nothing. *)
Theorem transform_census_data_keeps_other_columns :
  forall X census_df w s,
    s <> "B01001_001E"%string -> s <> "Total Population"%string ->
    s <> "Area (sq mi)"%string ->
    s <> "Population Density (per sq mi)"%string ->
    exports (snd (Education.transform_census_data X (Some census_df) w))
    = exports w
    /\ match fst (Education.transform_census_data X (Some census_df) w) with
       | Ret (Some out) =>
           frame_cells (PStr s) out = frame_cells (PStr s) census_df
           /\ nrows out = nrows census_df
       | Ret None => False
       | Raise _ => True
       end.
Proof.
  intros X df w s H1 H2 H3 H4.
  apply transform_census_data_keeps; now apply String.eqb_neq.
Qed.

(** The names of two counties pass through. *)
Lemma transform_census_data_keeps_other_columns_witness :
  exists out,
    fst (Education.transform_census_data (scripted []) (Some two_counties)
           World0) = Ret (Some out)
    /\ frame_cells (PStr "NAME") out
       = [PStr "New Castle County, Delaware"; PStr "Kent County, Delaware"]
    /\ nrows out = 2%nat.
Proof.
  destruct (transform_census_data_keeps_other_columns (scripted [])
              two_counties World0 "NAME") as [_ H]; try discriminate.
  destruct (fst (Education.transform_census_data (scripted [])
                   (Some two_counties) World0)) as [[out|] | e] eqn:E.
  - exists out. split; [reflexivity|]. exact H.
  - elim H.
  - vm_compute in E. discriminate.
Defined.

Lemma has_label_rename_gone a b df :
  String.eqb a b = false ->
  has_label (PStr a) (frame_rename df (PStr a) (PStr b)) = false.
Proof.
  intro Hne. unfold has_label, labels, frame_rename. cbn [cols].
  rewrite map_map. induction (cols df) as [|[k c] cs IH]; [reflexivity|].
  cbn [map existsb fst]. rewrite IH, orb_false_r.
  destruct (py_key_eqb (PStr a) k) eqn:E; cbn [fst]; [|exact E].
  cbn [py_key_eqb]. exact Hne.
Qed.

Lemma has_label_set_cells_other l s' df c :
  py_key_eqb l (PStr s') = false ->
  has_label l (frame_set_cells df (PStr s') c) = has_label l df.
Proof.
  intro Hne. unfold frame_set_cells. destruct (has_label (PStr s') df).
  - unfold has_label, labels, replace_columns. cbn [cols].
    rewrite map_map. f_equal. apply map_ext.
    intros [k x]. cbn [fst]. now destruct (py_key_eqb (PStr s') k).
  - unfold has_label, labels. cbn [cols]. rewrite map_app, existsb_app.
    cbn [map existsb fst]. rewrite Hne. now rewrite !orb_false_r.
Qed.

(** X20.  [transform_census_data] on a table with distinct labels, a
    'B01001_001E' column of scalars and no 'Total Population' column: the
    population column is renamed, so that no column is labelled 'B01001_001E'
    in the output, and 'Total Population' holds the cells of 'B01001_001E'
    coerced to numbers one by one, in order. *)
Theorem transform_census_data_renames_and_coerces :
  forall X census_df w,
    has_dup (labels census_df) = false ->
    has_label Education.B01001_001E census_df = true ->
    has_label Education.Total_Population census_df = false ->
    List.length (frame_cells Education.B01001_001E census_df)
    = nrows census_df ->
    forallb is_scalar (frame_cells Education.B01001_001E census_df) = true ->
    exists out,
      Education.transform_census_data X (Some census_df) w
      = (Ret (Some out), w)
      /\ has_label Education.B01001_001E out = false
      /\ has_label Education.Total_Population out = true
      /\ frame_cells Education.Total_Population out
         = map (to_numeric_cell X (frame_cells Education.B01001_001E census_df))
               (frame_cells Education.B01001_001E census_df).
Proof.
  intros X df w Hdup HB HTP Hlen Hsc.
  exists (census_transformed X df).
  split; [now apply transform_census_data_run|].
  unfold census_transformed, Education.B01001_001E, Education.Total_Population,
    Education.Area, Education.Population_Density.
  split; [|split].
  - rewrite !has_label_set_cells_other by reflexivity.
    now apply has_label_rename_gone.
  - do 2 apply has_label_set_other. apply has_label_set_same.
  - rewrite !frame_cells_set_other by reflexivity.
    apply frame_cells_set_same.
Qed.

(** The populations of two counties, read as numbers. *)
Lemma transform_census_data_renames_and_coerces_witness :
  exists out,
    Education.transform_census_data census_up (Some two_counties) World0
    = (Ret (Some out), World0)
    /\ has_label Education.B01001_001E out = false
    /\ has_label Education.Total_Population out = true
    /\ frame_cells Education.Total_Population out
       = [PInt 575494; PInt 186946].
Proof.
  apply (transform_census_data_renames_and_coerces census_up two_counties
           World0); reflexivity.
Defined.

(** ** Runs in which no reply is a transient failure *)

(** X21.  A run of the BEA script in which no reply is a transient failure
    (every request is answered by a body that decodes, or fails with something
    other than a transport error) issues at most nine requests, one for each
    county and metric, and never sleeps. *)
Theorem business_run_without_failures_never_sleeps :
  forall X state output_folder api_key w,
    (forall n r, transient (net X n r) = false) ->
    within (bea_query api_key) 5 9 0 w
           (snd (Business.process_state X state output_folder api_key w)).
Proof.
  intros X state folder api_key w Hnet.
  exact (business_process_state_spends_one X state folder api_key Hnet w).
Qed.

(** Every request is answered with one record. *)
Lemma business_run_without_failures_never_sleeps_witness :
  within (bea_query key0) 5 9 0 World0
         (snd (Business.process_state (steady (bea_ok [bea_record "81,746"]))
                 "Delaware" "out" key0 World0)).
Proof.
  apply (business_run_without_failures_never_sleeps
           (steady (bea_ok [bea_record "81,746"])) "Delaware" "out" key0
           World0).
  intros n r. reflexivity.
Defined.

(** X22.  A run of the census script in which no reply is a transient failure
    and the directory can be made issues at most three requests, one for each
    county, and never sleeps. *)
Theorem census_run_without_failures_never_sleeps :
  forall X state output_folder api_key w,
    (forall n r, transient (net X n r) = false) ->
    makedirs_error X output_folder = None ->
    within (census_query api_key) 5 3 0 (made output_folder w)
           (snd (Education.process_state X state output_folder api_key w)).
Proof.
  intros X state folder api_key w Hnet Hm.
  pose proof (census_process_state_spends_one X state folder api_key w Hnet)
    as H.
  now rewrite Hm in H.
Qed.

(** Every request is answered with a header alone. *)
Lemma census_run_without_failures_never_sleeps_witness :
  within (census_query key0) 5 3 0 (made "out" World0)
         (snd (Education.process_state
                 (steady (ReplyBody "[..]" (Some (PList [PList [PStr "NAME"]]))))
                 "Delaware" "out" key0 World0)).
Proof.
  apply (census_run_without_failures_never_sleeps
           (steady (ReplyBody "[..]" (Some (PList [PList [PStr "NAME"]]))))
           "Delaware" "out" key0 World0).
  - intros n r. reflexivity.
  - reflexivity.
Defined.

(** ** Runs with the network down *)

Lemma after_trans secs r1 s1 r2 s2 w1 w2 w3 :
  after secs r1 s1 w1 w2 -> after secs r2 s2 w2 w3 ->
  after secs (r1 + r2) (s1 + s2) w1 w3.
Proof.
  intros (rs1 & Hl1 & H1) (rs2 & Hl2 & H2). exists (rs1 ++ rs2).
  split; [rewrite length_app; lia|].
  rewrite repeat_app. exact (extends_trans _ _ _ _ _ _ _ H1 H2).
Qed.

Lemma after_print secs r s w w1 l :
  after secs r s w w1 -> after secs r s w (snd (print l w1)).
Proof.
  intros (rs & Hl & H). exists rs. split; [exact Hl|].
  exact (extends_nil_r _ _ _ _ _ H (quiet_print l w1)).
Qed.

Ltac run_step H := rewrite bind_run, H; cbn beta iota.

Section NetworkDown.
Variable X : Externals.
Variable api_key : pyval.
Hypothesis has_key : py_truthy api_key = true.
Hypothesis down : forall n r, transient (net X n r) = true.

Lemma bea_call_down geo lc w :
  exists w',
    Business.get_bea_data X api_key geo (PInt 2021) (PInt lc) 3 5 w
    = (Ret PNone, w')
    /\ after 5 3 2 w w'.
Proof.
  rewrite get_bea_data_unfold.
  destruct (retry_call_exhausted X [Lit Business.BEA_API_URL]
              (Business.bea_params api_key geo (PInt 2021) (PInt lc))
              Business.bea_unwrap 3 5 bea_unwrap_quiet bea_unwrap_undecodable w)
    as (w' & He & Hx); [lia | lia | intros; apply down |].
  exists w'. split; [exact He|]. eexists. split; [|exact Hx]. reflexivity.
Qed.

Lemma collect_metric_down geo county lc tag miss acc w :
  exists w',
    Business.collect_metric X api_key geo county lc tag miss acc w
    = (Ret acc, w')
    /\ after 5 3 2 w w'.
Proof.
  unfold Business.collect_metric.
  destruct (bea_call_down geo lc w) as (w1 & He & Ha).
  run_step He. cbn [py_truthy]. eexists. split; [reflexivity|].
  now apply after_print.
Qed.

Lemma bea_county_body_down name s w :
  In name county_names ->
  exists w' g,
    Business.county_body X "Delaware" api_key (county_row name) s w
    = (Ret (Continue, (fst s, g)), w')
    /\ after 5 9 6 w w'.
Proof.
  intro Hin. unfold Business.county_body.
  rewrite county_row_name, bind_lift_Ret, String.eqb_refl.
  set (geo_fips := if str_key_eqb "New Castle" (PStr name) then _ else _).
  assert (Hg : exists geo, geo_fips = Some geo).
  { subst geo_fips. destruct Hin as [<- | [<- | [<- | []]]]; eexists;
      reflexivity. }
  destruct Hg as (geo & Hg). clearbody geo_fips. subst geo_fips.
  rewrite has_key, bind_ret.
  destruct (collect_metric_down geo (PStr name) Business.BEA_LINE_CODE_GDP
              "GDP" [Lit "Skipping "; Val (PStr name);
                     Lit " due to missing BEA GDP data."] (fst s) w)
    as (w1 & He1 & Ha1).
  run_step He1.
  destruct (collect_metric_down geo (PStr name)
              Business.BEA_LINE_CODE_GDP_CAPITA "GDP_CAPITA"
              [Lit "Skipping "; Val (PStr name);
               Lit " due to missing BEA GDP Capita data."] (fst s) w1)
    as (w2 & He2 & Ha2).
  run_step He2.
  destruct (collect_metric_down geo (PStr name)
              Business.BEA_LINE_CODE_ANNUAL_GDP_GROWTH "ANNUAL_GDP_GROWTH"
              [Lit "Skipping "; Val (PStr name);
               Lit " due to missing BEA Annual GDP Growth data."] (fst s) w2)
    as (w3 & He3 & Ha3).
  run_step He3.
  exists w3, (Some geo). split; [reflexivity|].
  exact (after_trans 5 3 2 6 4 _ _ _ Ha1 (after_trans 5 3 2 3 2 _ _ _ Ha2 Ha3)).
Qed.

Lemma bea_county_loop_down names : forall s w,
  Forall (fun name => In name county_names) names ->
  exists w' g,
    for_each_with (map county_row names) s
      (Business.county_body X "Delaware" api_key) w
    = (Ret (Continue, (fst s, g)), w')
    /\ after 5 (9 * List.length names) (6 * List.length names) w w'.
Proof.
  induction names as [|name names IH]; intros s w Hall.
  - exists w, (snd s). split; [now destruct s|].
    exists []. split; [reflexivity | apply extends_refl].
  - inversion Hall as [|? ? Hin Hrest]; subst.
    cbn [map for_each_with].
    destruct (bea_county_body_down name s w Hin) as (w1 & g1 & He1 & Ha1).
    run_step He1. cbn [fst snd].
    destruct (IH (fst s, g1) w1 Hrest) as (w2 & g2 & He2 & Ha2).
    rewrite He2. exists w2, g2. split; [reflexivity|].
    replace (9 * List.length (name :: names))%nat
      with (9 + 9 * List.length names)%nat by (cbn [List.length]; lia).
    replace (6 * List.length (name :: names))%nat
      with (6 + 6 * List.length names)%nat by (cbn [List.length]; lia).
    exact (after_trans _ _ _ _ _ _ _ _ Ha1 Ha2).
Qed.

Lemma business_process_state_down folder w :
  exists w',
    Business.process_state X "Delaware" folder api_key w = (Ret tt, w')
    /\ after 5 27 18 w w'
    /\ last (stdout w') []
       = [Lit "No BEA data to save for "; Val (PStr "Delaware")].
Proof.
  unfold Business.process_state. rewrite String.eqb_refl.
  rewrite business_resolver_delaware, bind_ret, delaware_rows.
  change [county_row "New Castle"; county_row "Kent"; county_row "Sussex"]
    with (map county_row county_names).
  destruct (bea_county_loop_down county_names ([], None) w) as (w1 & g & He & Ha).
  { apply Forall_forall. auto. }
  unfold Business.Locals in *. run_step He. cbn [fst snd].
  eexists. split; [reflexivity|]. split.
  - now apply after_print.
  - cbn [snd print stdout]. apply last_last.
Qed.

Lemma census_call_down name w :
  In name county_names ->
  exists w',
    Education.get_census_data_by_county X api_key (PStr "10") (PStr name)
      (PInt 2022) 3 5 w = (Ret PNone, w')
    /\ after 5 3 2 w w'.
Proof.
  intro Hin. destruct (listed_county_code name Hin) as (cf & _ & Hk).
  rewrite (get_census_data_unfold X api_key (PStr "10") (PStr name) (PStr cf)
             (PInt 2022) 3 5 eq_refl Hk).
  destruct (retry_call_exhausted X
              (Education.census_url api_key (PStr "10") (PStr cf) (PInt 2022))
              [] (Education.census_unwrap (PStr "10") (PStr cf) (PInt 2022))
              3 5 (census_unwrap_quiet _ _ _) (census_unwrap_undecodable _ _ _)
              w)
    as (w' & He & Hx); [lia | lia | intros; apply down |].
  exists w'. split; [exact He|]. eexists. split; [|exact Hx]. reflexivity.
Qed.

Lemma census_county_body_down name acc w :
  In name county_names ->
  exists w',
    Education.county_body X (PStr "10") api_key (county_row name) acc w
    = (Ret (Continue, acc), w')
    /\ after 5 3 2 w w'.
Proof.
  intro Hin. unfold Education.county_body.
  rewrite county_row_name, bind_lift_Ret, has_key.
  destruct (census_call_down name w Hin) as (w1 & He & Ha).
  run_step He. cbn [py_truthy]. eexists. split; [reflexivity|].
  now apply after_print.
Qed.

Lemma census_county_loop_down names : forall acc w,
  Forall (fun name => In name county_names) names ->
  exists w',
    for_each_with (map county_row names) acc
      (Education.county_body X (PStr "10") api_key) w
    = (Ret (Continue, acc), w')
    /\ after 5 (3 * List.length names) (2 * List.length names) w w'.
Proof.
  induction names as [|name names IH]; intros acc w Hall.
  - exists w. split; [reflexivity|].
    exists []. split; [reflexivity | apply extends_refl].
  - inversion Hall as [|? ? Hin Hrest]; subst.
    cbn [map for_each_with].
    destruct (census_county_body_down name acc w Hin) as (w1 & He1 & Ha1).
    run_step He1. cbn [fst snd].
    destruct (IH acc w1 Hrest) as (w2 & He2 & Ha2).
    rewrite He2. exists w2. split; [reflexivity|].
    replace (3 * List.length (name :: names))%nat
      with (3 + 3 * List.length names)%nat by (cbn [List.length]; lia).
    replace (2 * List.length (name :: names))%nat
      with (2 + 2 * List.length names)%nat by (cbn [List.length]; lia).
    exact (after_trans _ _ _ _ _ _ _ _ Ha1 Ha2).
Qed.

Lemma census_process_state_down folder w :
  makedirs_error X folder = None ->
  exists w',
    Education.process_state X "Delaware" folder api_key w
    = (Raise ValueError, w')
    /\ after 5 9 6 (made folder w) w'.
Proof.
  intro Hm. unfold Education.process_state. rewrite bind_run.
  unfold os_makedirs. rewrite Hm. fold (made folder w).
  rewrite String.eqb_refl.
  rewrite education_resolver_delaware, bind_ret, delaware_rows.
  change [county_row "New Castle"; county_row "Kent"; county_row "Sussex"]
    with (map county_row county_names).
  destruct (census_county_loop_down county_names [] (made folder w))
    as (w1 & He & Ha).
  { apply Forall_forall. auto. }
  run_step He. cbn [fst snd].
  exists w1. split; [reflexivity | exact Ha].
Qed.

End NetworkDown.

(** X23.  A run of the BEA script with a credential, while every request meets
    a transient failure: the run ends normally after exactly 27 requests and
    18 sleeps of 5 seconds, the most a run can take; it exports nothing and
    its last line says that there is nothing to save. *)
Theorem business_run_with_the_network_down :
  forall X output_folder api_key w,
    py_truthy api_key = true ->
    (forall n r, transient (net X n r) = true) ->
    exists w',
      Business.process_state X "Delaware" output_folder api_key w
      = (Ret tt, w')
      /\ after 5 27 18 w w'
      /\ last (stdout w') []
         = [Lit "No BEA data to save for "; Val (PStr "Delaware")].
Proof.
  intros X folder api_key w Hk Hd.
  exact (business_process_state_down X api_key Hk Hd folder w).
Qed.

Lemma business_run_with_the_network_down_witness :
  exists w',
    Business.process_state (scripted []) "Delaware" "out" key0 World0
    = (Ret tt, w')
    /\ after 5 27 18 World0 w'
    /\ last (stdout w') []
       = [Lit "No BEA data to save for "; Val (PStr "Delaware")].
Proof.
  apply (business_run_with_the_network_down (scripted []) "out" key0 World0).
  - reflexivity.
  - intros n r. destruct n; reflexivity.
Defined.

(** X24.  A run of the census script with a credential, while every request
    meets a transient failure: after the directory is made come exactly 9
    requests and 6 sleeps of 5 seconds, the most a run can take; then
    [pd.concat] is handed an empty list and its [ValueError] ends the run,
    with nothing exported. *)
Theorem census_run_with_the_network_down :
  forall X output_folder api_key w,
    py_truthy api_key = true ->
    makedirs_error X output_folder = None ->
    (forall n r, transient (net X n r) = true) ->
    exists w',
      Education.process_state X "Delaware" output_folder api_key w
      = (Raise ValueError, w')
      /\ after 5 9 6 (made output_folder w) w'.
Proof.
  intros X folder api_key w Hk Hm Hd.
  exact (census_process_state_down X api_key Hk Hd folder w Hm).
Qed.

Lemma census_run_with_the_network_down_witness :
  exists w',
    Education.process_state (steady (ReplyBody "<html>" None)) "Delaware"
      "out" key0 World0 = (Raise ValueError, w')
    /\ after 5 9 6 (made "out" World0) w'.
Proof.
  apply (census_run_with_the_network_down (steady (ReplyBody "<html>" None))
           "out" key0 World0).
  - reflexivity.
  - reflexivity.
  - intros n r. reflexivity.
Defined.
